(** * aiAgent: the task-orchestration core, embedded and verified

    A shallow embedding of the control loop of the repository:
    - [agent/unified_agent.py]: task classification, plan generation and the
      step executor of [UnifiedAgent];
    - [agent/reflection/evaluator.py], [analyzer.py], [adjuster.py],
      [wrapper.py]: the evaluate / analyze / adjust / retry loop of
      [ReflectionAgent];
    - [agent/tools.py], [agent/react.py]: tool dispatch and its retry loop.

    Conventions of the embedding.
    - A Python [str] is the list of its code points ([pystr]); literals are
      written [u "..."] and decoded from UTF-8 once.  [len] is [length],
      [a in b] is [contains a b].
    - A Python [float] is an exact rational ([Q]); rounding of binary
      floating point is not modelled.
    - A Python [dict] with string keys is a [gmap string _].
    - A call that may raise returns a sum or an option: a handler ends
      with [StepOk] or [StepRaised msg], a tool with [ToolReturns] or
      [ToolRaises msg]; in the evaluator and the analyzer [None] stands for
      the [TypeError] or [AttributeError] of an ill-typed result bag.  Code
      that catches exceptions pattern-matches on these.
    - Calls to the generative backend, to tools and to step handlers are
      parameters of the functions that make them: every theorem holds for
      all of their behaviours.  What the backend returns is taken after
      parsing: a JSON object with typed fields, or a failure.
    - Progress messages go to a callback whose failures are caught where
      the message is sent; they are left out, and so are timestamps other
      than the two kept in the result.

    The first part holds the definitions, module by module in the order of
    the source files; the second part holds the properties. *)

From Stdlib Require Import ZArith QArith Qminmax Lia Lqa Ascii.
From stdpp Require Import base option list strings pretty gmap fin_maps.

Local Open Scope Z_scope.

(** ** Python strings *)

Module PyStr.

Definition pystr : Type := list N.

(** UTF-8 decoding of a Rocq string literal into code points. *)
Fixpoint utf8_decode (bs : list N) : pystr :=
  match bs with
  | [] => []
  | b0 :: r0 =>
    if (b0 <? 128)%N then b0 :: utf8_decode r0
    else if (b0 <? 224)%N then
      match r0 with
      | b1 :: r1 =>
        N.lor (N.shiftl (N.land b0 31) 6) (N.land b1 63) :: utf8_decode r1
      | _ => []
      end
    else if (b0 <? 240)%N then
      match r0 with
      | b1 :: b2 :: r2 =>
        N.lor (N.shiftl (N.land b0 15) 12)
          (N.lor (N.shiftl (N.land b1 63) 6) (N.land b2 63)) :: utf8_decode r2
      | _ => []
      end
    else
      match r0 with
      | b1 :: b2 :: b3 :: r3 =>
        N.lor (N.shiftl (N.land b0 7) 18)
          (N.lor (N.shiftl (N.land b1 63) 12)
             (N.lor (N.shiftl (N.land b2 63) 6) (N.land b3 63))) :: utf8_decode r3
      | _ => []
      end
  end.

Fixpoint bytes_of (s : string) : list N :=
  match s with
  | EmptyString => []
  | String a r => N_of_ascii a :: bytes_of r
  end.

Definition u (s : string) : pystr := utf8_decode (bytes_of s).
Arguments u : simpl never.

(** [s.startswith(p)] *)
Fixpoint is_prefix (p s : pystr) : bool :=
  match p, s with
  | [], _ => true
  | _ :: _, [] => false
  | x :: p', y :: s' => (x =? y)%N && is_prefix p' s'
  end.

(** [needle in hay] on two strings. *)
Fixpoint contains (needle hay : pystr) : bool :=
  is_prefix needle hay ||
  match hay with
  | [] => false
  | _ :: t => contains needle t
  end.

(** [any(kw in s for kw in kws)], which is also what a
    [for kw in kws: if kw in s: return ...] loop decides. *)
Fixpoint any_in (kws : list pystr) (s : pystr) : bool :=
  match kws with
  | [] => false
  | kw :: rest => if contains kw s then true else any_in rest s
  end.

(** [str.lower] on one code point.  Only the ASCII capitals are mapped;
    the Unicode case table is not modelled (CJK text has no case). *)
Definition lower_cp (c : N) : N :=
  if ((65 <=? c) && (c <=? 90))%N then (c + 32)%N else c.

Definition lower (s : pystr) : pystr := map lower_cp s.

(** [s.count(c)] for a one-character [c]. *)
Definition count_cp (c : N) (s : pystr) : nat :=
  length (filter (fun x => x = c) s).

(** [sep.join(parts)] *)
Fixpoint join (sep : pystr) (parts : list pystr) : pystr :=
  match parts with
  | [] => []
  | [p] => p
  | p :: rest => p ++ sep ++ join sep rest
  end.

(** The newline character. *)
Definition NL : pystr := [10%N].

(** The declarative reading of [in]: the needle occurs somewhere. *)
Definition occurs_in (needle hay : pystr) : Prop :=
  ∃ pre post, hay = pre ++ needle ++ post.

End PyStr.
Import PyStr.

(** ** Python values *)

Set Warnings "-register-all".

Module PyVal.

(** The values a result bag, a context or a step output holds. *)
Inductive pyval :=
  | VNone
  | VBool (b : bool)
  | VInt (z : Z)
  | VFloat (q : Q)
  | VStr (s : pystr)
  | VList (l : list pyval)
  | VDict (d : gmap string pyval).

(** A dict with string keys: result bags, contexts, step outputs. *)
Abbreviation pydict := (gmap string pyval).

(** [not d] on a dict. *)
Definition dict_is_empty (d : pydict) : bool := bool_decide (size d = 0%nat).

(** [bool(v)] *)
Definition truthy (v : pyval) : bool :=
  match v with
  | VNone => false
  | VBool b => b
  | VInt z => negb (z =? 0)
  | VFloat q => negb (Qeq_bool q 0)
  | VStr s => match s with [] => false | _ => true end
  | VList l => match l with [] => false | _ => true end
  | VDict d => negb (dict_is_empty d)
  end.

(** [d.get(k)]: [None] when the key is absent. *)
Definition get (d : pydict) (k : string) : pyval := default VNone (d !! k).

(** [d.get(k, dflt)] *)
Definition get_or (d : pydict) (k : string) (dflt : pyval) : pyval :=
  default dflt (d !! k).

(** Typed readings.  [None] stands for the exception Python raises when
    the value has no such operation ([TypeError], [AttributeError]); the
    container meanings of [in] and [count] on a list or dict are outside
    the model and read as [None] too. *)
Definition as_str (v : pyval) : option pystr :=
  match v with VStr s => Some s | _ => None end.

Definition as_dict (v : pyval) : option pydict :=
  match v with VDict d => Some d | _ => None end.

Definition as_list (v : pyval) : option (list pyval) :=
  match v with VList l => Some l | _ => None end.

(** [len(v)] *)
Definition py_len (v : pyval) : option nat :=
  match v with
  | VStr s => Some (length s)
  | VList l => Some (length l)
  | VDict d => Some (size d)
  | _ => None
  end.

(** [v > 0] for a number. *)
Definition py_positive (v : pyval) : option bool :=
  match v with
  | VInt z => Some (0 <? z)
  | VFloat q => Some (negb (Qle_bool q 0))
  | VBool b => Some b
  | _ => None
  end.

(** [all(p.get(k) for p in ps)]: stops at the first falsy entry. *)
Fixpoint all_get (k : string) (ps : list pyval) : option bool :=
  match ps with
  | [] => Some true
  | p :: rest =>
    d ← as_dict p;
    if truthy (get d k) then all_get k rest else Some false
  end.

(** [any(p.get(k) for p in ps)]: stops at the first truthy entry. *)
Fixpoint any_get (k : string) (ps : list pyval) : option bool :=
  match ps with
  | [] => Some false
  | p :: rest =>
    d ← as_dict p;
    if truthy (get d k) then Some true else any_get k rest
  end.

(** [any(p.get(k, 0) > 0 for p in ps)] *)
Fixpoint any_positive (k : string) (ps : list pyval) : option bool :=
  match ps with
  | [] => Some false
  | p :: rest =>
    d ← as_dict p;
    py_positive (get_or d k (VInt 0)) ≫= λ b : bool,
      if b then Some true else any_positive k rest
  end.

End PyVal.
Import PyVal.

(** ** agent/reflection/evaluator.py *)

Module Evaluator.

Local Open Scope Q_scope.

Record EvaluationResult := mkEvaluation {
  completeness : Q;
  accuracy : Q;
  usefulness : Q;
  clarity : Q;
  passed : bool;
  feedback : pystr;
  details_task_type : pystr;
  details_result_keys : gset string
}.

(** [EvaluationResult()] with the dataclass defaults. *)
Definition EvaluationResult_default : EvaluationResult :=
  mkEvaluation 0 0 0 0 false [] [] ∅.

(** [EvaluationResult.overall_score] *)
Definition overall_score (e : EvaluationResult) : Q :=
  completeness e * (3#10) + accuracy e * (3#10) +
  usefulness e * (25#100) + clarity e * (15#100).

Definition PASS_THRESHOLD : Q := 6#10.

(** [x < y], [x > y] and [x >= y] on floats. *)
Definition Qltb (x y : Q) : bool := negb (Qle_bool y x).
Definition Qgeb (x y : Q) : bool := Qle_bool y x.

(** [score += w] under [if c:]. *)
Definition bonus (c : bool) (w : Q) : Q := if c then w else 0.

Definition str_eqb (a b : pystr) : bool := bool_decide (a = b).

(** [s.count(sub)] for a non-empty [sub]: non-overlapping occurrences,
    scanning from the left.  [skip] code points of the last match remain to be
    passed over. *)
Fixpoint count_from (sub s : pystr) (skip : nat) : nat :=
  match s with
  | [] => 0
  | _ :: t =>
    match skip with
    | S k => count_from sub t k
    | O => if is_prefix sub s
           then S (count_from sub t (Nat.pred (length sub)))
           else count_from sub t 0
    end
  end.

Definition str_count (sub s : pystr) : nat := count_from sub s 0.

(** [len(s.split(sep))] for a non-empty separator. *)
Definition split_len (sep s : pystr) : nat := S (str_count sep s).

(** [papers = result.get("research_result", {}).get("papers", [])],
    then [result.get("papers", [])] when that is falsy. *)
Definition result_papers (result : pydict) : option pyval :=
  rr ← as_dict (get_or result "research_result" (VDict ∅));
  let papers := get_or rr "papers" (VList []) in
  Some (if truthy papers then papers else get_or result "papers" (VList [])).

Definition final_answer_of (result : pydict) : pyval :=
  get_or result "final_answer" (VStr []).

(** [_evaluate_completeness] *)
Definition _evaluate_completeness (task : pystr) (result : pydict)
    (task_type : pystr) : option Q :=
  if dict_is_empty result then Some 0
  else
    score ←
      (if str_eqb task_type (u "literature_research") then
         papers ← result_papers result;
         if truthy papers then
           n ← py_len papers;
           ps ← as_list papers;
           titles ← all_get "title" ps;
           abstracts ← all_get "abstract" ps;
           Some (0 + (4#10) + bonus (bool_decide (5 ≤ n)%nat) (3#10)
                 + bonus titles (2#10) + bonus abstracts (1#10))
         else
           let final_answer := final_answer_of result in
           if truthy final_answer then
             n ← py_len final_answer;
             Some (0 + bonus (bool_decide (100 < n)%nat) (5#10))
           else Some 0
       else if str_eqb task_type (u "question_answering") then
         let answer := final_answer_of result in
         if truthy answer then
           n ← py_len answer;
           Some (0 + (3#10) + bonus (bool_decide (50 ≤ n)%nat) (4#10)
                 + bonus (bool_decide (200 ≤ n)%nat) (3#10))
         else Some 0
       else if str_eqb task_type (u "schedule_planning") then
         answer ← as_str (final_answer_of result);
         Some (0 + bonus (truthy (get result "schedule_info")
                          || truthy (get result "reminder")) (5#10)
               + bonus (truthy (get result "final_answer")) (3#10)
               + bonus (contains (u "成功") answer) (2#10))
       else if str_eqb task_type (u "experiment_management") then
         Some (0 + bonus (truthy (get result "experiments")
                          || truthy (get result "experiment_result")) (5#10)
               + bonus (truthy (get result "final_answer")) (3#10)
               + bonus (truthy (get result "statistics")) (2#10))
       else
         s1 ← (if truthy (get result "final_answer") then
                 n ← py_len (final_answer_of result);
                 Some (0 + (5#10) + bonus (bool_decide (50 < n)%nat) (3#10))
               else Some 0);
         s2 ← (if truthy (get result "plan") then
                 n ← py_len (get_or result "plan" (VList []));
                 Some (bonus (bool_decide (0 < n)%nat) (2#10))
               else Some 0);
         Some (s1 + s2));
    Some (Qmin 1 score).

(** [re.findall(r'[\u4e00-\u9fa5]+|[a-zA-Z]{2,}', task)]: the maximal runs
    of CJK ideographs, and the maximal runs of two or more ASCII letters,
    from left to right.  The run being read is kept reversed. *)
Inductive run :=
  | NoRun
  | CjkRun (acc : pystr)
  | LetterRun (acc : pystr).

Definition is_cjk (c : N) : bool := ((19968 <=? c) && (c <=? 40869))%N.

Definition is_ascii_letter (c : N) : bool :=
  (((97 <=? c) && (c <=? 122)) || ((65 <=? c) && (c <=? 90)))%N.

Definition flush (r : run) : list pystr :=
  match r with
  | NoRun => []
  | CjkRun acc => [rev acc]
  | LetterRun acc => if bool_decide (2 ≤ length acc)%nat then [rev acc] else []
  end.

Fixpoint findall_from (s : pystr) (r : run) : list pystr :=
  match s with
  | [] => flush r
  | c :: t =>
    if is_cjk c then
      match r with
      | CjkRun acc => findall_from t (CjkRun (c :: acc))
      | _ => flush r ++ findall_from t (CjkRun [c])
      end
    else if is_ascii_letter c then
      match r with
      | LetterRun acc => findall_from t (LetterRun (c :: acc))
      | _ => flush r ++ findall_from t (LetterRun [c])
      end
    else flush r ++ findall_from t NoRun
  end.

Definition findall_keywords (task : pystr) : list pystr :=
  findall_from task NoRun.

(** The inner [for kw in keywords: if ... : relevant_count += 1; break]. *)
Fixpoint keyword_hit (keywords : list pystr) (title abstract : pystr) : bool :=
  match keywords with
  | [] => false
  | kw :: rest =>
    if contains (lower kw) title || contains (lower kw) abstract then true
    else keyword_hit rest title abstract
  end.

(** The loop [for paper in papers[:10]], returning [relevant_count]. *)
Fixpoint relevant_count (keywords : list pystr) (ps : list pyval) : option nat :=
  match ps with
  | [] => Some 0%nat
  | paper :: rest =>
    d ← as_dict paper;
    title ← as_str (get_or d "title" (VStr []));
    abstract ← as_str (get_or d "abstract" (VStr []));
    n ← relevant_count keywords rest;
    Some (if keyword_hit keywords (lower title) (lower abstract) then S n else n)
  end.

Definition Qnat (n : nat) : Q := inject_Z (Z.of_nat n).

(** [_evaluate_accuracy] *)
Definition _evaluate_accuracy (task : pystr) (result : pydict)
    (task_type : pystr) : option Q :=
  if dict_is_empty result then Some 0
  else
    score ←
      (if str_eqb task_type (u "literature_research") then
         papers ← result_papers result;
         if truthy papers then
           ps ← as_list papers;
           count ← relevant_count (findall_keywords task) (take 10 ps);
           let relevance_ratio := Qnat count / Qnat (Nat.min (length ps) 10) in
           Some ((5#10) + relevance_ratio * (5#10))
         else Some (7#10)
       else if str_eqb task_type (u "question_answering") then
         let answer := final_answer_of result in
         if truthy answer then
           a ← as_str answer;
           Some (if contains (u "抱歉") a || contains (u "无法") a
                    || contains (u "错误") a then 3#10
                 else if bool_decide (100 < length a)%nat then 8#10
                 else 6#10)
         else Some (7#10)
       else Some (7#10));
    Some (Qmin 1 score).

Definition usefulness_markers : list pystr :=
  [u "1."; u "2."; u "•"; u "-"; u "第一"].

(** [_evaluate_usefulness] *)
Definition _evaluate_usefulness (task : pystr) (result : pydict)
    (task_type : pystr) : option Q :=
  if dict_is_empty result then Some 0
  else
    score ←
      (if str_eqb task_type (u "literature_research") then
         papers ← result_papers result;
         if truthy papers then
           ps ← as_list papers;
           url ← any_get "url" ps;
           pdf_url ← any_get "pdf_url" ps;
           cited ← any_positive "citation_count" ps;
           abstract ← any_get "abstract" ps;
           Some ((5#10) + bonus url (2#10) + bonus pdf_url (1#10)
                 + bonus cited (1#10) + bonus abstract (1#10))
         else Some (5#10)
       else if str_eqb task_type (u "question_answering") then
         answer ← as_str (final_answer_of result);
         Some ((5#10) + bonus (contains (u "```") answer) (2#10)
               + bonus (bool_decide (3 < str_count NL answer)%nat) (1#10)
               + bonus (any_in usefulness_markers answer) (1#10)
               + bonus (contains (u "例如") answer || contains (u "比如") answer
                        || contains (u "example") (lower answer)) (1#10))
       else Some (5#10));
    Some (Qmin 1 score).

(** [_evaluate_clarity] *)
Definition _evaluate_clarity (task : pystr) (result : pydict) : option Q :=
  if dict_is_empty result then Some 0
  else
    let answer := final_answer_of result in
    if negb (truthy answer) then Some (5#10)
    else
      a ← as_str answer;
      let score :=
        (5#10) + bonus (bool_decide (50 < length a)%nat) (1#10)
        + bonus (bool_decide (200 < length a)%nat) (1#10)
        + bonus (bool_decide (1 < split_len (NL ++ NL) a)%nat) (1#10)
        + bonus (contains (u "```") a) (1#10)
        + bonus (bool_decide (0 < str_count (u "##") a)%nat) (1#10) in
      Some (Qmin 1 score).

(** What the backend call of [_llm_evaluate] comes to.  [float(...)] of a
    field that is present is the number itself; a field that cannot be
    converted makes the call raise. *)
Inductive eval_reply :=
  | ReplyRaises
  | ReplyNoJson
  | ReplyData (completeness accuracy usefulness clarity : option Q)
              (feedback : pystr).

(** [_llm_evaluate]: [client] is [None] when no backend is configured. *)
Definition _llm_evaluate (client : option eval_reply) : EvaluationResult :=
  match client with
  | None => EvaluationResult_default
  | Some (ReplyData c a us cl fb) =>
    mkEvaluation (default (5#10) c) (default (5#10) a) (default (5#10) us)
                 (default (5#10) cl) false fb [] ∅
  | Some ReplyNoJson => EvaluationResult_default
  | Some ReplyRaises => EvaluationResult_default
  end.

(** [_generate_feedback] *)
Definition _generate_feedback (e : EvaluationResult) (task_type : pystr) : pystr :=
  let feedback_parts :=
    (if Qltb (completeness e) (5#10) then [u "结果不够完整"]
     else if Qltb (completeness e) (7#10) then [u "结果基本完整但可以更详细"]
     else [])
    ++ (if Qltb (accuracy e) (5#10) then [u "结果准确性需要提高"] else [])
    ++ (if Qltb (usefulness e) (5#10) then [u "结果的实用性有待加强"] else [])
    ++ (if Qltb (clarity e) (5#10) then [u "结果表达可以更清晰"] else []) in
  match feedback_parts with
  | [] => u "结果质量良好"
  | _ => join (u "；") feedback_parts
  end.

Definition with_scores (e : EvaluationResult) (c a us cl : Q) : EvaluationResult :=
  mkEvaluation c a us cl (passed e) (feedback e)
               (details_task_type e) (details_result_keys e).

Definition with_feedback (e : EvaluationResult) (fb : pystr) : EvaluationResult :=
  mkEvaluation (completeness e) (accuracy e) (usefulness e) (clarity e)
               (passed e) fb (details_task_type e) (details_result_keys e).

Definition with_passed (e : EvaluationResult) (p : bool) : EvaluationResult :=
  mkEvaluation (completeness e) (accuracy e) (usefulness e) (clarity e)
               p (feedback e) (details_task_type e) (details_result_keys e).

Definition with_details (e : EvaluationResult) (tt : pystr) (keys : gset string)
    : EvaluationResult :=
  mkEvaluation (completeness e) (accuracy e) (usefulness e) (clarity e)
               (passed e) (feedback e) tt keys.

(** The four heuristic sub-scores, as [evaluate] first computes them. *)
Definition heuristic_scores (task : pystr) (result : pydict) (task_type : pystr)
    : option EvaluationResult :=
  c ← _evaluate_completeness task result task_type;
  a ← _evaluate_accuracy task result task_type;
  us ← _evaluate_usefulness task result task_type;
  cl ← _evaluate_clarity task result;
  Some (with_scores EvaluationResult_default c a us cl).

(** A score of the data model lies between 0 and 1. *)
Definition unit_interval (q : Q) : Prop := 0 <= q ∧ q <= 1.

(** The sub-scores a backend reply contributes are in range; vacuous when
    no backend is configured or its call fails. *)
Definition reply_in_range (client : option eval_reply) : Prop :=
  match client with
  | Some (ReplyData c a us cl _) =>
    unit_interval (default (5#10) c) ∧ unit_interval (default (5#10) a)
    ∧ unit_interval (default (5#10) us) ∧ unit_interval (default (5#10) cl)
  | _ => True
  end.

(** [ResultEvaluator.evaluate] *)
Definition evaluate (client : option eval_reply) (task : pystr)
    (result : pydict) (task_type : pystr) : option EvaluationResult :=
  evaluation ← heuristic_scores task result task_type;
  let evaluation :=
    match client with
    | Some _ =>
      let llm_evaluation := _llm_evaluate client in
      let evaluation :=
        with_scores evaluation
          ((completeness evaluation + completeness llm_evaluation) / 2)
          ((accuracy evaluation + accuracy llm_evaluation) / 2)
          ((usefulness evaluation + usefulness llm_evaluation) / 2)
          ((clarity evaluation + clarity llm_evaluation) / 2) in
      match feedback llm_evaluation with
      | [] => evaluation
      | _ => with_feedback evaluation (feedback llm_evaluation)
      end
    | None => evaluation
    end in
  let evaluation :=
    with_passed evaluation (Qgeb (overall_score evaluation) PASS_THRESHOLD) in
  let evaluation :=
    match feedback evaluation with
    | [] => with_feedback evaluation (_generate_feedback evaluation task_type)
    | _ => evaluation
    end in
  Some (with_details evaluation task_type (dom result)).

End Evaluator.
Import Evaluator.

(** ** agent/reflection/analyzer.py *)

Module Analyzer.

Local Open Scope Q_scope.

Record ReflectionResult := mkReflection {
  failure_reason : pystr;
  failure_type : pystr;
  improvement_suggestions : list pystr;
  should_retry : bool;
  should_replan : bool;
  adjusted_params : pydict;
  confidence : Q
}.

(** [ReflectionResult()] with the dataclass defaults. *)
Definition ReflectionResult_default : ReflectionResult :=
  mkReflection [] [] [] false false ∅ (5#10).

Definition failure_markers : list pystr :=
  [u "错误"; u "失败"; u "异常"; u "error"; u "failed"].

(** [_classify_failure] *)
Definition _classify_failure (result : pydict) (evaluation : EvaluationResult)
    (task_type : pystr) : option pystr :=
  if dict_is_empty result then Some (u "no_results")
  else if Qltb (completeness evaluation) (4#10) then Some (u "incomplete_results")
  else if Qltb (accuracy evaluation) (4#10) then Some (u "irrelevant_results")
  else
    final_answer ← as_str (final_answer_of result);
    if any_in failure_markers final_answer then Some (u "api_error")
    else if Qltb (completeness evaluation) (6#10)
            || Qltb (accuracy evaluation) (6#10)
    then Some (u "incomplete_results")
    else Some (u "unknown").


(** [_get_rule_based_suggestions] *)
Definition _get_rule_based_suggestions (failure_type : pystr) : list pystr :=
  if str_eqb failure_type (u "no_results") then
    [u "尝试使用不同的搜索关键词"; u "扩大搜索范围"; u "检查是否有拼写错误"]
  else if str_eqb failure_type (u "incomplete_results") then
    [u "增加搜索结果数量"; u "补充更多细节信息"; u "尝试更具体的查询"]
  else if str_eqb failure_type (u "irrelevant_results") then
    [u "优化搜索关键词"; u "添加更多限定条件"; u "尝试使用英文关键词"]
  else if str_eqb failure_type (u "api_error") then
    [u "稍后重试"; u "使用备用数据源"; u "简化请求参数"]
  else [u "重新执行任务"].

Definition str_in_list (s : pystr) (l : list pystr) : bool :=
  bool_decide (s ∈ l).

Definition _should_retry (failure_type : pystr) : bool :=
  str_in_list failure_type [u "api_error"; u "timeout"; u "no_results"].

Definition _should_replan (failure_type : pystr) : bool :=
  str_in_list failure_type [u "irrelevant_results"; u "invalid_params"].

(** [_get_adjusted_params] *)
Definition _get_adjusted_params (task : pystr) (result : pydict)
    (task_type : pystr) : option pydict :=
  if str_eqb task_type (u "literature_research") then
    let params : pydict := <["years" := VInt 3]> (<["max_papers" := VInt 50]> ∅) in
    rr ← as_dict (get_or result "research_result" (VDict ∅));
    let papers := get rr "papers" in
    if truthy papers then
      n ← py_len papers;
      Some (if bool_decide (n < 5)%nat
            then <["max_papers" := VInt 100]> params else params)
    else Some params
  else if str_eqb task_type (u "question_answering") then
    Some (<["detail_level" := VStr (u "high")]> (∅ : pydict))
  else Some ∅.

(** What the backend call of [_llm_analyze] comes to: it fails (an
    exception, no JSON object, an unusable field), or yields the fields of
    the JSON object, each one possibly missing. *)
Inductive analyze_reply :=
  | AnalysisFails
  | AnalysisData (failure_reason : option pystr)
                 (improvement_suggestions : option (list pystr))
                 (should_retry should_replan : option bool)
                 (adjusted_params : option pydict)
                 (confidence : option Q).

(** [_llm_analyze] *)
Definition _llm_analyze (client : option analyze_reply) : ReflectionResult :=
  match client with
  | Some (AnalysisData fr sugg retry replan params conf) =>
    mkReflection (default [] fr) [] (default [] sugg) (default false retry)
                 (default false replan) (default ∅ params) (default (5#10) conf)
  | _ => ReflectionResult_default
  end.

(** [ReflectionAnalyzer.analyze] *)
Definition analyze (client : option analyze_reply) (task : pystr)
    (result : pydict) (evaluation : EvaluationResult) (task_type : pystr)
    : option ReflectionResult :=
  if Qgeb (overall_score evaluation) (6#10) then Some ReflectionResult_default
  else
    ftype ← _classify_failure result evaluation task_type;
    let rule_based_suggestions := _get_rule_based_suggestions ftype in
    match client with
    | Some _ =>
      let llm_reflection := _llm_analyze client in
      Some (mkReflection
              (match failure_reason llm_reflection with
               | [] => feedback evaluation
               | r => r
               end)
              ftype
              (match improvement_suggestions llm_reflection with
               | [] => rule_based_suggestions
               | l => l
               end)
              (should_retry llm_reflection)
              (should_replan llm_reflection)
              (adjusted_params llm_reflection)
              (confidence llm_reflection))
    | None =>
      params ← _get_adjusted_params task result task_type;
      Some (mkReflection (feedback evaluation) ftype rule_based_suggestions
              (_should_retry ftype) (_should_replan ftype) params (5#10))
    end.

End Analyzer.
Import Analyzer.

(** ** agent/reflection/adjuster.py *)

Module Adjuster.

Section WithFormatting.

(** [str(v)], as an f-string formats a value. *)
Variable py_str : pyval → pystr.

Definition is_high (v : pyval) : bool :=
  match v with VStr s => str_eqb s (u "high") | _ => false end.

(** [_refine_task] *)
Definition _refine_task (task : pystr) (result : pydict)
    (reflection : ReflectionResult) : pystr :=
  let params := adjusted_params reflection in
  let refined_task := task in
  let refined_task :=
    if negb (dict_is_empty params) then
      let refined_task :=
        if truthy (get params "max_papers")
        then task ++ u "，请搜索更多结果（至少"
                  ++ py_str (get params "max_papers") ++ u "篇）"
        else refined_task in
      if is_high (get params "detail_level")
      then u "请详细回答：" ++ task
      else refined_task
    else refined_task in
  let refined_task :=
    if contains (u "incomplete") (failure_type reflection)
    then task ++ u "，请提供更详细完整的回答" else refined_task in
  if contains (u "irrelevant") (failure_type reflection)
  then task ++ u "，请确保结果与问题高度相关" else refined_task.

(** [_replan_task] *)
Definition _replan_task (task : pystr) (result : pydict)
    (reflection : ReflectionResult) : pystr :=
  match improvement_suggestions reflection with
  | [] => task ++ u "，请重新规划并执行"
  | suggestions =>
    task ++ u "（注意：" ++ join (u "，") (take 2 suggestions) ++ u "）"
  end.

(** [PlanAdjuster.adjust_task] *)
Definition adjust_task (task : pystr) (result : pydict)
    (reflection : ReflectionResult) (task_type : pystr) : pystr :=
  if should_replan reflection then _replan_task task result reflection
  else _refine_task task result reflection.

End WithFormatting.

End Adjuster.
Import Adjuster.

(** ** agent/reflection/wrapper.py *)

Module Wrapper.

Local Open Scope Q_scope.

(** How a call ends: with a value, with an uncaught exception, or, for
    the fuelled loop only, without an answer. *)
Inductive run (A : Type) :=
  | Returns (a : A)
  | Raises
  | OutOfFuel.
Arguments Returns {A} a.
Arguments Raises {A}.
Arguments OutOfFuel {A}.

(** The attributes of a [ReflectionAgent] that its methods change. *)
Record ReflectionAgent := mkAgent {
  MAX_ITERATIONS : Z;
  REFLECTION_ENABLED : bool
}.

(** The class attributes [MAX_ITERATIONS = 2], [REFLECTION_ENABLED = True]. *)
Definition default_agent : ReflectionAgent := mkAgent 2 true.

(** [set_max_iterations] *)
Definition set_max_iterations (self : ReflectionAgent) (max_iterations : Z)
    : ReflectionAgent :=
  mkAgent (Z.max 0 (Z.min 5 max_iterations)) (REFLECTION_ENABLED self).

(** [enable_reflection] *)
Definition enable_reflection (self : ReflectionAgent) (enabled : bool)
    : ReflectionAgent :=
  mkAgent (MAX_ITERATIONS self) enabled.

(** [EvaluationResult.to_dict]; the key list of [details] is given in
    the order of the map, and the timestamp is left out. *)
Definition evaluation_to_dict (e : EvaluationResult) : pyval :=
  VDict (<["completeness" := VFloat (completeness e)]>
        (<["accuracy" := VFloat (accuracy e)]>
        (<["usefulness" := VFloat (usefulness e)]>
        (<["clarity" := VFloat (clarity e)]>
        (<["overall_score" := VFloat (overall_score e)]>
        (<["passed" := VBool (passed e)]>
        (<["feedback" := VStr (feedback e)]>
        (<["details" := VDict
             (<["task_type" := VStr (details_task_type e)]>
             (<["result_keys" :=
                  VList ((λ k, VStr (utf8_decode (bytes_of k)))
                           <$> elements (details_result_keys e))]> ∅))]>
         ∅)))))))).

(** [ReflectionResult.to_dict] *)
Definition reflection_to_dict (r : ReflectionResult) : pyval :=
  VDict (<["failure_reason" := VStr (failure_reason r)]>
        (<["failure_type" := VStr (failure_type r)]>
        (<["improvement_suggestions" := VList (VStr <$> improvement_suggestions r)]>
        (<["should_retry" := VBool (should_retry r)]>
        (<["should_replan" := VBool (should_replan r)]>
        (<["adjusted_params" := VDict (adjusted_params r)]>
        (<["confidence" := VFloat (confidence r)]> ∅))))))).

(** The [result["reflection"]] entry. *)
Definition reflection_entry (iterations : Z) (final_score : Q) (passed : bool)
    (history : list pyval) (message : option pystr) : pyval :=
  let d : pydict :=
    <["enabled" := VBool true]>
    (<["iterations" := VInt iterations]>
    (<["final_score" := VFloat final_score]>
    (<["passed" := VBool passed]>
    (<["history" := VList history]> ∅)))) in
  VDict (match message with
         | Some m => <["message" := VStr m]> d
         | None => d
         end).

(** [result.get("task_type", "general")]; a value that is not a string
    equals none of the task type names, like the empty string. *)
Definition task_type_of (result : pydict) : pystr :=
  match get_or result "task_type" (VStr (u "general")) with
  | VStr s => s
  | _ => []
  end.

(** One attempt, as the loop sees it. *)
Record attempt := mkAttempt {
  att_task : pystr;
  att_result : pydict;
  att_evaluation : EvaluationResult
}.

(** The local variables of [execute_task]; [attempts] is a record of
    the iterations run so far, oldest first, kept for the statements. *)
Record loop_state := mkState {
  iteration : Z;
  current_task : pystr;
  current_context : pydict;
  best_result : option pydict;
  best_score : Q;
  reflection_history : list pyval;
  attempts : list attempt
}.

(** The backend of the evaluator and the analyzer, when configured: its
    replies at each iteration. *)
Record backend := mkBackend {
  eval_reply_at : Z → eval_reply;
  analyze_reply_at : Z → analyze_reply
}.

(** How one pass through the body of the [while] ends. *)
Inductive step_end :=
  | Return (result : pydict) (st : loop_state)
  | Break (st : loop_state)
  | Continue (st : loop_state)
  | Fault.

Section Loop.

Variable py_str : pyval → pystr.
(** [base_agent.execute_task(task, callback, context)] at a given
    iteration; [None] when it raises. *)
Variable base_agent : Z → pystr → pydict → option pydict.
Variable client : option backend.
Variable self : ReflectionAgent.

(** The body of [while iteration <= self.MAX_ITERATIONS]. *)
Definition loop_body (st : loop_state) : step_end :=
  match base_agent (iteration st) (current_task st) (current_context st) with
  | None => Fault
  | Some result =>
    let task_type := task_type_of result in
    match evaluate ((λ b, eval_reply_at b (iteration st)) <$> client)
                   (current_task st) result task_type with
    | None => Fault
    | Some evaluation =>
      let log := attempts st ++ [mkAttempt (current_task st) result evaluation] in
      let '(best_score', best_result') :=
        if Qltb (best_score st) (overall_score evaluation)
        then (overall_score evaluation, Some result)
        else (best_score st, best_result st) in
      if passed evaluation then
        Return (<["reflection" :=
                   reflection_entry (iteration st) (overall_score evaluation)
                     true (reflection_history st) None]> result)
               (mkState (iteration st) (current_task st) (current_context st)
                        best_result' best_score' (reflection_history st) log)
      else if (MAX_ITERATIONS self <=? iteration st)%Z then
        Break (mkState (iteration st) (current_task st) (current_context st)
                       best_result' best_score' (reflection_history st) log)
      else
        match analyze ((λ b, analyze_reply_at b (iteration st)) <$> client)
                      (current_task st) result evaluation task_type with
        | None => Fault
        | Some reflection =>
          let history :=
            reflection_history st ++
            [VDict (<["iteration" := VInt (iteration st)]>
                   (<["evaluation" := evaluation_to_dict evaluation]>
                   (<["reflection" := reflection_to_dict reflection]> ∅)))] in
          let '(task', context') :=
            if should_replan reflection || should_retry reflection then
              (adjust_task py_str (current_task st) result reflection task_type,
               if negb (dict_is_empty (adjusted_params reflection))
               then adjusted_params reflection ∪ current_context st
               else current_context st)
            else (current_task st, current_context st) in
          Continue (mkState (iteration st + 1)%Z task' context'
                            best_result' best_score' history log)
        end
    end
  end.

(** The statements after the loop. *)
Definition after_loop (st : loop_state) : run (pydict * loop_state) :=
  match best_result st with
  | Some best =>
    if negb (dict_is_empty best) then
      Returns (<["reflection" :=
                  reflection_entry (iteration st) (best_score st) false
                    (reflection_history st)
                    (Some (u "达到最大反思次数，返回最佳结果"))]> best, st)
    else
      match last (attempts st) with
      | Some a =>
        Returns (<["reflection" :=
                    reflection_entry (iteration st)
                      (overall_score (att_evaluation a)) false
                      (reflection_history st)
                      (Some (u "反思未能改善结果"))]> (att_result a), st)
      | None => Raises
      end
  | None =>
    match last (attempts st) with
    | Some a =>
      Returns (<["reflection" :=
                  reflection_entry (iteration st)
                    (overall_score (att_evaluation a)) false
                    (reflection_history st)
                    (Some (u "反思未能改善结果"))]> (att_result a), st)
    | None => Raises
    end
  end.

(** The [while] loop, with [fuel] passes allowed. *)
Fixpoint reflect_loop (fuel : nat) (st : loop_state) : run (pydict * loop_state) :=
  if negb (iteration st <=? MAX_ITERATIONS self)%Z then after_loop st
  else
    match fuel with
    | O => OutOfFuel
    | S fuel' =>
      match loop_body st with
      | Return result st' => Returns (result, st')
      | Break st' => after_loop st'
      | Continue st' => reflect_loop fuel' st'
      | Fault => Raises
      end
    end.

Definition initial_state (task : pystr) (context : pydict) : loop_state :=
  mkState 0 task context None 0 [] [].

(** [ReflectionAgent.execute_task].  The loop runs at most
    [MAX_ITERATIONS + 1] passes, which is the fuel it is given. *)
Definition execute_task (task : pystr) (context : option pydict)
    : run (pydict * loop_state) :=
  let context := default ∅ context in
  if negb (REFLECTION_ENABLED self) then
    match base_agent 0 task context with
    | Some result => Returns (result, initial_state task context)
    | None => Raises
    end
  else
    reflect_loop (Z.to_nat (MAX_ITERATIONS self + 1)) (initial_state task context).

End Loop.

(** The score of an attempt. *)
Definition score (a : attempt) : Q := overall_score (att_evaluation a).

(** An attempt as the data model has it: its score is not negative, and a
    result that scored above zero is not the empty dict. *)
Definition sound_attempt (a : attempt) : Prop :=
  0 <= score a ∧ (0 < score a → att_result a ≠ ∅).

(** [best_score] and [best_result] follow the attempts made so far. *)
Definition tracks_best (st : loop_state) : Prop :=
  0 <= best_score st
  ∧ Forall (λ a, score a <= best_score st) (attempts st)
  ∧ match best_result st with
    | Some r => ∃ a, a ∈ attempts st ∧ att_result a = r
                     ∧ score a = best_score st ∧ 0 < best_score st
    | None => best_score st = 0
    end.

(** The evaluation of an attempt is what [evaluate] returned for its
    task and result. *)
Definition evaluated_by (client : option backend) (a : attempt) : Prop :=
  ∃ it, evaluate ((λ b, eval_reply_at b it) <$> client) (att_task a)
          (att_result a) (task_type_of (att_result a)) = Some (att_evaluation a).

(** What holds each time the loop condition is evaluated. *)
Definition loop_invariant (client : option backend) (st : loop_state) : Prop :=
  (0 ≤ iteration st)%Z
  ∧ length (attempts st) = Z.to_nat (iteration st)
  ∧ Forall (λ a, passed (att_evaluation a) = false) (attempts st)
  ∧ Forall (evaluated_by client) (attempts st)
  ∧ tracks_best st.

(** What [execute_task] promises about the dict [res] it returns, [st]
    being the final state of the loop: the last attempt is the only one that
    may have passed; if it passed, its result is returned with its score; if
    not, the result returned is one whose score no other attempt exceeds, and
    that score is the reported [final_score]. *)
Definition best_of_attempts (client : option backend) (res : pydict)
    (st : loop_state) : Prop :=
  ∃ a earlier,
    attempts st = earlier ++ [a]
    ∧ Forall (λ b, passed (att_evaluation b) = false) earlier
    ∧ iteration st = Z.of_nat (length earlier)
    ∧ if passed (att_evaluation a)
      then res = <["reflection" :=
                    reflection_entry (iteration st) (score a) true
                      (reflection_history st) None]> (att_result a)
      else
        client = None ∨ Forall sound_attempt (attempts st) →
        ∃ best msg,
          best ∈ attempts st
          ∧ Forall (λ b, score b <= score best) (attempts st)
          ∧ res = <["reflection" :=
                     reflection_entry (iteration st) (score best) false
                       (reflection_history st) (Some msg)]> (att_result best).

(** [result["reflection"]["final_score"]] *)
Definition final_score_of (result : pydict) : option Q :=
  match result !! "reflection" with
  | Some (VDict d) =>
    match d !! "final_score" with
    | Some (VFloat q) => Some q
    | _ => None
    end
  | _ => None
  end.

(** A run made three attempts, none of which passed, and reports a
    [final_score] below the score of its first attempt. *)
Definition reports_less_than_first (r : run (pydict * loop_state)) : Prop :=
  match r with
  | Returns (res, st) =>
    ∃ first reported,
      head (attempts st) = Some first
      ∧ length (attempts st) = 3%nat
      ∧ Forall (λ a, passed (att_evaluation a) = false) (attempts st)
      ∧ final_score_of res = Some reported
      ∧ reported < score first
  | _ => False
  end.

(** The same, as a check that can be run. *)
Definition reports_less_than_first_check (r : run (pydict * loop_state)) : bool :=
  match r with
  | Returns (res, st) =>
    match head (attempts st), final_score_of res with
    | Some first, Some reported =>
      Qltb reported (score first)
      && bool_decide (length (attempts st) = 3%nat)
      && forallb (λ a, negb (passed (att_evaluation a))) (attempts st)
    | _, _ => false
    end
  | _ => false
  end.

(** A result as the unified agent builds it: the final answer is a text,
    the plan a list, and there is no paper list of the research agent. *)
Definition result_shape (result : pydict) : Prop :=
  (∃ final_answer, result !! "final_answer" = Some (VStr final_answer))
  ∧ (∃ plan, result !! "plan" = Some (VList plan))
  ∧ result !! "research_result" = None
  ∧ result !! "papers" = None.

End Wrapper.

(** ** agent/unified_agent.py *)

Module Unified.

Inductive TaskType :=
  | QUESTION_ANSWERING
  | LITERATURE_RESEARCH
  | SCHEDULE_PLANNING
  | EXPERIMENT_MANAGEMENT
  | GENERAL.

(** [TaskType.value] *)
Definition TaskType_value (t : TaskType) : pystr :=
  match t with
  | QUESTION_ANSWERING => u "question_answering"
  | LITERATURE_RESEARCH => u "literature_research"
  | SCHEDULE_PLANNING => u "schedule_planning"
  | EXPERIMENT_MANAGEMENT => u "experiment_management"
  | GENERAL => u "general"
  end.

Inductive TaskStatus :=
  | PENDING
  | IN_PROGRESS
  | COMPLETED
  | FAILED.

(** [TaskStatus.value] *)
Definition TaskStatus_value (s : TaskStatus) : pystr :=
  match s with
  | PENDING => u "pending"
  | IN_PROGRESS => u "in_progress"
  | COMPLETED => u "completed"
  | FAILED => u "failed"
  end.

#[global] Instance TaskType_eq_dec : EqDecision TaskType.
Proof. solve_decision. Defined.

#[global] Instance TaskStatus_eq_dec : EqDecision TaskStatus.
Proof. solve_decision. Defined.

Record PlanStep := mkPlanStep {
  step_id : pystr;
  name : pystr;
  description : pystr;
  output_type : pystr;
  status : TaskStatus
}.

(** [PlanStep.__init__]: a new step is pending. *)
Definition new_PlanStep (step_id name description output_type : pystr) : PlanStep :=
  mkPlanStep step_id name description output_type PENDING.

(** *** Classification *)

Definition literature_keywords : list pystr :=
  [u "论文"; u "文献"; u "搜索"; u "研究"; u "学术"; u "paper"; u "arxiv";
   u "publication"; u "调研"; u "查找"].

Definition schedule_keywords : list pystr :=
  [u "日程"; u "会议"; u "安排"; u "计划"; u "周"; u "明天"; u "下周";
   u "schedule"; u "meeting"; u "plan"; u "提醒"].

Definition experiment_keywords : list pystr :=
  [u "实验"; u "数据"; u "csv"; u "统计"; u "分析"; u "整理"; u "experiment";
   u "data"; u "analysis"].

Definition question_keywords : list pystr :=
  [u "解释"; u "什么是"; u "原理"; u "如何"; u "为什么"; u "explain"; u "what";
   u "how"; u "why"; u "介绍"].

(** One of the loops [for kw in kws: if kw in task_lower: return t]:
    [Some t] when it returns, [None] when it falls through. *)
Fixpoint keyword_loop (kws : list pystr) (task_lower : pystr) (t : TaskType)
    : option TaskType :=
  match kws with
  | [] => None
  | kw :: rest =>
    if contains kw task_lower then Some t else keyword_loop rest task_lower t
  end.

(** [_rule_based_classify] *)
Definition _rule_based_classify (task : pystr) : TaskType :=
  let task_lower := lower task in
  match keyword_loop literature_keywords task_lower LITERATURE_RESEARCH with
  | Some t => t
  | None =>
    match keyword_loop schedule_keywords task_lower SCHEDULE_PLANNING with
    | Some t => t
    | None =>
      match keyword_loop experiment_keywords task_lower EXPERIMENT_MANAGEMENT with
      | Some t => t
      | None =>
        match keyword_loop question_keywords task_lower QUESTION_ANSWERING with
        | Some t => t
        | None => GENERAL
        end
      end
    end
  end.

(** [str.isspace] on one code point. *)
Definition is_space (c : N) : bool :=
  (((9 <=? c) && (c <=? 13)) || ((28 <=? c) && (c <=? 32)) || (c =? 133)
   || (c =? 160) || (c =? 5760) || ((8192 <=? c) && (c <=? 8202))
   || (c =? 8232) || (c =? 8233) || (c =? 8239) || (c =? 8287) || (c =? 12288))%N.

Fixpoint lstrip (s : pystr) : pystr :=
  match s with
  | c :: t => if is_space c then lstrip t else s
  | [] => []
  end.

(** [str.strip] *)
Definition strip (s : pystr) : pystr := rev (lstrip (rev (lstrip s))).

(** [_classify_task].  [client] is [None] when no backend is configured,
    and otherwise holds the text [_call_llm] returns (the completion, or
    the failure notice it returns instead of raising). *)
Definition _classify_task (client : option pystr) (task : pystr) : TaskType :=
  match client with
  | None => _rule_based_classify task
  | Some text =>
    let result := lower (strip text) in
    if contains (u "literature") result || contains (u "文献") result
    then LITERATURE_RESEARCH
    else if contains (u "schedule") result || contains (u "日程") result
    then SCHEDULE_PLANNING
    else if contains (u "experiment") result || contains (u "实验") result
    then EXPERIMENT_MANAGEMENT
    else if contains (u "question") result || contains (u "问题") result
    then QUESTION_ANSWERING
    else _rule_based_classify task
  end.

(** The declarative reading of one keyword rule. *)
Definition rule_matches (kws : list pystr) (task : pystr) : Prop :=
  ∃ kw, kw ∈ kws ∧ occurs_in kw (lower task).

(** *** Task analysis *)

(** One entry of the ["plan"] list of an analysis; a field is [None]
    when its key is missing. *)
Record plan_info := mkPlanInfo {
  pi_step_id : option pystr;
  pi_name : option pystr;
  pi_description : option pystr;
  pi_output_type : option pystr
}.

(** The analysis dict, with the keys [execute_task] reads. *)
Record analysis := mkAnalysis {
  an_task_type : option pystr;
  an_intent_summary : option pystr;
  an_extracted_params : option pydict;
  an_plan : option (list plan_info);
  an_reasoning : option pystr
}.

Definition info (id nm descr out : string) : plan_info :=
  mkPlanInfo (Some (u id)) (Some (u nm)) (Some (u descr)) (Some (u out)).

Definition fallback_keywords : list pystr :=
  [u "论文"; u "文献"; u "搜索"; u "研究"; u "paper"; u "arxiv"].

(** [_fallback_task_analysis] *)
Definition _fallback_task_analysis (task : pystr) : analysis :=
  let task_lower := lower task in
  if any_in fallback_keywords task_lower then
    mkAnalysis (Some (u "literature_research")) (Some task)
      (Some (<["topic" := VStr task]> (<["years" := VInt 2]>
             (<["max_papers" := VInt 30]>
             (<["sort_by" := VStr (u "relevance")]> ∅)))))
      (Some [info "search" "搜索相关文献" "根据关键词搜索学术论文" "paper_list";
             info "analyze" "分析文献内容" "分析搜索到的文献" "analysis";
             info "summarize" "生成调研报告" "总结文献调研结果" "report"])
      None
  else
    mkAnalysis (Some (u "general")) (Some task) (Some ∅)
      (Some [info "execute" "执行任务" "完成用户请求" "result"])
      None.

(** What the backend call of [_analyze_task_with_llm] comes to: a JSON
    object, or a text that holds none or does not parse. *)
Inductive analysis_reply :=
  | AnalysisParsed (a : analysis)
  | AnalysisUnparsable.

(** [_analyze_task_with_llm] *)
Definition _analyze_task_with_llm (client : option analysis_reply) (task : pystr)
    : analysis :=
  match client with
  | None => _fallback_task_analysis task
  | Some (AnalysisParsed a) => a
  | Some AnalysisUnparsable => _fallback_task_analysis task
  end.

(** *** Plans *)

Definition step (id nm descr out : string) : PlanStep :=
  new_PlanStep (u id) (u nm) (u descr) (u out).

(** [_get_plan_for_type] *)
Definition _get_plan_for_type (task_type : TaskType) (task : pystr) : list PlanStep :=
  match task_type with
  | LITERATURE_RESEARCH =>
    [step "search" "搜索相关文献" "根据关键词搜索学术论文" "paper_list";
     step "analyze" "分析文献内容" "分析搜索到的文献，提取关键信息" "analysis";
     step "summarize" "生成调研报告" "总结文献调研结果" "report"]
  | SCHEDULE_PLANNING =>
    [step "parse" "解析时间需求" "提取日程时间和内容" "schedule_info";
     step "create" "创建日程安排" "生成日程安排方案" "schedule";
     step "remind" "设置提醒" "设置日程提醒" "reminder"]
  | EXPERIMENT_MANAGEMENT =>
    [step "analyze_request" "分析数据需求" "理解数据分析需求" "analysis";
     step "generate_stats" "生成统计数据" "生成示例统计数据" "statistics";
     step "report" "生成报告" "生成数据分析报告" "report"]
  | QUESTION_ANSWERING =>
    [step "understand" "理解问题" "分析问题核心要点" "analysis";
     step "research" "查找资料" "搜索相关资料" "references";
     step "answer" "生成答案" "组织并生成答案" "answer"]
  | GENERAL =>
    [step "understand" "理解任务" "分析任务需求" "analysis";
     step "execute" "执行任务" "完成主要任务内容" "result";
     step "verify" "验证结果" "检查任务完成情况" "verification"]
  end.

(** The loop [for step_info in llm_plan] of [execute_task]; [plan_steps]
    holds the steps built so far. *)
Fixpoint steps_of_llm_plan (llm_plan : list plan_info) (plan_steps : list PlanStep)
    : list PlanStep :=
  match llm_plan with
  | [] => plan_steps
  | step_info :: rest =>
    let s :=
      new_PlanStep
        (default (u "step_" ++ u (pretty (length plan_steps))) (pi_step_id step_info))
        (default (u "执行步骤") (pi_name step_info))
        (default [] (pi_description step_info))
        (default (u "result") (pi_output_type step_info)) in
    steps_of_llm_plan rest (plan_steps ++ [s])
  end.

(** The plan [execute_task] runs: the plan of the analysis when it has
    one, the template of the task type otherwise. *)
Definition build_plan (llm_plan : list plan_info) (task_type : TaskType)
    (task : pystr) : list PlanStep :=
  match llm_plan with
  | [] => _get_plan_for_type task_type task
  | _ => steps_of_llm_plan llm_plan []
  end.

(** The task type [execute_task] reads off the analysis. *)
Definition task_type_of_analysis (task_type_str : pystr) : TaskType :=
  let s := lower task_type_str in
  if contains (u "literature") s then LITERATURE_RESEARCH
  else if contains (u "schedule") s then SCHEDULE_PLANNING
  else if contains (u "experiment") s then EXPERIMENT_MANAGEMENT
  else if contains (u "question") s then QUESTION_ANSWERING
  else GENERAL.

(** *** The step executor *)

(** How a step handler ends: with its output dict, or with an exception
    whose [str(e)] is [msg]. *)
Inductive step_outcome :=
  | StepOk (step_result : pydict)
  | StepRaised (msg : pystr).

(** A handler is called with the step, the task and the context; its first
    argument is the position of the call in the run, and stands for the
    state of the tools and of the backend at that moment. *)
Definition handler := nat → PlanStep → pystr → pydict → step_outcome.

(** What lies outside the agent during one call of [execute_task]. *)
Record world := mkWorld {
  started_at : pystr;
  completed_at : pystr;
  analysis_client : option analysis_reply;
  _execute_literature_step : handler;
  _execute_schedule_step : handler;
  _execute_experiment_step : handler;
  _execute_question_step : handler;
  _execute_general_step : handler;
  (** the chunks [_call_llm_stream] yields *)
  llm_stream : list pystr
}.

(** [_execute_step] *)
Definition _execute_step (w : world) (i : nat) (step : PlanStep) (task : pystr)
    (task_type : TaskType) (context : pydict) : step_outcome :=
  match task_type with
  | LITERATURE_RESEARCH => _execute_literature_step w i step task context
  | SCHEDULE_PLANNING => _execute_schedule_step w i step task context
  | EXPERIMENT_MANAGEMENT => _execute_experiment_step w i step task context
  | QUESTION_ANSWERING => _execute_question_step w i step task context
  | GENERAL => _execute_general_step w i step task context
  end.

(** A status is written: on the [PlanStep] object (by its constructor and
    by [_update_step_status]) or into the entry [plan_data[i]]. *)
Inductive event :=
  | StepStatus (i : nat) (s : TaskStatus)
  | PlanDataStatus (i : nat) (s : TaskStatus).

(** The variables of the step loop.  Two more fields are kept for the
    statements: [events] records the status writes in the order they happen,
    and [outcomes] how the handler call of each step ended. *)
Record exec_state := mkExec {
  context : pydict;
  plan_steps : list PlanStep;
  plan_data : list pydict;
  final_results : list pystr;
  events : list event;
  outcomes : list step_outcome
}.

Definition set_status (s : TaskStatus) (p : PlanStep) : PlanStep :=
  mkPlanStep (step_id p) (name p) (description p) (output_type p) s.

(** [_update_step_status(step, status, callback)], [step] being
    [plan_steps[i]]; a failure of the callback is caught there. *)
Definition _update_step_status (i : nat) (s : TaskStatus) (st : exec_state)
    : exec_state :=
  mkExec (context st) (alter (set_status s) i (plan_steps st)) (plan_data st)
         (final_results st) (events st ++ [StepStatus i s]) (outcomes st).

(** The initial entry of [plan_data] for a step. *)
Definition plan_entry (s : PlanStep) : pydict :=
  <["step_id" := VStr (step_id s)]>
  (<["name" := VStr (name s)]>
  (<["description" := VStr (description s)]>
  (<["output_type" := VStr (output_type s)]>
  (<["status" := VStr (TaskStatus_value (status s))]>
  (<["steps" := VList []]>
  (<["output" := VNone]> ∅)))))).

(** The writes to the context after a step, keyed by the step id. *)
Definition project_output (id : pystr) (step_result context : pydict) : pydict :=
  if str_eqb id (u "search")
  then <["papers" := get_or step_result "papers" (VList [])]> context
  else if str_eqb id (u "analyze")
  then <["analysis" := get_or step_result "analysis" (VDict ∅)]> context
  else if str_eqb id (u "parse")
  then <["schedule_info" := get_or step_result "schedule_info" (VDict ∅)]> context
  else if str_eqb id (u "create")
  then <["schedule" := get_or step_result "schedule" (VDict ∅)]> context
  else if str_eqb id (u "analyze_request")
  then <["analysis" := get_or step_result "analysis" (VDict ∅)]> context
  else if str_eqb id (u "understand")
  then <["analysis" := get_or step_result "analysis" (VDict ∅)]> context
  else context.

Section Executor.

(** [str(v)], as an f-string formats a value. *)
Variable py_str : pyval → pystr.
(** [_build_task_with_context]: the text handed to the analysis when a
    conversation context is given.  It is taken as a function that returns;
    the builder of the source, embedded in [Prompt], raises on a context
    that is not typed as it expects, and so does [execute_task] then. *)
Variable _build_task_with_context : pystr → pydict → pystr.

(** The entry a completed step adds to [final_results]. *)
Definition step_summary (step : PlanStep) (step_result : pydict) : pystr :=
  if str_eqb (step_id step) (u "answer") && bool_decide (is_Some (step_result !! "answer"))
  then u "**" ++ name step ++ u "**:" ++ NL ++ NL ++ py_str (get step_result "answer")
  else u "**" ++ name step ++ u "**: "
       ++ py_str (get_or step_result "result" (VStr (u "完成"))).

(** The entry a failed step adds to [final_results]. *)
Definition failure_summary (step : PlanStep) (error_msg : pystr) : pystr :=
  u "**" ++ name step ++ u "**: 执行失败 - " ++ error_msg.

(** One pass through [for i, step in enumerate(plan_steps)]. *)
Definition run_step (w : world) (task : pystr) (task_type : TaskType)
    (i : nat) (step : PlanStep) (st : exec_state) : exec_state :=
  let st := _update_step_status i IN_PROGRESS st in
  match _execute_step w i step task task_type (context st) with
  | StepOk step_result =>
    let context' := project_output (step_id step) step_result (context st) in
    let plan_data' :=
      alter (λ e, <["result" := get_or step_result "result" (VStr (u "完成"))]>
                  (<["output" := VDict step_result]>
                  (<["status" := VStr (TaskStatus_value COMPLETED)]> e)))
            i (plan_data st) in
    let st := mkExec context' (plan_steps st) plan_data' (final_results st)
                     (events st ++ [PlanDataStatus i COMPLETED])
                     (outcomes st ++ [StepOk step_result]) in
    let st := _update_step_status i COMPLETED st in
    mkExec (context st) (plan_steps st) (plan_data st)
           (final_results st ++ [step_summary step step_result])
           (events st) (outcomes st)
  | StepRaised error_msg =>
    let plan_data' :=
      alter (λ e, <["result" := VStr (u "执行失败: " ++ error_msg)]>
                  (<["output" := VDict {["error" := VStr error_msg]}]>
                  (<["status" := VStr (TaskStatus_value FAILED)]> e)))
            i (plan_data st) in
    let st := mkExec (context st) (plan_steps st) plan_data' (final_results st)
                     (events st ++ [PlanDataStatus i FAILED])
                     (outcomes st ++ [StepRaised error_msg]) in
    let st := _update_step_status i FAILED st in
    mkExec (context st) (plan_steps st) (plan_data st)
           (final_results st ++ [failure_summary step error_msg])
           (events st) (outcomes st)
  end.

(** The loop over the steps still to run, [i] being the index of the first. *)
Fixpoint run_steps (w : world) (task : pystr) (task_type : TaskType)
    (i : nat) (todo : list PlanStep) (st : exec_state) : exec_state :=
  match todo with
  | [] => st
  | step :: rest =>
    run_steps w task task_type (S i) rest (run_step w task task_type i step st)
  end.

(** The state when the loop starts: every step has been constructed
    (pending) and then copied into [plan_data]. *)
Definition initial_exec (plan : list PlanStep) (context : pydict) : exec_state :=
  mkExec context plan (plan_entry <$> plan) []
         (imap (λ i _, StepStatus i PENDING) plan
          ++ imap (λ i s, PlanDataStatus i (status s)) plan)
         [].

(** The context the steps start from. *)
Definition initial_context (extracted_params : pydict) (context_input : option pydict)
    : pydict :=
  let context : pydict := {["extracted_params" := VDict extracted_params]} in
  match context_input with
  | Some c =>
    if negb (dict_is_empty c) then
      <["messages" := get_or c "messages" (VList [])]>
      (<["selectedPaperIndex" := get c "selectedPaperIndex"]>
      (<["currentPapers" := get_or c "currentPapers" (VList [])]> context))
    else context
  | None => context
  end.

(** [_execute_question_answering_stream], entered from [execute_task]
    with the [results] built so far. *)
Definition _execute_question_answering_stream (w : world) (task : pystr)
    (results : pydict) : pydict * exec_state :=
  let full_answer := concat (llm_stream w) in
  let entry : pydict :=
    <["step_id" := VStr (u "answer")]>
    (<["name" := VStr (u "生成回答")]>
    (<["description" := VStr (u "直接回答用户问题")]>
    (<["output_type" := VStr (u "answer")]>
    (<["status" := VStr (u "completed")]>
    (<["output" := VDict (<["answer" := VStr full_answer]>
                         (<["output_type" := VStr (u "answer")]> ∅))]> ∅))))) in
  let results :=
    <["plan" := VList [VDict entry]]>
    (<["completed_at" := VStr (completed_at w)]>
    (<["final_answer" := VStr full_answer]>
    (<["task_type" := VStr (TaskType_value QUESTION_ANSWERING)]> results))) in
  (results ∪ {["success" := VBool true]},
   mkExec ∅ [] [entry] [] [PlanDataStatus 0 COMPLETED] []).

(** [UnifiedAgent.execute_task].  Besides the dict it returns, the final
    state of the step loop is given, for the statements. *)
Definition execute_task (w : world) (task : pystr) (context_input : option pydict)
    : pydict * exec_state :=
  let results : pydict :=
    <["final_answer" := VStr []]>
    (<["plan" := VList []]>
    (<["steps" := VList []]>
    (<["started_at" := VStr (started_at w)]>
    (<["task" := VStr task]> ∅)))) in
  let analysis :=
    match context_input with
    | Some c =>
      if negb (dict_is_empty c)
      then _analyze_task_with_llm (analysis_client w) (_build_task_with_context task c)
      else _analyze_task_with_llm (analysis_client w) task
    | None => _analyze_task_with_llm (analysis_client w) task
    end in
  let task_type_str := default (u "general") (an_task_type analysis) in
  let extracted_params := default ∅ (an_extracted_params analysis) in
  let llm_plan := default [] (an_plan analysis) in
  let task_type := task_type_of_analysis task_type_str in
  if bool_decide (task_type = QUESTION_ANSWERING) then
    _execute_question_answering_stream w task results
  else
    let plan := build_plan llm_plan task_type task in
    let st := run_steps w task task_type 0 plan
                (initial_exec plan (initial_context extracted_params context_input)) in
    let results :=
      <["plan" := VList (VDict <$> plan_data st)]>
      (<["completed_at" := VStr (completed_at w)]>
      (<["final_answer" := VStr (join (NL ++ NL) (final_results st))]>
      (<["extracted_params" := VDict extracted_params]>
      (<["task_type" := VStr (TaskType_value task_type)]> results)))) in
    (results ∪ {["success" := VBool true]}, st).

(** The status a step ends with, given how its handler call ended. *)
Definition final_status (o : step_outcome) : TaskStatus :=
  match o with
  | StepOk _ => COMPLETED
  | StepRaised _ => FAILED
  end.

(** The entry of [plan_data] after a step, given how the handler ended. *)
Definition record_outcome (o : step_outcome) (e : pydict) : pydict :=
  match o with
  | StepOk step_result =>
    <["result" := get_or step_result "result" (VStr (u "完成"))]>
    (<["output" := VDict step_result]>
    (<["status" := VStr (TaskStatus_value COMPLETED)]> e))
  | StepRaised error_msg =>
    <["result" := VStr (u "执行失败: " ++ error_msg)]>
    (<["output" := VDict {["error" := VStr error_msg]}]>
    (<["status" := VStr (TaskStatus_value FAILED)]> e))
  end.

(** What a step adds to the history of its status on the [PlanStep]
    object; [None] when the step was not run. *)
Definition history_tail (o : option step_outcome) : list TaskStatus :=
  match o with
  | None => []
  | Some o => [IN_PROGRESS; final_status o]
  end.

(** What a step adds to the history of the status in its entry of
    [plan_data]. *)
Definition data_tail (o : option step_outcome) : list TaskStatus :=
  match o with
  | None => []
  | Some o => [final_status o]
  end.

(** The entry of [final_results] a step leaves. *)
Definition summary_of (step : PlanStep) (o : step_outcome) : pystr :=
  match o with
  | StepOk step_result => step_summary step step_result
  | StepRaised error_msg => failure_summary step error_msg
  end.

End Executor.

(** The values written to [plan_steps[i].status], in order. *)
Definition step_history (i : nat) (evs : list event) : list TaskStatus :=
  omap (λ e, match e with
             | StepStatus j s => if bool_decide (j = i) then Some s else None
             | PlanDataStatus _ _ => None
             end) evs.

(** The values written to [plan_data[i]["status"]], in order. *)
Definition data_history (i : nat) (evs : list event) : list TaskStatus :=
  omap (λ e, match e with
             | PlanDataStatus j s => if bool_decide (j = i) then Some s else None
             | StepStatus _ _ => None
             end) evs.

End Unified.

(** ** agent/tools.py and the tool dispatch of agent/react.py *)

Module Tools.

(** How a call of a registered tool function ends. *)
Inductive tool_outcome :=
  | ToolReturns (v : pyval)
  | ToolRaises (msg : pystr).

(** A registered tool function.  Its first argument is the number of tool
    calls made before this one, so that a tool may fail on one call and
    succeed on a later one. *)
Definition tool := nat → pydict → tool_outcome.

(** The module-level registries [TOOLS] and [ASYNC_TOOLS]. *)
Record registry := mkRegistry {
  TOOLS : gmap string tool;
  ASYNC_TOOLS : gmap string tool
}.

(** What evaluating a call expression gives inside a [try]: its value, or
    the exception the [except Exception] clause receives. *)
Inductive call_result (A : Type) :=
  | Value (a : A)
  | Exception (msg : pystr).
Arguments Value {A} a.
Arguments Exception {A} msg.

(** [is_async_tool] *)
Definition is_async_tool (reg : registry) (tool_name : string) : bool :=
  bool_decide (is_Some (ASYNC_TOOLS reg !! tool_name)).

Definition error_envelope (error : pystr) : pyval :=
  VDict (<["success" := VBool false]> (<["error" := VStr error]> ∅)).

Definition name_str (tool_name : string) : pystr := utf8_decode (bytes_of tool_name).

(** [execute_async_tool]; [calls] counts the tool calls made so far.  Each
    call of a tool function sits in a [try] of its own, whose [except
    Exception] clause returns an error envelope. *)
Definition execute_async_tool (reg : registry) (tool_name : string)
    (arguments : pydict) (calls : nat) : call_result pyval * nat :=
  match ASYNC_TOOLS reg !! tool_name with
  | Some f =>
    match f calls arguments with
    | ToolReturns v => (Value v, S calls)
    | ToolRaises e => (Value (error_envelope (u "异步工具执行错误: " ++ e)), S calls)
    end
  | None =>
    match TOOLS reg !! tool_name with
    | Some f =>
      match f calls arguments with
      | ToolReturns (VDict d) => (Value (VDict d), S calls)
      | ToolReturns result =>
        (Value (VDict (<["success" := VBool true]> (<["message" := result]> ∅))),
         S calls)
      | ToolRaises e => (Value (error_envelope (u "工具执行错误: " ++ e)), S calls)
      end
    | None =>
      (Value (error_envelope (u "错误：未知工具 '" ++ name_str tool_name ++ u "'")),
       calls)
    end
  end.

(** [execute_tool] *)
Definition execute_tool (reg : registry) (tool_name : string)
    (arguments : pydict) (calls : nat) : call_result pyval * nat :=
  match TOOLS reg !! tool_name with
  | Some f =>
    match f calls arguments with
    | ToolReturns v => (Value v, S calls)
    | ToolRaises e => (Value (VStr (u "工具执行错误: " ++ e)), S calls)
    end
  | None => (Value (VStr (u "错误：未知工具 '" ++ name_str tool_name ++ u "'")), calls)
  end.

(** The variables of the retry loop of [ReActAgent.run]. *)
Record retry_state := mkRetry {
  retry_count : nat;
  observation_result : pyval;
  last_error : option pystr;
  calls : nat
}.

(** The body of the [try] in the retry loop. *)
Definition dispatch (reg : registry) (tool_name : string) (tool_args : pydict)
    (calls : nat) : call_result pyval * nat :=
  if is_async_tool reg tool_name then execute_async_tool reg tool_name tool_args calls
  else
    match execute_tool reg tool_name tool_args calls with
    | (Value obs_str, calls') =>
      (Value (VDict (<["success" := VBool true]> (<["message" := obs_str]> ∅))), calls')
    | (Exception e, calls') => (Exception e, calls')
    end.

(** [while retry_count <= self.max_retries], with [fuel] passes allowed;
    [None] when the fuel runs out. *)
Fixpoint retry_loop (reg : registry) (max_retries : nat) (tool_name : string)
    (tool_args : pydict) (fuel : nat) (st : retry_state) : option retry_state :=
  if negb (bool_decide (retry_count st ≤ max_retries)%nat) then Some st
  else
    match fuel with
    | O => None
    | S fuel' =>
      match dispatch reg tool_name tool_args (calls st) with
      | (Value v, calls') =>
        Some (mkRetry (retry_count st) v (last_error st) calls')
      | (Exception e, calls') =>
        retry_loop reg max_retries tool_name tool_args fuel'
          (mkRetry (S (retry_count st)) (observation_result st) (Some e) calls')
      end
    end.

(** [self.max_retries = 2] *)
Definition max_retries : nat := 2.

(** The tool dispatch of [ReActAgent.run] for one tool call: the retry
    loop, then the terminal error when no result was obtained.
    [calls_before] and [error_before] are the number of tool calls made and
    the value of [last_error] when the dispatch starts; [str(None)] is the
    text [None]. *)
Definition run_tool_call (reg : registry) (tool_name : string) (tool_args : pydict)
    (calls_before : nat) (error_before : option pystr) : option retry_state :=
  st ← retry_loop reg max_retries tool_name tool_args (S max_retries)
         (mkRetry 0 VNone error_before calls_before);
  Some (match observation_result st with
        | VNone =>
          mkRetry (retry_count st)
            (error_envelope (u "工具执行失败（重试" ++ u (pretty max_retries) ++ u "次后）: "
                             ++ default (u "None") (last_error st)))
            (last_error st) (calls st)
        | _ => st
        end).

End Tools.

(** ** Concrete inputs used in the examples *)

Module Examples.

Import Unified.

(** A plan as the backend may give it: two steps share the id [search],
    and a third has the empty id. *)
Definition duplicate_plan : list plan_info :=
  [info "search" "搜索" "first search" "paper_list";
   info "search" "再次搜索" "second search" "paper_list";
   info "" "总结" "summary" "report"].

(** A result bag with a short answer. *)
Definition short_answer_bag : pydict := <["final_answer" := VStr (u "ok")]> ∅.

(** A result bag whose answer reports a failure. *)
Definition failed_answer_bag : pydict := <["final_answer" := VStr (u "request failed")]> ∅.

(** A backend that grades on a scale of ten. *)
Definition ten_point_reply : Evaluator.eval_reply :=
  Evaluator.ReplyData (Some 8%Q) (Some 8%Q) (Some 8%Q) (Some 8%Q) [].

(** The envelope a tool returns on success. *)
Definition success_envelope : pyval :=
  VDict (<["success" := VBool true]> (<["message" := VStr (u "ok")]> ∅)).

(** An async tool that raises on its first two calls and succeeds on the
    third. *)
Definition flaky_tool : Tools.tool :=
  λ calls _, if (calls <? 2)%nat then Tools.ToolRaises (u "boom")
             else Tools.ToolReturns success_envelope.

(** [ASYNC_TOOLS = {"flaky": flaky_tool}], no synchronous tool. *)
Definition flaky_registry : Tools.registry :=
  Tools.mkRegistry ∅ {["flaky" := flaky_tool]}.

(** [str(v)] on the values the examples format: a string is itself. *)
Definition str_of (v : pyval) : pystr :=
  match v with VStr s => s | _ => u "None" end.

(** A prompt builder that leaves the task as it is. *)
Definition plain_task (task : pystr) (context : pydict) : pystr := task.

(** A handler that always raises. *)
Definition raising_handler : Unified.handler :=
  λ _ _ _ _, Unified.StepRaised (u "boom").


(** No backend; every handler raises. *)
Definition world_all_fail : Unified.world :=
  Unified.mkWorld (u "t0") (u "t1") None raising_handler raising_handler
    raising_handler raising_handler raising_handler [].


(** The request of Scenario A. *)
Definition paper_task : pystr := u "帮我搜索关于 transformer 的论文".

(** The base agent of the examples: the unified agent with no backend,
    every step of which fails, whatever the iteration. *)
Definition failing_base_agent (it : Z) (task : pystr) (context : pydict)
    : option pydict :=
  Some (Unified.execute_task str_of plain_task world_all_fail task (Some context)).1.

(** The run of the reflection agent used as an example: default bound, no
    backend, the failing base agent, the request of Scenario A. *)
Definition reflection_run : Wrapper.run (pydict * Wrapper.loop_state) :=
  Wrapper.execute_task str_of failing_base_agent None Wrapper.default_agent
    paper_task None.

(** A backend whose evaluation replies are negative and fall from one
    iteration to the next, and whose analysis call fails. *)
Definition harsh_backend : Wrapper.backend :=
  Wrapper.mkBackend
    (λ it, let s := Some (inject_Z (- 2 - it)) in Evaluator.ReplyData s s s s [])
    (λ _, Analyzer.AnalysisFails).

(** The same run with that backend configured. *)
Definition harsh_run : Wrapper.run (pydict * Wrapper.loop_state) :=
  Wrapper.execute_task str_of failing_base_agent (Some harsh_backend)
    Wrapper.default_agent paper_task None.

(** A base agent that returns the empty dict at first and a short answer
    afterwards. *)
Definition empty_first_agent (it : Z) (task : pystr) (context : pydict)
    : option pydict :=
  Some (if (it =? 0)%Z then ∅ else short_answer_bag).

(** A backend whose sub-scores are in range: 1.0 at first, 0.0 afterwards;
    its analysis call fails. *)
Definition fading_backend : Wrapper.backend :=
  Wrapper.mkBackend
    (λ it, let s := Some (if (it =? 0)%Z then 1%Q else 0%Q) in
           Evaluator.ReplyData s s s s [])
    (λ _, Analyzer.AnalysisFails).

(** The run of the reflection agent over them. *)
Definition empty_first_run : Wrapper.run (pydict * Wrapper.loop_state) :=
  Wrapper.execute_task str_of empty_first_agent (Some fading_backend)
    Wrapper.default_agent paper_task None.

End Examples.

(** ** agent/tools.py: registration; agent/react.py: the observation step *)

Module Registry.

Import Tools.

(** [register_tool(name)(func)]: [TOOLS[name] = func]. *)
Definition register_tool (name : string) (func : tool) (reg : registry) : registry :=
  mkRegistry (<[name := func]> (TOOLS reg)) (ASYNC_TOOLS reg).

(** [register_async_tool(name)(func)]: [ASYNC_TOOLS[name] = func]. *)
Definition register_async_tool (name : string) (func : tool) (reg : registry)
    : registry :=
  mkRegistry (TOOLS reg) (<[name := func]> (ASYNC_TOOLS reg)).

Section Observation.

(** [str(v)] *)
Variable py_str : pyval → pystr.

(** What an f-string puts for a value: a string stands for itself. *)
Definition fmt (v : pyval) : pystr :=
  match v with VStr s => s | _ => py_str v end.

(** The [content] of the observation step that [ReActAgent.run] builds
    from [observation_result] after the retry loop; [None] when the
    observation is not a dict, so that [.get] raises. *)
Definition observation_content (observation_result : pyval) : option pyval :=
  d ← as_dict observation_result;
  let observation_content := get_or d "message" (VStr (py_str observation_result)) in
  if negb (truthy (get d "success"))
  then Some (VStr (u "❌ 执行失败: " ++ fmt (get_or d "error" (VStr (u "未知错误")))))
  else Some observation_content.

End Observation.

End Registry.

(** ** agent/reflection/adjuster.py: parameters and retry strategies *)

Module Strategy.

(** [PlanAdjuster.adjust_params]: the keys of the reflection's
    [adjusted_params] are written over a copy of the original ones. *)
Definition adjust_params (original_params : pydict) (reflection : ReflectionResult)
    : pydict :=
  let adjusted := original_params in
  if negb (dict_is_empty (adjusted_params reflection))
  then adjusted_params reflection ∪ adjusted
  else adjusted.

Definition flags (k1 : string) (v1 : bool) (k2 : string) (v2 : bool) : pydict :=
  <[k1 := VBool v1]> (<[k2 := VBool v2]> ∅).

(** [PlanAdjuster.get_retry_strategy] *)
Definition get_retry_strategy (failure_type : pystr) (attempt : Z) : pydict :=
  if str_eqb failure_type (u "no_results") then
    flags "expand_search" true "use_fallback" (2 <=? attempt)
  else if str_eqb failure_type (u "incomplete_results") then
    flags "increase_limit" true "add_detail" true
  else if str_eqb failure_type (u "irrelevant_results") then
    flags "refine_query" true "use_synonyms" (2 <=? attempt)
  else if str_eqb failure_type (u "api_error") then
    flags "use_cache" true "simplify_request" (2 <=? attempt)
  else if str_eqb failure_type (u "timeout") then
    flags "reduce_timeout" true "use_smaller_batch" true
  else <["retry" := VBool true]> ∅.

End Strategy.

(** ** agent/react.py: intent detection and the simulated run *)

Module Intent.

Local Open Scope Q_scope.

(** The dict [_detect_intent] returns. *)
Record detected_intent := mkInfo {
  intent : pystr;
  recommended_tool : option pystr;
  confidence : Q;
  hint : pystr
}.

Definition experiment_keywords : list pystr :=
  [u "跑了"; u "测试了"; u "实验结果"; u "准确率"; u "loss"; u "精度"; u "f1";
   u "recall"; u "precision"; u "训练了"; u "模型在"; u "数据集上"; u "记录实验";
   u "实验记录"; u "实验："; u "记录："].

Definition reminder_keywords : list pystr :=
  [u "提醒我"; u "别忘了"; u "记得"; u "明天"; u "下周"; u "今天下午";
   u "今天上午"; u "组会"; u "开会"; u "截止"; u "提交"; u "添加日程";
   u "日程："; u "提醒："; u "安排"].

Definition query_keywords : list pystr :=
  [u "查看"; u "查询"; u "最近"; u "历史"; u "所有实验"; u "所有日程";
   u "找一下"; u "有没有"; u "查询："; u "查看："].

Definition paper_keywords : list pystr :=
  [u "搜索论文"; u "找论文"; u "查论文"; u "文献"; u "论文：";
   u "semantic scholar"; u "arxiv"].

Definition review_keywords : list pystr :=
  [u "文献综述"; u "研究进展"; u "领域分析"; u "综述"; u "研究现状";
   u "领域概述"; u "研究概况"].

Definition trend_keywords : list pystr :=
  [u "研究趋势"; u "发展趋势"; u "发展趋势"; u "演变"; u "发展历程"].

Definition gap_keywords : list pystr :=
  [u "研究空白"; u "研究方向"; u "未来方向"; u "研究机会"; u "研究问题";
   u "待研究"; u "未解决"].

(** One of the loops [for kw in kws: if kw in task_lower: return ...]:
    the keyword it returns with, [None] when it falls through. *)
Fixpoint first_keyword (kws : list pystr) (task_lower : pystr) : option pystr :=
  match kws with
  | [] => None
  | kw :: rest =>
    if contains kw task_lower then Some kw else first_keyword rest task_lower
  end.

Definition found (intent tool : string) (confidence : Q) (label : string)
    (kw : pystr) : detected_intent :=
  mkInfo (u intent) (Some (u tool)) confidence
         (u label ++ u "（关键词：" ++ kw ++ u "）").

(** [_detect_intent] *)
Definition _detect_intent (task : pystr) : detected_intent :=
  let task_lower := lower task in
  match first_keyword experiment_keywords task_lower with
  | Some kw => found "record_experiment" "add_experiment" (9#10) "检测到实验记录意图" kw
  | None =>
  match first_keyword reminder_keywords task_lower with
  | Some kw => found "add_reminder" "add_reminder" (9#10) "检测到日程提醒意图" kw
  | None =>
  match first_keyword query_keywords task_lower with
  | Some kw =>
    found "query_history"
      (if contains (u "实验") task_lower then "query_experiments" else "list_reminders")
      (8#10) "检测到查询意图" kw
  | None =>
  match first_keyword review_keywords task_lower with
  | Some kw =>
    found "literature_review" "generate_literature_review" (9#10) "检测到文献综述意图" kw
  | None =>
  match first_keyword trend_keywords task_lower with
  | Some kw =>
    found "research_trends" "analyze_research_trends" (9#10) "检测到研究趋势分析意图" kw
  | None =>
  match first_keyword gap_keywords task_lower with
  | Some kw =>
    found "find_gaps" "find_research_gaps" (9#10) "检测到研究空白分析意图" kw
  | None =>
  match first_keyword paper_keywords task_lower with
  | Some kw =>
    found "search_papers" "search_semantic_scholar" (8#10) "检测到论文搜索意图" kw
  | None =>
    mkInfo (u "general_chat") None (5#10) (u "未检测到明确意图，将进行通用处理")
  end end end end end end end.

(** The intent dict, as a value. *)
Definition info_to_dict (i : detected_intent) : pyval :=
  VDict (<["intent" := VStr (intent i)]>
        (<["recommended_tool" := from_option VStr VNone (recommended_tool i)]>
        (<["confidence" := VFloat (confidence i)]>
        (<["hint" := VStr (hint i)]> ∅)))).

(** [s.replace(old, "")] for a non-empty [old]: the occurrences found
    scanning from the left are dropped.  [skip] code points of the last
    occurrence remain to be passed over. *)
Fixpoint remove_from (old s : pystr) (skip : nat) : pystr :=
  match s with
  | [] => []
  | c :: t =>
    match skip with
    | S k => remove_from old t k
    | O => if is_prefix old s
           then remove_from old t (Nat.pred (length old))
           else c :: remove_from old t 0
    end
  end.

Definition remove (old s : pystr) : pystr := remove_from old s 0.

(** The step dicts of a run. *)
Definition thought (content : pystr) : pydict :=
  <["type" := VStr (u "thought")]> (<["content" := VStr content]> ∅).

Definition action (tool : pystr) (arguments : pydict) : pydict :=
  <["type" := VStr (u "action")]>
  (<["tool" := VStr tool]> (<["arguments" := VDict arguments]> ∅)).

Definition observation (content : pystr) : pydict :=
  <["type" := VStr (u "observation")]> (<["content" := VStr content]> ∅).

Definition done_envelope (message : string) : pyval :=
  VDict (<["success" := VBool true]> (<["message" := VStr (u message)]> ∅)).

Definition at_iteration (n : Z) (step : pydict) : pydict :=
  <["iteration" := VInt n]> step.

(** The loop [for i, step in enumerate(simulated_steps)]: each step gets
    the number [len(steps) + 1] and is appended. *)
Fixpoint append_numbered (simulated_steps steps : list pydict) : list pydict :=
  match simulated_steps with
  | [] => steps
  | step :: rest =>
    append_numbered rest (steps ++ [at_iteration (Z.of_nat (length steps) + 1) step])
  end.

(** [_simulate_react]; the callback, which is only shown the steps, is
    left out. *)
Definition _simulate_react (task : pystr) (intent_info : option detected_intent)
    : pydict :=
  let steps := [at_iteration 1 (thought (u "收到任务：" ++ task))] in
  let tool := intent_info ≫= recommended_tool in
  let '(steps, final_answer) :=
    if bool_decide (tool = Some (u "add_experiment")) then
      (steps ++
       [at_iteration 2 (thought (u "检测到实验记录意图，将调用 add_experiment"));
        at_iteration 3
          (action (u "add_experiment")
             {["note" := VStr (remove (u "请帮我记录实验:")
                                 (remove (u "请帮我记录实验：") task))]});
        at_iteration 4
          (<["tool_result" := done_envelope "实验记录已保存"]>
             (observation (u "✅ 实验记录已保存（模拟）")))],
       u "✅ 实验记录已成功保存！您的实验数据已被记录，可以随时查询。")
    else if bool_decide (tool = Some (u "add_reminder")) then
      (steps ++
       [at_iteration 2 (thought (u "检测到日程提醒意图，将调用 add_reminder"));
        at_iteration 3
          (action (u "add_reminder")
             {["note" := VStr (remove (u "请帮我添加日程:")
                                 (remove (u "请帮我添加日程：") task))]});
        at_iteration 4
          (<["tool_result" := done_envelope "日程提醒已添加"]>
             (observation (u "✅ 日程提醒已添加（模拟）")))],
       u "✅ 日程提醒已成功添加！到时间我会提醒您。")
    else if from_option (λ t, bool_decide (t ∈ [u "query_experiments"; u "list_reminders"]))
                        false tool then
      let tool_name := default [] tool in
      (steps ++
       [at_iteration 2 (thought (u "检测到查询意图，将调用 " ++ tool_name));
        at_iteration 3
          (action tool_name
             (if str_eqb tool_name (u "query_experiments")
              then {["query" := VStr task]}
              else {["time_range" := VStr (u "all")]}));
        at_iteration 4
          (<["tool_result" := done_envelope "查询完成"]>
             (observation (u "📋 查询结果（模拟）：找到相关记录")))],
       u "📋 查询完成！找到了相关记录（模拟模式）。")
    else
      (append_numbered
         [thought (u "这是一个学术相关的任务，我应该使用可用的工具来帮助完成。");
          action (u "search_web") {["query" := VStr (take 50 task)]};
          observation (u "模拟搜索结果：找到3篇与'" ++ take 30 task ++ u "'相关的论文");
          thought (u "搜索结果已获取，现在我可以基于这些信息给出回答。")]
         steps,
       u "基于模拟分析，对于您的任务「" ++ task ++ u "」，我建议：" ++ NL ++ NL
       ++ u "1. 首先进行文献调研，了解相关领域的研究现状" ++ NL
       ++ u "2. 整理关键概念和方法论" ++ NL
       ++ u "3. 根据需要制定实验计划或写作大纲" ++ NL ++ NL
       ++ u "如需更详细的帮助，请配置API密钥以启用完整的AI功能。") in
  let answer_step :=
    at_iteration (Z.of_nat (length steps) + 1)
      (<["type" := VStr (u "answer")]> (<["content" := VStr final_answer]> ∅)) in
  let steps := steps ++ [answer_step] in
  <["task" := VStr task]>
  (<["steps" := VList (VDict <$> steps)]>
  (<["answer" := VStr final_answer]>
  (<["iterations" := VInt (Z.of_nat (length steps))]>
  (<["detected_intent" := from_option info_to_dict VNone intent_info]> ∅)))).

(** [ReActAgent.run] when no client is configured: the intent is detected
    and the run is simulated.  The task history kept by the memory manager
    is outside the model. *)
Definition run_without_client (task : pystr) : pydict :=
  _simulate_react task (Some (_detect_intent task)).

End Intent.

(** ** agent/unified_agent.py: the task text with its conversation context *)

Module Prompt.

Section WithFormatting.

(** [str(v)] *)
Variable py_str : pyval → pystr.

Abbreviation fmt := (Registry.fmt py_str).

(** [if len(text) > n: text = text[:n] + "..."]; [None] where Python raises
    ([len] of a number, a slice of a dict, a list plus a string). *)
Definition shorten (n : nat) (text : pyval) : option pyval :=
  len ← py_len text;
  if bool_decide (n < len)%nat
  then s ← as_str text; Some (VStr (take n s ++ u "..."))
  else Some text.

(** [v == "user"] *)
Definition is_user (v : pyval) : bool :=
  match v with VStr s => str_eqb s (u "user") | _ => false end.

(** One pass of [for msg in recent_messages]: the line it appends. *)
Definition message_line (msg : pyval) : option pystr :=
  d ← as_dict msg;
  let role := if is_user (get d "role") then u "用户" else u "助手" in
  content ← shorten 200 (get_or d "content" (VStr []));
  Some (role ++ u ": " ++ fmt content).

(** [if messages: ...]: the parts it appends. *)
Definition messages_part (messages : pyval) : option (list pystr) :=
  if truthy messages then
    l ← as_list messages;
    let recent_messages := drop (length l - 6) l in
    lines ← mapM message_line recent_messages;
    Some (u "【对话历史】" :: lines)
  else Some [].

(** One pass of [for i, paper in enumerate(current_papers[:10])]. *)
Definition paper_line (i : nat) (paper : pyval) : option pystr :=
  d ← as_dict paper;
  title ← shorten 80 (get_or d "title" (VStr (u "未知标题")));
  Some (u "  [" ++ u (pretty (i + 1)%nat) ++ u "] " ++ fmt title).

(** [if current_papers: ...] *)
Definition papers_part (current_papers : pyval) : option (list pystr) :=
  if truthy current_papers then
    l ← as_list current_papers;
    lines ← mapM id (imap paper_line (take 10 l));
    Some ((NL ++ u "【当前论文列表】") :: lines)
  else Some [].

(** [index < n] for a number [index]; [None] for a value that is not
    ordered with an int. *)
Definition less_than_len (index : pyval) (n : nat) : option bool :=
  match index with
  | VInt z => Some (z <? Z.of_nat n)
  | VBool b => Some ((if b then 1 else 0) <? Z.of_nat n)
  | VFloat q => Some (negb (Qle_bool (inject_Z (Z.of_nat n)) q))
  | _ => None
  end.

(** [l[index]]: a negative index counts from the end; [None] for an index
    out of range or not an int. *)
Definition item (l : list pyval) (index : pyval) : option pyval :=
  z ← match index with
      | VInt z => Some z
      | VBool b => Some (if b then 1 else 0)
      | _ => None
      end;
  if 0 <=? z then l !! Z.to_nat z
  else if - Z.of_nat (length l) <=? z then l !! Z.to_nat (Z.of_nat (length l) + z)
  else None.

(** [', '.join(authors[:3])]: of a list of strings, or of the characters
    of a string. *)
Definition authors_text (authors : pyval) : option pystr :=
  match authors with
  | VList l => join (u ", ") <$> mapM as_str (take 3 l)
  | VStr s => Some (join (u ", ") ((λ c, [c]) <$> take 3 s))
  | _ => None
  end.

(** [if selected_paper_index is not None and current_papers and
    selected_paper_index < len(current_papers): ...] *)
Definition selected_part (selected_paper_index current_papers : pyval)
    : option (list pystr) :=
  match selected_paper_index with
  | VNone => Some []
  | _ =>
    if truthy current_papers then
      n ← py_len current_papers;
      less_than_len selected_paper_index n ≫= λ below : bool,
      if below then
        l ← as_list current_papers;
        selected_paper ← item l selected_paper_index;
        d ← as_dict selected_paper;
        authors ← authors_text (get_or d "authors" (VList []));
        Some [NL ++ u "【当前选中论文】";
              u "  标题: " ++ fmt (get_or d "title" (VStr (u "未知")));
              u "  作者: " ++ authors;
              u "  年份: " ++ fmt (get_or d "year" (VStr (u "未知")))]
      else Some []
    else Some []
  end.

(** The list [context_parts] when it is joined. *)
Definition context_parts (task : pystr) (context : pydict) : option (list pystr) :=
  let messages := get_or context "messages" (VList []) in
  let current_papers := get_or context "currentPapers" (VList []) in
  let selected_paper_index := get context "selectedPaperIndex" in
  history ← messages_part messages;
  papers ← papers_part current_papers;
  selected ← selected_part selected_paper_index current_papers;
  Some (history ++ papers ++ selected
        ++ [NL ++ u "【当前用户请求】"; u "  " ++ task]).

(** [_build_task_with_context]; [None] when it raises. *)
Definition _build_task_with_context (task : pystr) (context : pydict)
    : option pystr :=
  join NL <$> context_parts task context.

End WithFormatting.

End Prompt.

(** ** Notions used in the statements *)

Module Notions.

(** The task types that have heuristics of their own. *)
Definition has_own_heuristics (tt : pystr) : bool :=
  str_eqb tt (u "literature_research") || str_eqb tt (u "question_answering")
  || str_eqb tt (u "schedule_planning") || str_eqb tt (u "experiment_management").

(** The failure types [_classify_failure] can return. *)
Definition failure_types : list pystr :=
  [u "no_results"; u "incomplete_results"; u "irrelevant_results"; u "api_error";
   u "unknown"].

(** The keys of the shared context that the steps of a plan write. *)
Definition step_context_keys : list string :=
  ["papers"; "analysis"; "schedule_info"; "schedule"].

Import Wrapper.

(** What the continuing passes keep: the history has one entry for each
    iteration made, numbered in order, and as many attempts. *)
Definition counted (self : Wrapper.ReflectionAgent) (st : Wrapper.loop_state) : Prop :=
  (0 ≤ iteration st)%Z
  ∧ length (reflection_history st) = Z.to_nat (iteration st)
  ∧ length (attempts st) = Z.to_nat (iteration st)
  ∧ (∀ i entry, reflection_history st !! i = Some entry →
       ∃ d, entry = VDict d ∧ d !! "iteration" = Some (VInt (Z.of_nat i)))
  ∧ ((iteration st ≤ MAX_ITERATIONS self)%Z
     ∨ attempts st = [] ∧ best_result st = None).

(** What the continuing passes keep: the request occurs in the current
    task and in the task of every attempt made. *)
Definition carries (request : pystr) (st : Wrapper.loop_state) : Prop :=
  occurs_in request (current_task st)
  ∧ Forall (λ a, occurs_in request (att_task a)) (attempts st)
  ∧ (∀ a, head (attempts st) = Some a → att_task a = request)
  ∧ (attempts st = [] → current_task st = request).

End Notions.

(** ** More concrete inputs *)

Module Scenarios.

(** A synchronous tool that raises. *)
Definition broken_tool : Tools.tool := λ _ _, Tools.ToolRaises (u "disk full").

(** [TOOLS = {"save": broken_tool}], registered on empty registries. *)
Definition sync_registry : Tools.registry :=
  Registry.register_tool "save" broken_tool (Tools.mkRegistry ∅ ∅).

(** A backend reply that gives every sub-score the value 1.0. *)
Definition full_marks : Evaluator.eval_reply :=
  Evaluator.ReplyData (Some 1%Q) (Some 1%Q) (Some 1%Q) (Some 1%Q) [].

(** A result bag with a short answer and a plan of one entry. *)
Definition planned_bag : pydict :=
  <["final_answer" := VStr (u "ok")]> (<["plan" := VList [VDict ∅]]> ∅).

(** The answer to a question, which says that nothing could be done. *)
Definition sorry_bag : pydict :=
  <["task_type" := VStr (u "question_answering")]>
  (<["final_answer" :=
       VStr (u "无法完成: the upstream service did not answer in time, nothing was found")]>
   ∅).

(** A base agent that gives that answer, whatever it is asked. *)
Definition sorry_agent (it : Z) (task : pystr) (context : pydict) : option pydict :=
  Some sorry_bag.

(** The request of the examples below. *)
Definition summary_task : pystr := u "总结一下".

(** The run of the reflection agent over that base agent, with no backend. *)
Definition sorry_run : Wrapper.run (pydict * Wrapper.loop_state) :=
  Wrapper.execute_task Examples.str_of sorry_agent None Wrapper.default_agent
    summary_task None.

(** A conversation context with one message. *)
Definition chat_context : pydict :=
  {["messages" :=
      VList [VDict (<["role" := VStr (u "user")]>
                    (<["content" := VStr (u "hi")]> ∅))]]}.

(** A conversation context with a list of one paper. *)
Definition papers_context : pydict :=
  {["currentPapers" := VList [VDict {["title" := VStr (u "Attention")]}]]}.

(** The prompt builder of the examples: the task itself when the builder
    raises. *)
Definition build (task : pystr) (context : pydict) : pystr :=
  default task (Prompt._build_task_with_context Examples.str_of task context).

End Scenarios.

(** ** What a run of [execute_task] works on *)

(** Names for what [UnifiedAgent.execute_task] computes before its step
    loop, and for the calls the loop is to make; the statements on the loop
    refer to them. *)
Module PlanRun.

Import Unified.

Section WithPrompt.

Variable _build_task_with_context : pystr → pydict → pystr.





End WithPrompt.


End PlanRun.

(** * Properties *)

(** ** Lemmas on strings *)

Lemma is_prefix_spec (p s : pystr) :
  is_prefix p s = true ↔ ∃ post, s = p ++ post.
Proof.
  revert s. induction p as [|x p IH]; intros s; simpl.
  - split; eauto.
  - destruct s as [|y s].
    + split; [done | intros [post H]; discriminate].
    + rewrite andb_true_iff, N.eqb_eq, IH. split.
      * intros [-> [post ->]]. by exists post.
      * intros [post H]. injection H as -> ->. eauto.
Qed.

Lemma contains_spec (needle hay : pystr) :
  contains needle hay = true ↔ occurs_in needle hay.
Proof.
  unfold occurs_in. induction hay as [|c hay IH].
  - simpl. rewrite orb_false_r, is_prefix_spec. split.
    + intros [post H]. by exists [], post.
    + intros (pre & post & H). symmetry in H.
      apply app_eq_nil in H as [-> H]. simpl in H.
      apply app_eq_nil in H as [-> ->]. by exists [].
  - cbn [contains]. rewrite orb_true_iff, is_prefix_spec, IH. split.
    + intros [[post H] | (pre & post & H)].
      * by exists [], post.
      * exists (c :: pre), post. by rewrite H.
    + intros (pre & post & H). destruct pre as [|c' pre].
      * left. by exists post.
      * right. injection H as -> H. by exists pre, post.
Qed.

Lemma any_in_spec (kws : list pystr) (s : pystr) :
  any_in kws s = true ↔ ∃ kw, kw ∈ kws ∧ occurs_in kw s.
Proof.
  induction kws as [|kw kws IH]; simpl.
  - split; [done | intros (kw & H & _); by apply elem_of_nil in H].
  - destruct (contains kw s) eqn:E.
    + split; [intros _ | done]. exists kw. split; [left |]. by apply contains_spec.
    + rewrite IH. split.
      * intros (k & Hk & Ho). exists k. split; [by right | done].
      * intros (k & Hk & Ho). apply elem_of_cons in Hk as [-> | Hk].
        -- apply contains_spec in Ho. congruence.
        -- eauto.
Qed.

Lemma occurs_in_refl (s : pystr) : occurs_in s s.
Proof. exists [], []. by rewrite app_nil_r. Qed.

Lemma occurs_in_app_l (n a b : pystr) : occurs_in n a → occurs_in n (a ++ b).
Proof.
  intros (pre & post & ->). exists pre, (post ++ b). by rewrite <- !app_assoc.
Qed.

Lemma occurs_in_app_r (n a b : pystr) : occurs_in n b → occurs_in n (a ++ b).
Proof.
  intros (pre & post & ->). exists (a ++ pre), post. by rewrite <- !app_assoc.
Qed.

Lemma occurs_in_trans (a b c : pystr) :
  occurs_in a b → occurs_in b c → occurs_in a c.
Proof.
  intros (p1 & q1 & ->) (p2 & q2 & ->).
  exists (p2 ++ p1), (q1 ++ q2). by rewrite <- !app_assoc.
Qed.

(** Every part of a join occurs in the joined string. *)
Lemma join_occurs (sep : pystr) (parts : list pystr) (p : pystr) :
  p ∈ parts → occurs_in p (join sep parts).
Proof.
  induction parts as [|q parts IH]; intros Hin.
  - by apply elem_of_nil in Hin.
  - apply elem_of_cons in Hin as [-> | Hin].
    + destruct parts as [|q' parts]; simpl.
      * apply occurs_in_refl.
      * apply occurs_in_app_l, occurs_in_refl.
    + destruct parts as [|q' parts]; [by apply elem_of_nil in Hin |].
      change (join sep (q :: q' :: parts)) with (q ++ sep ++ join sep (q' :: parts)).
      apply occurs_in_app_r, occurs_in_app_r. by apply IH.
Qed.


(** ** Classification *)

Import Unified.

Lemma keyword_loop_any (kws : list pystr) (s : pystr) (t : TaskType) :
  keyword_loop kws s t = if any_in kws s then Some t else None.
Proof.
  induction kws as [|kw kws IH]; [done |].
  cbn [keyword_loop any_in]. by destruct (contains kw s).
Qed.

Lemma rule_matches_any (kws : list pystr) (task : pystr) :
  rule_matches kws task ↔ any_in kws (lower task) = true.
Proof. unfold rule_matches. by rewrite any_in_spec. Qed.

Lemma rule_fails_any (kws : list pystr) (task : pystr) :
  ¬ rule_matches kws task ↔ any_in kws (lower task) = false.
Proof. rewrite rule_matches_any. by destruct (any_in kws (lower task)). Qed.

(** The rule-based classifier as a decision list over the four rules. *)
Lemma rule_based_classify_cases (task : pystr) :
  _rule_based_classify task =
    if any_in literature_keywords (lower task) then LITERATURE_RESEARCH
    else if any_in schedule_keywords (lower task) then SCHEDULE_PLANNING
    else if any_in experiment_keywords (lower task) then EXPERIMENT_MANAGEMENT
    else if any_in question_keywords (lower task) then QUESTION_ANSWERING
    else GENERAL.
Proof.
  unfold _rule_based_classify. rewrite !keyword_loop_any.
  by repeat destruct (any_in _ _).
Qed.

(** The ordered rules, as [_classify_task] has them.  With no backend
    configured, [_classify_task] is a function of the task text alone,
    decided by keyword containment in the lower-cased text: the literature
    rule is tried first, then the schedule rule, the experiment rule and the
    question rule; the first rule that matches gives the type, and [GENERAL]
    is the answer when none matches.  Nothing in the source calls
    [_classify_task]; what a run does instead is stated after it. *)
Lemma classify_without_backend_ordered_rules (task : pystr) :
  let t := _classify_task None task in
  let lit := rule_matches literature_keywords task in
  let sched := rule_matches schedule_keywords task in
  let exper := rule_matches experiment_keywords task in
  let quest := rule_matches question_keywords task in
  (t = LITERATURE_RESEARCH ↔ lit)
  ∧ (t = SCHEDULE_PLANNING ↔ ¬ lit ∧ sched)
  ∧ (t = EXPERIMENT_MANAGEMENT ↔ ¬ lit ∧ ¬ sched ∧ exper)
  ∧ (t = QUESTION_ANSWERING ↔ ¬ lit ∧ ¬ sched ∧ ¬ exper ∧ quest)
  ∧ (t = GENERAL ↔ ¬ lit ∧ ¬ sched ∧ ¬ exper ∧ ¬ quest)
  ∧ _classify_task None (u "帮我搜索关于 transformer 的论文") = LITERATURE_RESEARCH.
Proof.
  cbv zeta. unfold _classify_task at 1 2 3 4 5.
  rewrite !rule_fails_any, !rule_matches_any, rule_based_classify_cases.
  destruct (any_in literature_keywords (lower task)),
           (any_in schedule_keywords (lower task)),
           (any_in experiment_keywords (lower task)),
           (any_in question_keywords (lower task));
    (repeat split; try done; try (intros; intuition discriminate));
    vm_compute; reflexivity.
Qed.

(** [execute_task] does not call [_classify_task]: with no backend it reads
    the task type off [_fallback_task_analysis], which has the one rule of
    literature research and answers [general] otherwise. *)
Lemma fallback_analysis_task_types (task : pystr) :
  an_task_type (_fallback_task_analysis task)
  = Some (if any_in fallback_keywords (lower task)
          then u "literature_research" else u "general").
Proof. unfold _fallback_task_analysis. by destruct (any_in _ _). Qed.

(** Scenario A through [execute_task]: with no backend and no conversation
    context the result carries the task type [literature_research], whatever
    the handlers do. *)
Lemma scenario_a_through_execute_task (py_str : pyval → pystr)
    (_build_task_with_context : pystr → pydict → pystr) (w : world) :
  analysis_client w = None →
  (Unified.execute_task py_str _build_task_with_context w Examples.paper_task None).1
    !! "task_type" = Some (VStr (u "literature_research")).
Proof.
  intros Hc. unfold Unified.execute_task. rewrite Hc.
  assert (task_type_of_analysis
            (default (u "general")
               (an_task_type (_analyze_task_with_llm None Examples.paper_task)))
          = LITERATURE_RESEARCH) as -> by (vm_compute; reflexivity).
  rewrite bool_decide_eq_false_2 by done. cbn [fst].
  erewrite lookup_union_Some_l; [reflexivity |].
  rewrite !lookup_insert_ne by done. by rewrite lookup_insert_eq.
Qed.

(** C7, as [execute_task] runs it.  With no backend the task type of a run
    is read off [_fallback_task_analysis], not off the ordered rules of
    [_classify_task]: it is [literature_research] when one of the six
    fallback keywords occurs in the lower-cased task, and [general]
    otherwise.  So "明天下午开会", "统计一下数据" and "什么是RNN", which the
    rules give to schedule planning, experiment management and question
    answering, all run as [general]; the task of Scenario A runs as
    literature research. *)
Theorem oracle_absent_run_knows_one_rule (py_str : pyval → pystr)
    (_build_task_with_context : pystr → pydict → pystr) (w : world) (task : pystr) :
  analysis_client w = None →
  let type_of_run t :=
    (Unified.execute_task py_str _build_task_with_context w t None).1 !! "task_type" in
  type_of_run task
  = Some (VStr (if any_in fallback_keywords (lower task)
                then u "literature_research" else u "general"))
  ∧ _classify_task None (u "明天下午开会") = SCHEDULE_PLANNING
  ∧ type_of_run (u "明天下午开会") = Some (VStr (u "general"))
  ∧ _classify_task None (u "统计一下数据") = EXPERIMENT_MANAGEMENT
  ∧ type_of_run (u "统计一下数据") = Some (VStr (u "general"))
  ∧ _classify_task None (u "什么是RNN") = QUESTION_ANSWERING
  ∧ type_of_run (u "什么是RNN") = Some (VStr (u "general"))
  ∧ type_of_run (u "帮我搜索关于 transformer 的论文")
    = Some (VStr (u "literature_research")).
Proof.
  intros Hc. cbv zeta.
  assert (∀ t, (Unified.execute_task py_str _build_task_with_context w t None).1
               !! "task_type"
               = Some (VStr (if any_in fallback_keywords (lower t)
                             then u "literature_research" else u "general"))) as Hrun.
  { intros t. unfold Unified.execute_task. rewrite Hc.
    unfold _analyze_task_with_llm. rewrite fallback_analysis_task_types.
    cbn [default from_option id].
    destruct (any_in fallback_keywords (lower t)).
    - replace (task_type_of_analysis (u "literature_research"))
        with LITERATURE_RESEARCH by (by vm_compute).
      rewrite bool_decide_eq_false_2 by done. cbn [fst].
      erewrite lookup_union_Some_l; [reflexivity |].
      rewrite !lookup_insert_ne by done. by rewrite lookup_insert_eq.
    - replace (task_type_of_analysis (u "general")) with GENERAL by (by vm_compute).
      rewrite bool_decide_eq_false_2 by done. cbn [fst].
      erewrite lookup_union_Some_l; [reflexivity |].
      rewrite !lookup_insert_ne by done. by rewrite lookup_insert_eq. }
  split; [apply Hrun |].
  rewrite !Hrun.
  repeat split; vm_compute; reflexivity.
Qed.

(** A witness of C7 as it runs: no backend, every handler raising. *)
Lemma oracle_absent_run_witness :
  analysis_client Examples.world_all_fail = None
  ∧ _classify_task None (u "明天下午开会") = SCHEDULE_PLANNING
  ∧ (Unified.execute_task Examples.str_of Examples.plain_task Examples.world_all_fail
       (u "明天下午开会") None).1 !! "task_type" = Some (VStr (u "general")).
Proof.
  split; [reflexivity |].
  pose proof (oracle_absent_run_knows_one_rule Examples.str_of Examples.plain_task
                Examples.world_all_fail (u "明天下午开会") eq_refl) as H.
  cbv zeta in H. destruct H as (_ & H1 & H2 & _). by split.
Defined.

(** ** Plans *)

Lemma steps_of_llm_plan_ids (llm_plan : list plan_info) (acc : list PlanStep) :
  step_id <$> steps_of_llm_plan llm_plan acc =
    (step_id <$> acc) ++
    imap (λ i p, default (u "step_" ++ u (pretty (length acc + i)%nat)) (pi_step_id p))
         llm_plan.
Proof.
  revert acc. induction llm_plan as [|p rest IH]; intros acc.
  - cbn. by rewrite app_nil_r.
  - cbn [steps_of_llm_plan]. rewrite IH, fmap_app, <- app_assoc. f_equal.
    cbn [imap fmap list_fmap app step_id new_PlanStep].
    rewrite Nat.add_0_r. f_equal.
    apply imap_ext. intros i x _. cbn. rewrite length_app. cbn.
    by replace (length acc + 1 + i)%nat with (length acc + S i)%nat by lia.
Qed.

(** C8, counterexample.  A plan of the backend with a repeated id and an
    empty id is run as it is: the ids of the plan are not unique, one of
    them is empty, and the plan is not the template of the task type. *)
Lemma llm_plan_with_duplicate_ids_is_kept :
  let plan := build_plan Examples.duplicate_plan LITERATURE_RESEARCH (u "查找论文") in
  step_id <$> plan = [u "search"; u "search"; []]
  ∧ ¬ NoDup (step_id <$> plan)
  ∧ ¬ Forall (λ id, id ≠ []) (step_id <$> plan)
  ∧ plan ≠ _get_plan_for_type LITERATURE_RESEARCH (u "查找论文").
Proof.
  cbv zeta. split; [by vm_compute |]. split; [| split].
  - intros H. apply (bool_decide_pack _) in H. vm_compute in H. done.
  - intros H. apply (bool_decide_pack _) in H. vm_compute in H. done.
  - intros H. apply (f_equal (fmap step_id)) in H. vm_compute in H. done.
Qed.

(** C8, as the code has it.  The template of every task type has unique,
    non-empty step ids.  A non-empty plan of the analysis is run as given:
    each step keeps the id it came with, [step_<index>] where the id is
    missing, and no check for repeated or empty ids is made.  The template is
    used exactly when the analysis has no plan. *)
Theorem plan_ids_template_unique_llm_plan_kept :
  (∀ task_type task,
     NoDup (step_id <$> _get_plan_for_type task_type task)
     ∧ Forall (λ id, id ≠ []) (step_id <$> _get_plan_for_type task_type task))
  ∧ (∀ llm_plan task_type task,
       llm_plan ≠ [] →
       step_id <$> build_plan llm_plan task_type task =
         imap (λ i p, default (u "step_" ++ u (pretty i)) (pi_step_id p)) llm_plan)
  ∧ (∀ task_type task,
       build_plan [] task_type task = _get_plan_for_type task_type task).
Proof.
  split; [| split].
  - intros tt task. split.
    + apply (bool_decide_unpack _). by destruct tt; vm_compute.
    + apply (bool_decide_unpack _). by destruct tt; vm_compute.
  - intros llm_plan tt task Hne. unfold build_plan.
    destruct llm_plan as [|p rest]; [done |].
    by rewrite steps_of_llm_plan_ids.
  - done.
Qed.

(** A witness of the statement above: a plan of the backend with one id
    given and one missing. *)
Lemma plan_ids_witness :
  let llm_plan := [info "search" "a" "b" "c"; mkPlanInfo None None None None] in
  llm_plan ≠ []
  ∧ step_id <$> build_plan llm_plan GENERAL (u "t") = [u "search"; u "step_1"].
Proof.
  cbv zeta. split; [discriminate |].
  rewrite (proj1 (proj2 plan_ids_template_unique_llm_plan_kept)); [| discriminate].
  vm_compute. reflexivity.
Defined.

(** ** Scores *)

Section Scores.

Local Open Scope Q_scope.

Lemma Qltb_lt (x y : Q) : Qltb x y = true ↔ x < y.
Proof.
  unfold Qltb. rewrite negb_true_iff. split.
  - intros H. apply Qnot_le_lt. intros Hle. apply Qle_bool_iff in Hle. congruence.
  - intros H. destruct (Qle_bool y x) eqn:E; [| done].
    apply Qle_bool_iff in E. by apply Qlt_not_le in H.
Qed.

Lemma Qltb_ge (x y : Q) : Qltb x y = false ↔ ¬ x < y.
Proof. rewrite <- Qltb_lt. by destruct (Qltb x y). Qed.

Lemma Qgeb_ge (x y : Q) : Qgeb x y = true ↔ y <= x.
Proof. apply Qle_bool_iff. Qed.

Lemma dict_is_empty_true (d : pydict) : dict_is_empty d = true ↔ d = ∅.
Proof.
  unfold dict_is_empty. rewrite bool_decide_eq_true. apply map_size_empty_iff.
Qed.

Lemma dict_is_empty_false (d : pydict) : dict_is_empty d = false ↔ d ≠ ∅.
Proof. rewrite <- dict_is_empty_true. by destruct (dict_is_empty d). Qed.

Lemma bonus_nonneg (c : bool) (w : Q) : 0 <= w → 0 <= bonus c w.
Proof. destruct c; cbn; [done | lra]. Qed.

Lemma Qmin_unit (score : Q) : 0 <= score → unit_interval (Qmin 1 score).
Proof. intros H. split; [apply Q.min_glb; lra | apply Q.le_min_l]. Qed.

Lemma Qnat_nonneg (n : nat) : 0 <= Qnat n.
Proof. unfold Qnat, Qle. cbn. lia. Qed.

Lemma Qdiv_nonneg (a b : Q) : 0 <= a → 0 <= b → 0 <= a / b.
Proof.
  intros Ha Hb. unfold Qdiv. apply Qmult_le_0_compat; [done |].
  by apply Qinv_le_0_compat.
Qed.

(** Every [bonus] in the goal is non-negative; the rest is linear. *)
Ltac bonus_nonneg :=
  repeat match goal with
         | |- context [bonus ?c ?w] =>
           let H := fresh in
           assert (H : 0 <= bonus c w) by (apply bonus_nonneg; lra);
           generalize dependent (bonus c w); intros
         end; lra.

(** Follow the branches and the bindings of a heuristic. *)
Ltac crunch := repeat (first [progress simplify_option_eq | case_match]).

(** A heuristic ends with [Some (Qmin 1 score)]. *)
Ltac split_score H :=
  let score := fresh "score" in
  let Hs := fresh "Hs" in
  apply bind_Some in H as (score & Hs & [= <-]); apply Qmin_unit.

Lemma completeness_range task result tt q :
  _evaluate_completeness task result tt = Some q → unit_interval q.
Proof.
  unfold _evaluate_completeness. intros H.
  destruct (dict_is_empty result); [injection H as <-; split; lra |].
  split_score H. crunch; bonus_nonneg.
Qed.

Lemma accuracy_range task result tt q :
  _evaluate_accuracy task result tt = Some q → unit_interval q.
Proof.
  unfold _evaluate_accuracy. intros H.
  destruct (dict_is_empty result); [injection H as <-; split; lra |].
  split_score H. crunch; try lra.
  match goal with
  | |- context [Qnat ?a / Qnat ?b] =>
    assert (0 <= Qnat a / Qnat b) by (apply Qdiv_nonneg; apply Qnat_nonneg)
  end.
  lra.
Qed.

Lemma usefulness_range task result tt q :
  _evaluate_usefulness task result tt = Some q → unit_interval q.
Proof.
  unfold _evaluate_usefulness. intros H.
  destruct (dict_is_empty result); [injection H as <-; split; lra |].
  split_score H. crunch; bonus_nonneg.
Qed.

Lemma clarity_range task result q :
  _evaluate_clarity task result = Some q → unit_interval q.
Proof.
  unfold _evaluate_clarity. intros H.
  destruct (dict_is_empty result); [injection H as <-; split; lra |].
  destruct (negb _); [injection H as <-; split; lra |].
  apply bind_Some in H as (a & Ha & [= <-]). apply Qmin_unit. bonus_nonneg.
Qed.

(** The heuristic sub-scores are in range, and all zero on an empty bag. *)
Lemma heuristic_scores_range task result tt h :
  heuristic_scores task result tt = Some h →
  unit_interval (completeness h) ∧ unit_interval (accuracy h)
  ∧ unit_interval (usefulness h) ∧ unit_interval (clarity h).
Proof.
  unfold heuristic_scores. intros H.
  apply bind_Some in H as (c & Hc & H). apply bind_Some in H as (a & Ha & H).
  apply bind_Some in H as (us & Hu & H). apply bind_Some in H as (cl & Hcl & [= <-]).
  cbn. split; [by eapply completeness_range |].
  split; [by eapply accuracy_range |].
  split; [by eapply usefulness_range | by eapply clarity_range].
Qed.

Lemma heuristic_scores_empty task tt h :
  heuristic_scores task ∅ tt = Some h →
  completeness h = 0 ∧ accuracy h = 0 ∧ usefulness h = 0 ∧ clarity h = 0.
Proof.
  unfold heuristic_scores, _evaluate_completeness, _evaluate_accuracy,
    _evaluate_usefulness, _evaluate_clarity.
  replace (dict_is_empty ∅) with true by (symmetry; by apply dict_is_empty_true).
  cbn. by intros [= <-].
Qed.

(** What [evaluate] returns, read off its definition: the sub-scores are
    the heuristic ones, or their mean with the reply's; [passed] compares
    the overall score with the threshold. *)
Lemma evaluate_inv client task result tt e :
  evaluate client task result tt = Some e →
  ∃ h, heuristic_scores task result tt = Some h
    ∧ passed e = Qgeb (overall_score e) PASS_THRESHOLD
    ∧ match client with
      | None =>
        completeness e = completeness h ∧ accuracy e = accuracy h
        ∧ usefulness e = usefulness h ∧ clarity e = clarity h
      | Some _ =>
        let llm := _llm_evaluate client in
        completeness e = (completeness h + completeness llm) / 2
        ∧ accuracy e = (accuracy h + accuracy llm) / 2
        ∧ usefulness e = (usefulness h + usefulness llm) / 2
        ∧ clarity e = (clarity h + clarity llm) / 2
      end.
Proof.
  unfold evaluate. intros H. apply bind_Some in H as (h & Hh & [= <-]).
  exists h. split; [done |].
  destruct client as [reply|]; cbn -[_llm_evaluate];
    repeat match goal with
           | |- context [match ?x with [] => _ | _ :: _ => _ end] => destruct x
           end; cbn -[_llm_evaluate]; done.
Qed.

End Scores.

(** ** The evaluator *)

Section EvaluatorProperties.

Local Open Scope Q_scope.

Lemma mean_unit (x y : Q) :
  unit_interval x → unit_interval y → unit_interval ((x + y) / 2).
Proof.
  unfold unit_interval. intros [? ?] [? ?].
  split; [apply Qle_shift_div_l | apply Qle_shift_div_r]; lra.
Qed.

Lemma llm_evaluate_range (client : option eval_reply) :
  reply_in_range client →
  let llm := _llm_evaluate client in
  unit_interval (completeness llm) ∧ unit_interval (accuracy llm)
  ∧ unit_interval (usefulness llm) ∧ unit_interval (clarity llm).
Proof.
  assert (unit_interval 0) by (split; lra).
  destruct client as [[| |c a us cl fb]|]; cbn; try done.
Qed.

(** The sub-scores [evaluate] returns are in range when the reply is. *)
Lemma evaluate_scores_range client task result tt e :
  evaluate client task result tt = Some e →
  reply_in_range client →
  unit_interval (completeness e) ∧ unit_interval (accuracy e)
  ∧ unit_interval (usefulness e) ∧ unit_interval (clarity e).
Proof.
  intros He Hr. apply evaluate_inv in He as (h & Hh & _ & Hs).
  apply heuristic_scores_range in Hh as (Hc & Ha & Hu & Hcl).
  destruct client as [reply|].
  - apply llm_evaluate_range in Hr as (Lc & La & Lu & Lcl).
    cbv zeta in Hs. destruct Hs as (-> & -> & -> & ->).
    auto using mean_unit.
  - by destruct Hs as (-> & -> & -> & ->).
Qed.

Lemma overall_score_range (e : EvaluationResult) :
  unit_interval (completeness e) → unit_interval (accuracy e) →
  unit_interval (usefulness e) → unit_interval (clarity e) →
  unit_interval (overall_score e).
Proof. unfold unit_interval, overall_score. intros [? ?] [? ?] [? ?] [? ?]. split; lra. Qed.

(** C3, counterexample.  A backend that grades on a scale of ten: the
    sub-scores are averaged in as they come, and the overall score of the
    evaluation is above 1. *)
Lemma overall_score_above_one_with_backend :
  ∃ e, evaluate (Some Examples.ten_point_reply) (u "总结一下")
         Examples.short_answer_bag (u "general") = Some e
       ∧ overall_score e == 428 # 100
       ∧ ¬ (0 <= overall_score e ∧ overall_score e <= 1).
Proof.
  eexists. split; [by vm_compute |]. split; [by vm_compute |].
  intros [_ H]. vm_compute in H. by apply H.
Qed.

(** C3, as the code has it.  The overall score of every evaluation that
    [evaluate] returns is the weighted sum of its four sub-scores with
    weights 0.30, 0.30, 0.25 and 0.15.  It lies in [0, 1] when no backend is
    configured, when the backend call fails, and when the sub-scores of the
    backend's reply lie in [0, 1]; the reply is not clamped. *)
Theorem overall_score_weighted_sum_in_range client task result tt e :
  evaluate client task result tt = Some e →
  overall_score e == (3#10) * completeness e + (3#10) * accuracy e
                     + (25#100) * usefulness e + (15#100) * clarity e
  ∧ (reply_in_range client → 0 <= overall_score e ∧ overall_score e <= 1).
Proof.
  intros He. split; [unfold overall_score; ring |].
  intros Hr. destruct (evaluate_scores_range _ _ _ _ _ He Hr) as (? & ? & ? & ?).
  by apply overall_score_range.
Qed.

(** A witness of the statement above, with no backend. *)
Lemma overall_score_witness :
  ∃ e, evaluate None (u "总结一下") Examples.short_answer_bag (u "general") = Some e
       ∧ reply_in_range None
       ∧ overall_score e == 56 # 100
       ∧ 0 <= overall_score e ∧ overall_score e <= 1.
Proof.
  eexists. split; [by vm_compute |]. split; [exact I |]. split; [by vm_compute |].
  refine (proj2 (overall_score_weighted_sum_in_range None (u "总结一下")
                   Examples.short_answer_bag (u "general") _ _) I).
  by vm_compute.
Defined.

(** When the backend call fails, each sub-score is half the heuristic one. *)
Lemma evaluate_failed_backend client task result tt e :
  client = Some ReplyRaises ∨ client = Some ReplyNoJson →
  evaluate client task result tt = Some e →
  ∃ h, heuristic_scores task result tt = Some h
       ∧ completeness e == completeness h / 2 ∧ accuracy e == accuracy h / 2
       ∧ usefulness e == usefulness h / 2 ∧ clarity e == clarity h / 2.
Proof.
  intros Hc He. apply evaluate_inv in He as (h & Hh & _ & Hs).
  exists h. split; [done |].
  destruct Hc as [-> | ->]; cbn in Hs; destruct Hs as (-> & -> & -> & ->);
    repeat split; field.
Qed.

(** C9, at a failing input.  The backend is configured and its call raises;
    the bag holds a short answer.  The heuristic sub-scores are 0.5, 0.7,
    0.5 and 0.5, and [evaluate] returns 0.25, 0.35, 0.25 and 0.25: each one
    halved, not the heuristic value. *)
Theorem failed_backend_halves_the_scores :
  let scores e := (completeness e, accuracy e, usefulness e, clarity e) in
  scores <$> heuristic_scores (u "总结一下") Examples.short_answer_bag (u "general")
    = Some (5#10, 7#10, 5#10, 5#10)
  ∧ scores <$> evaluate None (u "总结一下") Examples.short_answer_bag (u "general")
    = Some (5#10, 7#10, 5#10, 5#10)
  ∧ scores <$> evaluate (Some ReplyRaises) (u "总结一下")
                 Examples.short_answer_bag (u "general")
    = Some (5#20, 7#20, 5#20, 5#20)
  ∧ scores <$> evaluate (Some ReplyNoJson) (u "总结一下")
                 Examples.short_answer_bag (u "general")
    = Some (5#20, 7#20, 5#20, 5#20).
Proof. by vm_compute. Qed.

End EvaluatorProperties.

(** ** The analyzer *)

Section AnalyzerProperties.

Local Open Scope Q_scope.


(** [_classify_failure] returns whenever the final answer is a text. *)
Lemma classify_failure_total (result : pydict) (e : EvaluationResult) (tt s : pystr) :
  as_str (final_answer_of result) = Some s →
  is_Some (_classify_failure result e tt).
Proof.
  intros Hs. unfold _classify_failure. rewrite Hs.
  destruct (dict_is_empty result); [done |].
  destruct (Qltb (completeness e) (4#10)); [done |].
  destruct (Qltb (accuracy e) (4#10)); [done |].
  change (Some s ≫= ?f) with (f s). cbv beta.
  destruct (any_in failure_markers s); [done |].
  by destruct (_ || _).
Qed.





End AnalyzerProperties.

(** ** Tool dispatch *)

Import Tools.

(** Neither [execute_async_tool] nor [execute_tool] lets an exception out:
    the [try] of the retry loop always ends with a value. *)
Lemma dispatch_never_raises (reg : registry) (tool_name : string)
    (tool_args : pydict) (calls : nat) :
  ∃ v calls', dispatch reg tool_name tool_args calls = (Value v, calls')
              ∧ (calls' ≤ S calls)%nat.
Proof.
  unfold dispatch, execute_async_tool, execute_tool.
  destruct (is_async_tool reg tool_name);
    repeat case_match; simplify_eq; eexists _, _; (split; [reflexivity | lia]).
Qed.

(** The retry loop of [ReActAgent.run] makes at most one tool call and
    never counts a retry, whatever the tool does. *)
Lemma tool_call_never_retried (reg : registry) (tool_name : string)
    (tool_args : pydict) (calls_before : nat) (error_before : option pystr) :
  ∃ st, run_tool_call reg tool_name tool_args calls_before error_before = Some st
        ∧ retry_count st = 0%nat ∧ (calls st ≤ S calls_before)%nat.
Proof.
  unfold run_tool_call. cbn [retry_loop retry_count calls].
  destruct (dispatch_never_raises reg tool_name tool_args calls_before)
    as (v & calls' & -> & Hle).
  cbn. eexists. split; [reflexivity |]. by destruct v.
Qed.

(** C6, at a failing input.  The async tool raises on its first two calls
    and would succeed on the third.  [execute_async_tool] turns the first
    exception into an error envelope, so the retry loop sees a value and
    stops: the tool is called once, no retry is counted, and the error of the
    first call is what comes back, not the success envelope. *)
Theorem async_tool_failure_is_not_retried :
  let st := run_tool_call Examples.flaky_registry "flaky" ∅ 0 None in
  Examples.flaky_tool 2%nat ∅ = ToolReturns Examples.success_envelope
  ∧ retry_count <$> st = Some 0%nat
  ∧ calls <$> st = Some 1%nat
  ∧ observation_result <$> st = Some (error_envelope (u "异步工具执行错误: boom"))
  ∧ observation_result <$> st ≠ Some Examples.success_envelope.
Proof.
  cbv zeta. split; [reflexivity |]. split; [by vm_compute |].
  split; [by vm_compute |]. split; [by vm_compute |].
  intros H. vm_compute in H. discriminate H.
Qed.

(** ** The step executor *)

Section ExecutorProperties.

Variable py_str : pyval → pystr.
Variable w : world.
Variable task : pystr.
Variable task_type : TaskType.

Abbreviation run_step := (run_step py_str w task task_type).
Abbreviation run_steps := (run_steps py_str w task task_type).

(** One pass of the loop, field by field. *)
Lemma run_step_fields (i : nat) (step : PlanStep) (st : exec_state) :
  let o := _execute_step w i step task task_type (context st) in
  let st' := run_step i step st in
  plan_steps st' = alter (set_status (final_status o)) i (plan_steps st)
  ∧ plan_data st' = alter (record_outcome o) i (plan_data st)
  ∧ final_results st' = final_results st ++ [summary_of py_str step o]
  ∧ outcomes st' = outcomes st ++ [o]
  ∧ events st' = events st ++ [StepStatus i IN_PROGRESS;
                               PlanDataStatus i (final_status o);
                               StepStatus i (final_status o)].
Proof.
  cbv zeta. unfold Unified.run_step.
  cbn [_update_step_status context plan_steps plan_data final_results events outcomes].
  destruct (_execute_step w i step task task_type (context st)) as [r|msg];
    cbn [_update_step_status context plan_steps plan_data final_results events
         outcomes final_status summary_of record_outcome];
    rewrite !list_alter_alter_eq, <- !app_assoc; repeat split; try done.
Qed.

(** The loop over [todo], started at index [i]: it runs every step of
    [todo], leaves the entries below [i] alone, and records for each step the
    outcome of its handler call. *)
Lemma run_steps_spec (todo : list PlanStep) (i : nat) (st : exec_state) :
  let st' := run_steps i todo st in
  ∃ os,
    length os = length todo
    ∧ outcomes st' = outcomes st ++ os
    ∧ final_results st' = final_results st ++ zip_with (summary_of py_str) todo os
    ∧ length (plan_steps st') = length (plan_steps st)
    ∧ (∀ j, (j < i)%nat →
         plan_data st' !! j = plan_data st !! j
         ∧ plan_steps st' !! j = plan_steps st !! j)
    ∧ (∀ k o, os !! k = Some o →
         plan_data st' !! (i + k)%nat = record_outcome o <$> plan_data st !! (i + k)%nat
         ∧ plan_steps st' !! (i + k)%nat
           = set_status (final_status o) <$> plan_steps st !! (i + k)%nat).
Proof.
  revert i st. induction todo as [|step rest IH]; intros i st; cbv zeta.
  - exists []. cbn. rewrite !app_nil_r. repeat split; try done.
  - cbn [Unified.run_steps].
    destruct (IH (S i) (run_step i step st)) as (os & Hlen & Hout & Hfin & Hn & Hlow & Hhigh).
    destruct (run_step_fields i step st) as (Hps & Hpd & Hfr & Hoc & _).
    set (o := _execute_step w i step task task_type (context st)) in *.
    exists (o :: os). split; [cbn; lia |].
    split; [by rewrite Hout, Hoc, <- app_assoc |].
    split; [by rewrite Hfin, Hfr, <- app_assoc |].
    split; [by rewrite Hn, Hps, length_alter |].
    split.
    + intros j Hj. destruct (Hlow j) as [-> ->]; [lia |].
      rewrite Hps, Hpd, !list_lookup_alter_ne by lia. done.
    + intros [|k] o' Hk.
      * injection Hk as <-. rewrite Nat.add_0_r.
        destruct (Hlow i) as [-> ->]; [lia |].
        by rewrite Hps, Hpd, !list_lookup_alter_eq.
      * cbn in Hk. destruct (Hhigh k o' Hk) as [H1 H2].
        replace (i + S k)%nat with (S i + k)%nat by lia.
        rewrite H1, H2, Hps, Hpd, !list_lookup_alter_ne by lia. done.
Qed.


Lemma run_step_history (j i : nat) (step : PlanStep) (st : exec_state) :
  let o := _execute_step w i step task task_type (context st) in
  let st' := run_step i step st in
  step_history j (events st')
    = step_history j (events st) ++ history_tail (if bool_decide (i = j) then Some o else None)
  ∧ data_history j (events st')
    = data_history j (events st) ++ data_tail (if bool_decide (i = j) then Some o else None).
Proof.
  cbv zeta. destruct (run_step_fields i step st) as (_ & _ & _ & _ & ->).
  unfold step_history, data_history. rewrite !omap_app. cbn.
  by case_bool_decide.
Qed.

(** The loop writes to the history of a step at most once, and only from
    the step's own index on. *)
Lemma run_steps_history (todo : list PlanStep) (i : nat) (st : exec_state) (j : nat) :
  let st' := run_steps i todo st in
  ∃ o, ((j < i)%nat → o = None)
       ∧ step_history j (events st') = step_history j (events st) ++ history_tail o
       ∧ data_history j (events st') = data_history j (events st) ++ data_tail o.
Proof.
  revert i st. induction todo as [|step rest IH]; intros i st; cbv zeta.
  - exists None. cbn. by rewrite !app_nil_r.
  - cbn [Unified.run_steps].
    destruct (IH (S i) (run_step i step st)) as (o' & Hnone & Hs & Hd).
    destruct (run_step_history j i step st) as [Hs1 Hd1].
    rewrite Hs, Hd, Hs1, Hd1. case_bool_decide as Hij.
    + subst j. rewrite Hnone by lia. eexists (Some _).
      split; [lia |]. cbn. by rewrite !app_nil_r.
    + exists o'. split; [intros; apply Hnone; lia |]. cbn. by rewrite !app_nil_r.
Qed.

Lemma history_of_new_steps (plan : list PlanStep) (k j : nat) :
  step_history j (imap (λ i _, StepStatus (k + i) PENDING) plan)
  = if bool_decide (k ≤ j < k + length plan)%nat then [PENDING] else [].
Proof.
  revert k. induction plan as [|s plan IH]; intros k.
  - cbn. case_bool_decide; [lia | done].
  - rewrite imap_cons. cbn [step_history omap list_omap].
    rewrite (imap_ext _ (λ i _, StepStatus (S k + i) PENDING))
      by (intros; cbn; f_equal; lia).
    fold (step_history j (imap (λ i _, StepStatus (S k + i) PENDING) plan)).
    rewrite IH, Nat.add_0_r. cbn [length].
    repeat case_bool_decide; try done; lia.
Qed.

Lemma data_history_of_new_steps (plan : list PlanStep) (k j : nat) :
  Forall (λ s, status s = PENDING) plan →
  data_history j (imap (λ i s, PlanDataStatus (k + i) (status s)) plan)
  = if bool_decide (k ≤ j < k + length plan)%nat then [PENDING] else [].
Proof.
  intros Hp. revert k. induction Hp as [|s plan Hs Hp IH]; intros k.
  - cbn. case_bool_decide; [lia | done].
  - rewrite imap_cons. cbn [data_history omap list_omap].
    rewrite (imap_ext _ (λ i s, PlanDataStatus (S k + i) (status s)))
      by (intros; cbn; f_equal; lia).
    fold (data_history j (imap (λ i s, PlanDataStatus (S k + i) (status s)) plan)).
    rewrite IH, Nat.add_0_r, Hs. cbn [length].
    repeat case_bool_decide; try done; lia.
Qed.

Lemma omap_imap_none {A B C} (f : nat → A → B) (g : B → option C) (l : list A) :
  (∀ i x, g (f i x) = None) → omap g (imap f l) = [].
Proof.
  revert f. induction l as [|x l IH]; intros f H; [done |].
  rewrite imap_cons. cbn. rewrite H. apply IH. intros i y. apply H.
Qed.

(** When the loop starts, every step of the plan has the one status
    [PENDING] in both histories. *)
Lemma initial_history (plan : list PlanStep) (ctx : pydict) (j : nat) :
  Forall (λ s, status s = PENDING) plan →
  step_history j (events (initial_exec plan ctx))
    = (if bool_decide (j < length plan)%nat then [PENDING] else [])
  ∧ data_history j (events (initial_exec plan ctx))
    = (if bool_decide (j < length plan)%nat then [PENDING] else []).
Proof.
  intros Hp. unfold initial_exec. cbn [events].
  assert (step_history j (imap (λ i s, PlanDataStatus i (status s)) plan) = []) as E1
    by (by apply omap_imap_none).
  assert (data_history j (imap (λ i _, StepStatus i PENDING) plan) = []) as E2
    by (by apply omap_imap_none).
  pose proof (history_of_new_steps plan 0 j) as H1.
  pose proof (data_history_of_new_steps plan 0 j Hp) as H2.
  cbn in H1, H2. unfold step_history, data_history in *.
  rewrite !omap_app, E1, E2, H1, H2, app_nil_r. cbn.
  split; repeat case_bool_decide; try done; lia.
Qed.

Lemma steps_of_llm_plan_pending (llm_plan : list plan_info) (acc : list PlanStep) :
  Forall (λ s, status s = PENDING) acc →
  Forall (λ s, status s = PENDING) (steps_of_llm_plan llm_plan acc).
Proof.
  revert acc. induction llm_plan as [|p rest IH]; intros acc Hacc; [done |].
  cbn [steps_of_llm_plan]. apply IH. apply Forall_app. split; [done |].
  by repeat constructor.
Qed.

Lemma build_plan_pending (llm_plan : list plan_info) (tt : TaskType) (t : pystr) :
  Forall (λ s, status s = PENDING) (build_plan llm_plan tt t).
Proof.
  unfold build_plan. destruct llm_plan as [|p rest].
  - destruct tt; by repeat constructor.
  - by apply steps_of_llm_plan_pending.
Qed.

(** The two shapes a history may have are among the prefixes and
    suffixes listed here; each is a subsequence of a full life cycle. *)
Lemma life_cycle_sublist (init : list TaskStatus) (o : option step_outcome)
    (tail : option step_outcome → list TaskStatus) :
  init = [] ∨ init = [PENDING] →
  tail = history_tail ∨ tail = data_tail →
  init ++ tail o `sublist_of` [PENDING; IN_PROGRESS; COMPLETED]
  ∨ init ++ tail o `sublist_of` [PENDING; IN_PROGRESS; FAILED].
Proof.
  intros [-> | ->] [-> | ->]; destruct o as [[r|msg]|]; cbn;
    first [ left; by repeat first [ apply sublist_nil_l | apply sublist_skip | apply sublist_cons ]
          | right; by repeat first [ apply sublist_nil_l | apply sublist_skip | apply sublist_cons ] ].
Qed.

End ExecutorProperties.

(** ** What [execute_task] returns *)

Section ExecuteTask.

Variable py_str : pyval → pystr.
Variable _build_task_with_context : pystr → pydict → pystr.

Abbreviation execute_task := (Unified.execute_task py_str _build_task_with_context).

(** The two ways through [execute_task]: the streamed answer, or the
    step loop over the plan that was built. *)
Lemma execute_task_cases (w : world) (task : pystr) (context_input : option pydict) :
  (∃ results, execute_task w task context_input
              = _execute_question_answering_stream w task results
              ∧ results !! "success" = None)
  ∨ (∃ plan task_type ctx results,
       Forall (λ s, status s = PENDING) plan
       ∧ results !! "success" = None
       ∧ let st := run_steps py_str w task task_type 0 plan (initial_exec plan ctx) in
         execute_task w task context_input
         = (<["plan" := VList (VDict <$> plan_data st)]>
            (<["completed_at" := VStr (completed_at w)]>
            (<["final_answer" := VStr (join (NL ++ NL) (final_results st))]>
            results)) ∪ {["success" := VBool true]}, st)).
Proof.
  unfold Unified.execute_task.
  match goal with
  | |- context [bool_decide (?t = QUESTION_ANSWERING)] =>
    destruct (bool_decide (t = QUESTION_ANSWERING))
  end.
  - left. eexists. split; [reflexivity |]. by rewrite !lookup_insert_ne.
  - right. eexists _, _, _, _. split; [apply build_plan_pending |].
    split; [| reflexivity]. by rewrite !lookup_insert_ne.
Qed.

(** C10.  The dict [execute_task] returns has ["success"] set to [True],
    whatever the handlers of the steps did.  The fate of each step is in the
    entries of ["plan"]: a step whose handler raised has the status
    ["failed"] there. *)
Theorem success_flag_true_whatever_the_steps_do
    (w : world) (task : pystr) (context_input : option pydict) :
  let res := (execute_task w task context_input).1 in
  let st := (execute_task w task context_input).2 in
  res !! "success" = Some (VBool true)
  ∧ res !! "plan" = Some (VList (VDict <$> plan_data st))
  ∧ (∀ j msg, outcomes st !! j = Some (StepRaised msg) →
       ∃ entry, plan_data st !! j = Some entry
                ∧ entry !! "status" = Some (VStr (u "failed"))).
Proof.
  cbv zeta.
  destruct (execute_task_cases w task context_input)
    as [(results & -> & Hs) | (plan & tt & ctx & results & Hp & Hs & ->)].
  - unfold _execute_question_answering_stream. cbn [fst snd plan_data outcomes].
    split; [| split].
    + rewrite lookup_union_r; [by apply lookup_singleton_eq |].
      by rewrite !lookup_insert_ne.
    + by erewrite lookup_union_Some_l; [| apply lookup_insert_eq].
    + intros j msg H. by rewrite lookup_nil in H.
  - cbn [fst snd]. split; [| split].
    + rewrite lookup_union_r; [by apply lookup_singleton_eq |].
      by rewrite !lookup_insert_ne.
    + by erewrite lookup_union_Some_l; [| apply lookup_insert_eq].
    + intros j msg Ho.
      destruct (run_steps_spec py_str w task tt plan 0 (initial_exec plan ctx))
        as (os & Hlen & Hout & _ & _ & _ & Hhigh).
      rewrite Hout in Ho. cbn in Ho. destruct (Hhigh j _ Ho) as [Hd _].
      cbn in Hd. rewrite Hd, list_lookup_fmap.
      apply lookup_lt_Some in Ho. rewrite Hlen in Ho.
      destruct (lookup_lt_is_Some_2 plan j Ho) as [s ->].
      eexists. split; [reflexivity |]. cbn [record_outcome].
      rewrite lookup_insert_ne, lookup_insert_ne by done. by apply lookup_insert_eq.
Qed.

(** C2.  Over a run of [execute_task], the values written to the status of
    any step, on the [PlanStep] object and in its entry of [plan_data] alike,
    form a subsequence of pending, in progress, completed or of pending, in
    progress, failed. *)
Theorem step_status_only_advances
    (w : world) (task : pystr) (context_input : option pydict) (i : nat) :
  let st := (execute_task w task context_input).2 in
  (step_history i (events st) `sublist_of` [PENDING; IN_PROGRESS; COMPLETED]
   ∨ step_history i (events st) `sublist_of` [PENDING; IN_PROGRESS; FAILED])
  ∧ (data_history i (events st) `sublist_of` [PENDING; IN_PROGRESS; COMPLETED]
     ∨ data_history i (events st) `sublist_of` [PENDING; IN_PROGRESS; FAILED]).
Proof.
  cbv zeta.
  destruct (execute_task_cases w task context_input)
    as [(results & -> & _) | (plan & tt & ctx & results & Hp & _ & ->)].
  - unfold _execute_question_answering_stream. cbn [snd events].
    split; left; [apply sublist_nil_l |].
    cbn. case_bool_decide; [| apply sublist_nil_l].
    by repeat first [ apply sublist_nil_l | apply sublist_skip | apply sublist_cons ].
  - cbn [snd].
    destruct (run_steps_history py_str w task tt plan 0 (initial_exec plan ctx) i)
      as (o & _ & -> & ->).
    destruct (initial_history plan ctx i Hp) as [-> ->].
    split; apply life_cycle_sublist; auto; case_bool_decide; auto.
Qed.




End ExecuteTask.


(** A witness of C10: every step fails, and the run reports success. *)
Lemma success_flag_witness :
  let run := Unified.execute_task Examples.str_of Examples.plain_task
               Examples.world_all_fail Examples.paper_task None in
  outcomes run.2 = [StepRaised (u "boom"); StepRaised (u "boom"); StepRaised (u "boom")]
  ∧ run.1 !! "success" = Some (VBool true).
Proof.
  cbv zeta. split; [by vm_compute |].
  exact (proj1 (success_flag_true_whatever_the_steps_do Examples.str_of
                  Examples.plain_task Examples.world_all_fail
                  Examples.paper_task None)).
Defined.

(** ** The reflection loop *)

Import Wrapper.

Section WrapperProperties.

Local Open Scope Q_scope.

Variable py_str : pyval → pystr.
Variable base_agent : Z → pystr → pydict → option pydict.
Variable client : option backend.
Variable self : ReflectionAgent.

Abbreviation loop_body := (Wrapper.loop_body py_str base_agent client self).
Abbreviation reflect_loop := (Wrapper.reflect_loop py_str base_agent client self).

(** The update [if evaluation.overall_score > best_score: ...] keeps
    [best_score] and [best_result] on the best attempt. *)
Lemma tracks_best_update (st st' : loop_state) (a : attempt) :
  tracks_best st →
  attempts st' = attempts st ++ [a] →
  (best_score st', best_result st')
  = (if Qltb (best_score st) (score a)
     then (score a, Some (att_result a))
     else (best_score st, best_result st)) →
  tracks_best st'.
Proof.
  unfold tracks_best. intros (H0 & Hle & Hbest) Hatt Hupd. rewrite Hatt.
  destruct (Qltb (best_score st) (score a)) eqn:Hlt; injection Hupd as -> ->.
  - apply Qltb_lt in Hlt. split; [lra |]. split.
    + apply Forall_app. split; [| by repeat constructor; lra].
      eapply Forall_impl; [exact Hle |]. cbn. intros b Hb. lra.
    + exists a. split; [apply elem_of_app; right; by apply list_elem_of_singleton |].
      repeat split. lra.
  - apply Qltb_ge in Hlt. split; [done |]. split.
    + apply Forall_app. split; [done |]. repeat constructor. lra.
    + destruct (best_result st) as [r|]; [| done].
      destruct Hbest as (b & Hb & ?). exists b.
      split; [apply elem_of_app; by left | done].
Qed.

(** One pass through the body, from a state that satisfies the invariant. *)
Lemma loop_body_cases (st : loop_state) :
  loop_invariant client st →
  match loop_body st with
  | Fault => True
  | Return res st' =>
    ∃ a, attempts st' = attempts st ++ [a]
         ∧ evaluated_by client a
         ∧ passed (att_evaluation a) = true
         ∧ iteration st' = iteration st
         ∧ res = <["reflection" :=
                    reflection_entry (iteration st') (score a) true
                      (reflection_history st') None]> (att_result a)
  | Break st' =>
    ∃ a, attempts st' = attempts st ++ [a]
         ∧ evaluated_by client a
         ∧ passed (att_evaluation a) = false
         ∧ iteration st' = iteration st
         ∧ (MAX_ITERATIONS self ≤ iteration st)%Z
         ∧ tracks_best st'
  | Continue st' =>
    loop_invariant client st'
    ∧ iteration st' = (iteration st + 1)%Z
    ∧ (iteration st < MAX_ITERATIONS self)%Z
  end.
Proof.
  intros (Hit & Hlen & Hfail & Hev & Htrack). unfold Wrapper.loop_body.
  destruct (base_agent _ _ _) as [result|]; [| done].
  destruct (evaluate _ _ result _) as [evaluation|] eqn:Heval; [| done].
  set (a := mkAttempt (current_task st) result evaluation).
  assert (evaluated_by client a) as Ha by (by exists (iteration st)).
  change (overall_score evaluation) with (score a).
  change result with (att_result a) at 2.
  destruct (if Qltb (best_score st) (score a) then _ else _) as [bs br] eqn:Hupd.
  destruct (passed evaluation) eqn:Hpass.
  { exists a. do 4 (split; [done |]). reflexivity. }
  destruct (MAX_ITERATIONS self <=? iteration st)%Z eqn:Hmax.
  { exists a. apply Z.leb_le in Hmax. do 5 (split; [done |]).
    by eapply tracks_best_update. }
  apply Z.leb_gt in Hmax.
  destruct (analyze _ _ _ _ _) as [reflection|]; [| done].
  destruct (if should_replan reflection || should_retry reflection then _ else _)
    as [task' context'].
  split; [| split; [reflexivity | exact Hmax]].
  unfold loop_invariant. cbn [iteration attempts].
  split; [lia |]. split; [rewrite length_app, Hlen; cbn; lia |].
  split; [apply Forall_app; split; [done | by repeat constructor] |].
  split; [apply Forall_app; split; [done | by repeat constructor] |].
  by eapply tracks_best_update.
Qed.

(** With no backend the heuristic scores make every attempt sound. *)
Lemma evaluated_without_backend_sound (a : attempt) :
  evaluated_by None a → sound_attempt a.
Proof.
  intros [it He]. cbn in He. unfold sound_attempt, score.
  pose proof (evaluate_inv _ _ _ _ _ He) as (h & Hh & _ & Hc & Ha & Hu & Hcl).
  split.
  - destruct (evaluate_scores_range _ _ _ _ _ He I) as (? & ? & ? & ?).
    by apply overall_score_range.
  - intros Hpos Hempty. rewrite Hempty in Hh.
    apply heuristic_scores_empty in Hh as (H1 & H2 & H3 & H4).
    unfold overall_score in Hpos. rewrite Hc, Ha, Hu, Hcl, H1, H2, H3, H4 in Hpos.
    vm_compute in Hpos. discriminate Hpos.
Qed.

Lemma attempts_sound (atts : list attempt) :
  client = None ∨ Forall sound_attempt atts →
  Forall (evaluated_by client) atts →
  Forall sound_attempt atts.
Proof.
  intros [-> | H] Hev; [| done].
  eapply Forall_impl; [exact Hev |]. apply evaluated_without_backend_sound.
Qed.

Lemma after_loop_answers (st : loop_state) : after_loop st ≠ OutOfFuel.
Proof. unfold after_loop. by repeat case_match. Qed.

(** The statements after the loop. *)
Lemma after_loop_cases (st : loop_state) (a : attempt) (earlier : list attempt)
    (res : pydict) (st' : loop_state) :
  attempts st = earlier ++ [a] →
  Forall (evaluated_by client) (attempts st) →
  tracks_best st →
  after_loop st = Returns (res, st') →
  st' = st
  ∧ (client = None ∨ Forall sound_attempt (attempts st) →
     ∃ best msg,
       best ∈ attempts st
       ∧ Forall (λ b, score b <= score best) (attempts st)
       ∧ res = <["reflection" :=
                  reflection_entry (iteration st) (score best) false
                    (reflection_history st) (Some msg)]> (att_result best)).
Proof.
  intros Hatt Hev (H0 & Hle & Hbest) Hret. unfold after_loop in Hret.
  rewrite Hatt, last_snoc in Hret.
  assert (client = None ∨ Forall sound_attempt (attempts st) →
          Forall (λ b, score b <= score a) (attempts st) ∨ 0 < best_score st) as Hlast.
  { intros Hwf. destruct (Qlt_le_dec 0 (best_score st)) as [Hpos | Hzero]; [by right | left].
    pose proof (attempts_sound _ Hwf Hev) as Hsound.
    assert (0 <= score a) as Ha.
    { rewrite Forall_forall in Hsound. apply Hsound. rewrite Hatt.
      apply elem_of_app. right. by apply list_elem_of_singleton. }
    eapply Forall_impl; [exact Hle |]. cbn. intros b Hb. lra. }
  destruct (best_result st) as [best|] eqn:Hbr.
  - destruct Hbest as (b & Hb & Hres & Hscore & Hpos).
    destruct (dict_is_empty best) eqn:Hempty; cbn [negb] in Hret.
    + injection Hret as <- <-. split; [done |]. intros Hwf. exfalso.
      pose proof (attempts_sound _ Hwf Hev) as Hsound.
      rewrite Forall_forall in Hsound. destruct (Hsound b Hb) as [_ Hne].
      apply Hne; [by rewrite Hscore |]. rewrite Hres. by apply dict_is_empty_true.
    + injection Hret as <- <-. split; [done |]. intros _.
      exists b, (u "达到最大反思次数，返回最佳结果").
      split; [done |]. rewrite Hscore, Hres. split; [done | reflexivity].
  - injection Hret as <- <-. split; [done |]. intros Hwf.
    destruct (Hlast Hwf) as [Hall | Hpos]; [| rewrite Hbest in Hpos; by vm_compute in Hpos].
    exists a, (u "反思未能改善结果").
    split; [rewrite Hatt; apply elem_of_app; right; by apply list_elem_of_singleton |].
    split; [done | reflexivity].
Qed.

(** The loop, from any state that satisfies the invariant, with fuel for
    the passes that remain: it does not run out of fuel, and what it returns
    is the best of the attempts. *)
Lemma reflect_loop_spec (fuel : nat) (st : loop_state) :
  loop_invariant client st →
  (iteration st ≤ MAX_ITERATIONS self)%Z ∨ attempts st = [] →
  (Z.to_nat (MAX_ITERATIONS self + 1 - iteration st) ≤ fuel)%nat →
  reflect_loop fuel st ≠ OutOfFuel
  ∧ ∀ res st', reflect_loop fuel st = Returns (res, st') →
      (length (attempts st') ≤ Z.to_nat (MAX_ITERATIONS self + 1))%nat
      ∧ best_of_attempts client res st'.
Proof.
  revert st. induction fuel as [|fuel IH]; intros st Hinv Hcond Hfuel.
  all: pose proof Hinv as (Hit & Hlen & Hfail & Hev & Htrack).
  all: cbn [Wrapper.reflect_loop].
  all: destruct (iteration st <=? MAX_ITERATIONS self)%Z eqn:Hle; cbn [negb].
  all: try (apply Z.leb_le in Hle; lia).
  all: try apply Z.leb_gt in Hle.
  1,3: (destruct Hcond as [? | Hnil]; [lia |];
        split; [apply after_loop_answers |];
        intros res st' Hret; exfalso; unfold after_loop in Hret;
        destruct Htrack as (_ & _ & Hbest); rewrite Hnil in Hret, Hbest;
        destruct (best_result st);
          [destruct Hbest as (? & Hin & _); by apply elem_of_nil in Hin |];
        discriminate Hret).
  apply Z.leb_le in Hle.
  pose proof (loop_body_cases st Hinv) as Hbody.
  destruct (loop_body st) as [res1 st1 | st1 | st1 |].
  - destruct Hbody as (a & Hatt & Ha & Hpass & Hiter & Hres).
    split; [done |]. intros res st' [= <- <-]. split.
    + rewrite Hatt, length_app, Hlen. cbn. lia.
    + exists a, (attempts st). split; [done |]. split; [done |].
      split; [rewrite Hiter; lia |]. by rewrite Hpass.
  - destruct Hbody as (a & Hatt & Ha & Hpass & Hiter & Hmax & Htrack1).
    split; [apply after_loop_answers |]. intros res st' Hret.
    assert (Forall (evaluated_by client) (attempts st1)) as Hev1.
    { rewrite Hatt. apply Forall_app. split; [done | by repeat constructor]. }
    destruct (after_loop_cases st1 a (attempts st) res st' Hatt Hev1 Htrack1 Hret)
      as [-> Hbest].
    split; [rewrite Hatt, length_app, Hlen; cbn; lia |].
    exists a, (attempts st). split; [done |]. split; [done |].
    split; [rewrite Hiter; lia |]. by rewrite Hpass.
  - destruct Hbody as (Hinv1 & Hiter & Hlt).
    apply IH; [done | left; lia | lia].
  - split; [done |]. intros res st' Hret. discriminate Hret.
Qed.

Lemma reports_less_than_first_checked (r : run (pydict * loop_state)) :
  reports_less_than_first_check r = true → reports_less_than_first r.
Proof.
  destruct r as [[res st]| |]; cbn [reports_less_than_first_check]; [| done..].
  cbn [reports_less_than_first].
  destruct (head (attempts st)) as [first|]; [| done].
  destruct (final_score_of res) as [q|]; [| done]. intros Hrun.
  apply andb_prop in Hrun as [Hrun Hall]. apply andb_prop in Hrun as [Hlt Hlen].
  exists first, q. split; [done |]. split; [by apply bool_decide_eq_true in Hlen |].
  split; [| split; [done | by apply Qltb_lt]].
  apply Forall_forall. intros a Ha. rewrite forallb_forall in Hall.
  apply list_elem_of_In in Ha. apply Hall in Ha. by destruct (passed _).
Qed.

(** C1, counterexample.  Two runs with the default bound in which no
    attempt passes and the reported [final_score] is below the score of the
    first attempt, so that neither it nor the result returned is the best.
    In the first the evaluator's backend gives negative sub-scores that fall
    from one iteration to the next: no score exceeds the initial [best_score]
    of 0.0 and the last attempt is returned.  In the second all scores are in
    range, but the best attempt returned the empty dict, which
    [if best_result:] takes for no result at all. *)
Lemma final_score_below_best_attempt :
  reports_less_than_first Examples.harsh_run
  ∧ reports_less_than_first Examples.empty_first_run.
Proof.
  split; apply reports_less_than_first_checked; vm_compute; reflexivity.
Qed.

(** C1, as the code has it.  With reflection enabled, [execute_task]
    always ends: the fuel of [MAX_ITERATIONS + 1] passes is enough.  When it
    returns, at most [MAX_ITERATIONS + 1] attempts were made: three with the
    default bound of 2, and [set_max_iterations] keeps the bound within 0 and
    5.  Only the last attempt may have passed; if it did, its result is
    returned at once with its own score.  Otherwise the result returned is
    that of an attempt whose score no other attempt exceeds, and the reported
    [final_score] is that score, the maximum of all.  The last part holds for
    attempts as the data model has them, the score not negative and a result
    that scored above zero not empty, which they always are when the evaluator
    has no backend: [best_score] starts at 0.0 and only a higher score
    replaces it. *)
Theorem reflection_loop_bounded_best_of_attempts
    (task : pystr) (context : option pydict) :
  REFLECTION_ENABLED self = true →
  Wrapper.execute_task py_str base_agent client self task context ≠ OutOfFuel
  ∧ (∀ res st,
       Wrapper.execute_task py_str base_agent client self task context
       = Returns (res, st) →
       (length (attempts st) ≤ Z.to_nat (MAX_ITERATIONS self + 1))%nat
       ∧ best_of_attempts client res st)
  ∧ Z.to_nat (MAX_ITERATIONS default_agent + 1) = 3%nat
  ∧ (∀ n, (0 ≤ MAX_ITERATIONS (set_max_iterations self n) ≤ 5)%Z).
Proof.
  intros Hen. unfold Wrapper.execute_task. rewrite Hen. cbn [negb].
  assert (loop_invariant client (initial_state task (default ∅ context))) as Hinv.
  { unfold loop_invariant, tracks_best. cbn. repeat split; try done; lra. }
  destruct (reflect_loop_spec (Z.to_nat (MAX_ITERATIONS self + 1))
              (initial_state task (default ∅ context)) Hinv) as [Hfuel Hspec];
    [by right | cbn; lia |].
  split; [done |]. split; [done |]. split; [done |].
  intros n. cbn. lia.
Qed.

End WrapperProperties.

(** A witness of C1: no backend, a base agent whose runs all fail; three
    attempts are made and a best one is returned. *)
Lemma reflection_loop_witness :
  REFLECTION_ENABLED default_agent = true
  ∧ match Examples.reflection_run with
    | Returns (res, st) =>
      length (attempts st) = 3%nat ∧ best_of_attempts None res st
    | _ => False
    end.
Proof.
  split; [reflexivity |].
  pose proof (reflection_loop_bounded_best_of_attempts Examples.str_of
                Examples.failing_base_agent None default_agent
                Examples.paper_task None eq_refl) as (_ & H & _).
  assert (match Examples.reflection_run with
          | Returns (_, st) => length (attempts st)
          | _ => 0%nat
          end = 3%nat) as Hlen by (vm_compute; reflexivity).
  unfold Examples.reflection_run in *.
  destruct (Wrapper.execute_task _ _ _ _ _ _) as [[res st]| |];
    [| discriminate Hlen | discriminate Hlen].
  split; [exact Hlen | by apply H].
Defined.

(** ** The reflection agent over the unified agent *)

(** The dict [UnifiedAgent.execute_task] returns has the shape the
    evaluator and the analyzer read without a type error. *)
Lemma unified_result_shape (py_str : pyval → pystr)
    (_build_task_with_context : pystr → pydict → pystr)
    (w : world) (task : pystr) (context_input : option pydict) :
  result_shape (Unified.execute_task py_str _build_task_with_context w task context_input).1.
Proof.
  unfold result_shape, Unified.execute_task.
  match goal with
  | |- context [bool_decide (?t = QUESTION_ANSWERING)] =>
    destruct (bool_decide (t = QUESTION_ANSWERING))
  end; unfold _execute_question_answering_stream; cbn [fst].
  all: repeat split; try (eexists; apply lookup_union_Some_l).
  all: try (apply lookup_union_None; split; [| done]).
  all: by simplify_map_eq.
Qed.

Section Totality.

Local Open Scope Q_scope.

(** On a well-shaped result every reading the heuristics make succeeds. *)
Ltac read_shape Hfa Hplan Hrr Hp :=
  unfold result_papers, final_answer_of, get_or, get;
  rewrite ?Hfa, ?Hplan, ?Hrr, ?Hp, ?lookup_empty;
  repeat first
    [ progress cbn [default from_option id as_dict as_str as_list py_len mbind
                    option_bind truthy]
    | match goal with
      | |- context [if ?c then _ else _] => destruct c
      end ];
  by eexists.

Lemma heuristic_scores_total (task : pystr) (result : pydict) (task_type : pystr) :
  result_shape result → is_Some (heuristic_scores task result task_type).
Proof.
  intros ([fa Hfa] & [plan Hplan] & Hrr & Hp).
  assert (is_Some (_evaluate_completeness task result task_type)) as [c Hc].
  { unfold _evaluate_completeness. read_shape Hfa Hplan Hrr Hp. }
  assert (is_Some (_evaluate_accuracy task result task_type)) as [a Ha].
  { unfold _evaluate_accuracy. read_shape Hfa Hplan Hrr Hp. }
  assert (is_Some (_evaluate_usefulness task result task_type)) as [us Hus].
  { unfold _evaluate_usefulness. read_shape Hfa Hplan Hrr Hp. }
  assert (is_Some (_evaluate_clarity task result)) as [cl Hcl].
  { unfold _evaluate_clarity. read_shape Hfa Hplan Hrr Hp. }
  unfold heuristic_scores. rewrite Hc, Ha, Hus, Hcl. by eexists.
Qed.

Lemma evaluate_total (client : option eval_reply) (task : pystr)
    (result : pydict) (task_type : pystr) :
  result_shape result → is_Some (evaluate client task result task_type).
Proof.
  intros Hshape. unfold evaluate.
  destruct (heuristic_scores_total task result task_type Hshape) as [h ->].
  by eexists.
Qed.

Lemma analyze_total (client : option analyze_reply) (task : pystr)
    (result : pydict) (e : EvaluationResult) (task_type : pystr) :
  result_shape result → is_Some (analyze client task result e task_type).
Proof.
  intros ([fa Hfa] & _ & Hrr & _). unfold analyze.
  destruct (Qgeb _ _); [by eexists |].
  destruct (classify_failure_total result e task_type fa) as [ft ->].
  { unfold final_answer_of, get_or. by rewrite Hfa. }
  cbn [mbind option_bind]. destruct client; [by eexists |].
  unfold _get_adjusted_params, get_or, get. rewrite Hrr. cbn [default as_dict mbind option_bind].
  rewrite lookup_empty. cbn [default truthy].
  by repeat case_match.
Qed.

Variable py_str : pyval → pystr.
Variable base_agent : Z → pystr → pydict → option pydict.
Variable client : option backend.
Variable self : ReflectionAgent.

(** The base agent returns, and what it returns is well shaped. *)
Hypothesis base_agent_returns :
  ∀ it task context, ∃ result,
    base_agent it task context = Some result ∧ result_shape result.

Lemma loop_body_no_fault (st : loop_state) :
  Wrapper.loop_body py_str base_agent client self st ≠ Fault.
Proof.
  unfold Wrapper.loop_body.
  destruct (base_agent_returns (iteration st) (current_task st) (current_context st))
    as (result & -> & Hshape).
  destruct (evaluate_total ((λ b, eval_reply_at b (iteration st)) <$> client)
              (current_task st) result (task_type_of result) Hshape) as [e ->].
  destruct (if Qltb _ _ then _ else _) as [bs br].
  destruct (passed e); [done |].
  destruct (_ <=? _)%Z; [done |].
  destruct (analyze_total ((λ b, analyze_reply_at b (iteration st)) <$> client)
              (current_task st) result e (task_type_of result) Hshape) as [r ->].
  by destruct (if should_replan r || should_retry r then _ else _).
Qed.

Lemma after_loop_returns (st : loop_state) :
  attempts st ≠ [] → ∃ res, after_loop st = Returns (res, st).
Proof.
  intros Hne. unfold after_loop.
  destruct (last (attempts st)) as [a|] eqn:Hlast;
    [| by apply last_None in Hlast].
  destruct (best_result st) as [best|]; [destruct (negb _) |]; by eexists.
Qed.

(** With such a base agent and a bound that is not negative, the loop
    returns. *)
Lemma reflect_loop_returns (fuel : nat) (st : loop_state) :
  loop_invariant client st →
  (iteration st ≤ MAX_ITERATIONS self)%Z →
  (Z.to_nat (MAX_ITERATIONS self + 1 - iteration st) ≤ fuel)%nat →
  ∃ res st', Wrapper.reflect_loop py_str base_agent client self fuel st
             = Returns (res, st').
Proof.
  revert st. induction fuel as [|fuel IH]; intros st Hinv Hle Hfuel; [lia |].
  cbn [Wrapper.reflect_loop].
  apply Z.leb_le in Hle as Hle'. rewrite Hle'. cbn [negb].
  pose proof (loop_body_cases py_str base_agent client self st Hinv) as Hbody.
  pose proof (loop_body_no_fault st) as Hnf.
  destruct (Wrapper.loop_body py_str base_agent client self st) as [r st1 | st1 | st1 |].
  - by eexists _, _.
  - destruct Hbody as (a & Hatt & _).
    destruct (after_loop_returns st1) as [res ->]; [| by eexists _, _].
    rewrite Hatt. by destruct (attempts st).
  - destruct Hbody as (Hinv1 & Hiter & Hlt). apply IH; [done | lia | lia].
  - done.
Qed.

(** The reflection agent over such a base agent always returns. *)
Lemma reflection_agent_returns (task : pystr) (context : option pydict) :
  (0 ≤ MAX_ITERATIONS self)%Z →
  ∃ res st, Wrapper.execute_task py_str base_agent client self task context
            = Returns (res, st).
Proof.
  intros Hmax. unfold Wrapper.execute_task.
  destruct (REFLECTION_ENABLED self); cbn [negb].
  - apply reflect_loop_returns; [| cbn; lia | cbn; lia].
    unfold loop_invariant, tracks_best. cbn. repeat split; try done; lra.
  - destruct (base_agent_returns 0 task (default ∅ context)) as (r & -> & _).
    by eexists _, _.
Qed.

End Totality.

(** In the wiring of main.py the base agent is the unified agent, whose
    result always has that shape: whatever the tools, the handlers and the
    backend do at each iteration, the reflection agent returns. *)
Lemma wired_reflection_agent_returns
    (py_str : pyval → pystr) (_build_task_with_context : pystr → pydict → pystr)
    (worlds : Z → world) (client : option backend) (self : ReflectionAgent)
    (task : pystr) (context : option pydict) :
  (0 ≤ MAX_ITERATIONS self)%Z →
  ∃ res st,
    Wrapper.execute_task py_str
      (λ it task context,
         Some (Unified.execute_task py_str _build_task_with_context (worlds it)
                 task (Some context)).1)
      client self task context
    = Returns (res, st).
Proof.
  apply reflection_agent_returns. intros it t c. eexists.
  split; [reflexivity | apply unified_result_shape].
Qed.
(** * Further properties *)

(** ** Tools: registration and the observation of a tool call *)

Section ToolObservation.

Import Registry.

Variable py_str : pyval → pystr.

(** The [try] body of the retry loop for a name that is not an async
    tool: the text [execute_tool] returns is wrapped as a success. *)
Lemma sync_dispatch_cases (reg : registry) (tool_name : string) (tool_args : pydict)
    (calls : nat) :
  is_async_tool reg tool_name = false →
  ∃ message calls',
    dispatch reg tool_name tool_args calls
    = (Value (VDict (<["success" := VBool true]> (<["message" := message]> ∅))), calls')
    ∧ match TOOLS reg !! tool_name with
      | None =>
        message = VStr (u "错误：未知工具 '" ++ name_str tool_name ++ u "'")
        ∧ calls' = calls
      | Some f =>
        calls' = S calls
        ∧ match f calls tool_args with
          | ToolReturns v => message = v
          | ToolRaises e => message = VStr (u "工具执行错误: " ++ e)
          end
      end.
Proof.
  intros Hsync. unfold dispatch, execute_tool. rewrite Hsync.
  destruct (TOOLS reg !! tool_name) as [f|]; [| by eexists _, _].
  destruct (f calls tool_args); by eexists _, _.
Qed.

(** X1.  In the tool dispatch of [ReActAgent.run], a tool name that is not
    registered as async always yields an observation with [success] set to
    [True], whose content is the text [execute_tool] returned: also when the
    name is unknown (no tool is called then) and when the tool raised. *)
Theorem sync_tool_failure_is_reported_as_success (reg : registry)
    (tool_name : string) (tool_args : pydict) (calls_before : nat)
    (error_before : option pystr) :
  is_async_tool reg tool_name = false →
  ∃ st message,
    run_tool_call reg tool_name tool_args calls_before error_before = Some st
    ∧ observation_result st
      = VDict (<["success" := VBool true]> (<["message" := message]> ∅))
    ∧ observation_content py_str (observation_result st) = Some message
    ∧ (TOOLS reg !! tool_name = None →
       message = VStr (u "错误：未知工具 '" ++ name_str tool_name ++ u "'")
       ∧ calls st = calls_before)
    ∧ (∀ f e, TOOLS reg !! tool_name = Some f →
              f calls_before tool_args = ToolRaises e →
              message = VStr (u "工具执行错误: " ++ e)).
Proof.
  intros Hsync.
  destruct (sync_dispatch_cases reg tool_name tool_args calls_before Hsync)
    as (message & calls' & Hd & Hcases).
  unfold run_tool_call. cbn [retry_loop retry_count calls]. rewrite Hd.
  cbn [negb bool_decide decide_rel mbind option_bind observation_result].
  eexists _, message. split; [reflexivity |]. cbn [observation_result].
  split; [reflexivity |]. split.
  { unfold observation_content, get, get_or. cbn [as_dict mbind option_bind].
    by simplify_map_eq. }
  split.
  - intros Hnone. unfold tool in *. rewrite Hnone in Hcases. by destruct Hcases as [-> ->].
  - intros f e Hf He. unfold tool in *. rewrite Hf in Hcases. destruct Hcases as [_ Hm].
    by rewrite He in Hm.
Qed.

(** X2.  The observation of a tool call is never [None], and the retry
    loop never records an error.  When an async tool returns [None], the tool
    was called once and no retry was counted, yet the observation is the
    terminal error that speaks of [max_retries] retries. *)
Theorem tool_observation_is_never_none (reg : registry) (tool_name : string)
    (tool_args : pydict) (calls_before : nat) (error_before : option pystr) :
  ∃ st,
    run_tool_call reg tool_name tool_args calls_before error_before = Some st
    ∧ observation_result st ≠ VNone
    ∧ last_error st = error_before
    ∧ ∀ f, ASYNC_TOOLS reg !! tool_name = Some f →
           f calls_before tool_args = ToolReturns VNone →
           retry_count st = 0%nat ∧ calls st = S calls_before
           ∧ observation_result st
             = error_envelope (u "工具执行失败（重试" ++ u "2" ++ u "次后）: "
                               ++ default (u "None") error_before).
Proof.
  unfold run_tool_call. cbn [retry_loop retry_count calls].
  destruct (dispatch_never_raises reg tool_name tool_args calls_before)
    as (v & calls' & Hd & Hle).
  rewrite Hd. cbn [negb bool_decide decide_rel mbind option_bind observation_result].
  eexists. split; [reflexivity |].
  split; [by destruct v |]. split; [by destruct v |].
  intros f Hf Hnone. unfold dispatch, is_async_tool, execute_async_tool in Hd.
  unfold tool in *. rewrite Hf, Hnone in Hd.
  rewrite bool_decide_eq_true_2 in Hd by by eexists.
  by injection Hd as <- <-.
Qed.

(** X3.  Registration and lookup.  After [register_async_tool(name)(f)] the
    name is an async tool and [execute_async_tool] calls [f], whether or not a
    synchronous tool has the same name; the other names are as before.
    [register_tool] makes no name async, and [execute_tool] finds the function
    it registered. *)
Theorem registered_tool_is_the_one_called (reg : registry) (name : string)
    (f : tool) (tool_args : pydict) (calls : nat) :
  let reg' := register_async_tool name f reg in
  is_async_tool reg' name = true
  ∧ execute_async_tool reg' name tool_args calls
    = (Value (match f calls tool_args with
              | ToolReturns v => v
              | ToolRaises e => error_envelope (u "异步工具执行错误: " ++ e)
              end), S calls)
  ∧ (∀ other, other ≠ name →
       is_async_tool reg' other = is_async_tool reg other
       ∧ execute_async_tool reg' other tool_args calls
         = execute_async_tool reg other tool_args calls)
  ∧ (∀ other, is_async_tool (register_tool name f reg) other = is_async_tool reg other)
  ∧ execute_tool (register_tool name f reg) name tool_args calls
    = (Value (match f calls tool_args with
              | ToolReturns v => v
              | ToolRaises e => VStr (u "工具执行错误: " ++ e)
              end), S calls).
Proof.
  cbv zeta. unfold is_async_tool, execute_async_tool, execute_tool,
    register_async_tool, register_tool, tool. cbn [ASYNC_TOOLS TOOLS].
  split; [rewrite lookup_insert_eq; by apply bool_decide_eq_true_2 |].
  split; [rewrite lookup_insert_eq; by destruct (f calls tool_args) |].
  split; [intros other Hne; by rewrite !lookup_insert_ne by congruence |].
  split; [done |].
  rewrite lookup_insert_eq. by destruct (f calls tool_args).
Qed.

End ToolObservation.

(** A witness of X1: the synchronous tool [save] raises, and the
    observation reports success with the error text as its message. *)
Lemma sync_tool_failure_witness :
  is_async_tool Scenarios.sync_registry "save" = false
  ∧ ∃ st,
      run_tool_call Scenarios.sync_registry "save" ∅ 0 None = Some st
      ∧ observation_result st
        = VDict (<["success" := VBool true]>
                 (<["message" := VStr (u "工具执行错误: " ++ u "disk full")]> ∅)).
Proof.
  split; [reflexivity |].
  destruct (sync_tool_failure_is_reported_as_success Examples.str_of
              Scenarios.sync_registry "save" ∅ 0 None eq_refl)
    as (st & message & Hrun & Hobs & _ & _ & Hraise).
  exists st. split; [exact Hrun |]. rewrite Hobs.
  by rewrite (Hraise Scenarios.broken_tool (u "disk full") eq_refl eq_refl).
Defined.

(** ** The evaluator: flag, feedback and edge cases *)

Section EvaluatorEdges.

Local Open Scope Q_scope.

Lemma generate_feedback_nonempty (e : EvaluationResult) (tt : pystr) :
  _generate_feedback e tt ≠ [].
Proof.
  unfold _generate_feedback.
  destruct (Qltb (completeness e) (5#10)), (Qltb (completeness e) (7#10)),
           (Qltb (accuracy e) (5#10)), (Qltb (usefulness e) (5#10)),
           (Qltb (clarity e) (5#10)); by vm_compute.
Qed.

Lemma Qgeb_false (x y : Q) : Qgeb x y = false ↔ x < y.
Proof.
  unfold Qgeb. split.
  - intros H. apply Qnot_le_lt. intros Hle. apply Qle_bool_iff in Hle. congruence.
  - intros H. destruct (Qle_bool y x) eqn:Hb; [| done].
    apply Qle_bool_iff in Hb. lra.
Qed.

(** X4.  Whatever [evaluate] returns, its [passed] flag says exactly that
    the overall score reaches 0.6, its feedback is not empty, and its details
    name the task type and the keys of the result. *)
Theorem evaluation_flag_follows_the_score (client : option eval_reply)
    (task : pystr) (result : pydict) (tt : pystr) (e : EvaluationResult) :
  evaluate client task result tt = Some e →
  (passed e = true ↔ 6#10 <= overall_score e)
  ∧ feedback e ≠ []
  ∧ details_task_type e = tt
  ∧ details_result_keys e = dom result.
Proof.
  intros He. pose proof (evaluate_inv _ _ _ _ _ He) as (h & _ & Hp & _).
  split; [rewrite Hp; apply Qgeb_ge |].
  assert (∃ ev, e = with_details
                      (match feedback ev with
                       | [] => with_feedback ev (_generate_feedback ev tt)
                       | _ => ev
                       end) tt (dom result)) as [ev ->].
  { unfold evaluate in He. apply bind_Some in He as (h' & _ & He). cbv zeta in He.
    match type of He with
    | Some (with_details (match feedback ?x with [] => _ | _ :: _ => _ end) _ _) = _ =>
      exists x
    end.
    by injection He. }
  destruct (feedback ev) eqn:Hf;
    cbn [with_details with_feedback feedback details_task_type details_result_keys].
  - split; [apply generate_feedback_nonempty | done].
  - by rewrite Hf.
Qed.

Lemma half_of_unit (x : Q) : unit_interval x → (0 + x) / 2 <= 1#2.
Proof. intros [? ?]. apply Qle_shift_div_r; lra. Qed.

(** X5.  The empty result: [evaluate] returns for it, and when the sub-scores
    of the backend's reply are in range (or there is no backend), its overall
    score is at most 0.5 and it does not pass. *)
Theorem empty_result_never_passes (client : option eval_reply) (task tt : pystr) :
  reply_in_range client →
  ∃ e, evaluate client task ∅ tt = Some e
       ∧ overall_score e <= 1#2
       ∧ passed e = false.
Proof.
  intros Hr.
  assert (∃ e, evaluate client task ∅ tt = Some e) as [e He].
  { unfold evaluate, heuristic_scores, _evaluate_completeness, _evaluate_accuracy,
      _evaluate_usefulness, _evaluate_clarity.
    replace (dict_is_empty ∅) with true by (symmetry; by apply dict_is_empty_true).
    by eexists. }
  exists e. split; [done |].
  pose proof (evaluate_inv _ _ _ _ _ He) as (h & Hh & Hp & Hs).
  apply heuristic_scores_empty in Hh as (Hc & Ha & Hu & Hcl).
  assert (overall_score e <= 1#2) as Hle.
  { unfold overall_score. destruct client as [reply|].
    - cbv zeta in Hs. destruct Hs as (-> & -> & -> & ->).
      rewrite Hc, Ha, Hu, Hcl.
      pose proof (llm_evaluate_range (Some reply) Hr) as (Lc & La & Lu & Lcl).
      apply half_of_unit in Lc, La, Lu, Lcl. lra.
    - destruct Hs as (-> & -> & -> & ->). rewrite Hc, Ha, Hu, Hcl. lra. }
  split; [done |]. rewrite Hp. apply Qgeb_false. unfold PASS_THRESHOLD. lra.
Qed.

End EvaluatorEdges.

(** A witness of X4: a short answer, no backend. *)
Lemma evaluation_flag_witness :
  ∃ e, evaluate None Scenarios.summary_task Examples.short_answer_bag (u "general")
       = Some e
       ∧ (passed e = true ↔ (6#10 <= overall_score e)%Q)
       ∧ feedback e = u "结果基本完整但可以更详细".
Proof.
  eexists. split; [by vm_compute |].
  split; [| by vm_compute].
  refine (proj1 (evaluation_flag_follows_the_score None Scenarios.summary_task
                   Examples.short_answer_bag (u "general") _ _)).
  by vm_compute.
Defined.

(** A witness of X5: the backend gives the empty result full marks, and it
    does not pass. *)
Lemma empty_result_witness :
  reply_in_range (Some Scenarios.full_marks)
  ∧ ∃ e, evaluate (Some Scenarios.full_marks) Scenarios.summary_task ∅ (u "general")
         = Some e
         ∧ (overall_score e <= 1#2)%Q
         ∧ passed e = false.
Proof.
  assert (reply_in_range (Some Scenarios.full_marks)) as Hr.
  { cbn. unfold unit_interval. repeat split; by vm_compute. }
  split; [exact Hr |].
  exact (empty_result_never_passes (Some Scenarios.full_marks) Scenarios.summary_task
           (u "general") Hr).
Defined.

Section GenericResult.

Import Notions.

Local Open Scope Q_scope.

Lemma Qmin_glb_one (lo x : Q) : lo <= 1 → lo <= x → lo <= Qmin 1 x.
Proof. intros. by apply Q.min_glb. Qed.

Lemma generic_result_passes (task : pystr) (result : pydict) (tt answer : pystr)
    (plan : list pyval) :
  has_own_heuristics tt = false →
  result !! "final_answer" = Some (VStr answer) → answer ≠ [] →
  result !! "plan" = Some (VList plan) → plan ≠ [] →
  ∃ e, evaluate None task result tt = Some e
       ∧ passed e = true
       ∧ 7#10 <= completeness e ∧ accuracy e = 7#10
       ∧ usefulness e = 5#10 ∧ 5#10 <= clarity e.
Proof.
  unfold has_own_heuristics. intros Htt Hfa Hne Hplan Hpne.
  apply orb_false_elim in Htt as [Htt Hexp]. apply orb_false_elim in Htt as [Htt Hsch].
  apply orb_false_elim in Htt as [Hlit Hqa].
  assert (dict_is_empty result = false) as Hd.
  { apply dict_is_empty_false. intros ->. by rewrite lookup_empty in Hfa. }
  destruct answer as [|c answer]; [done |]. destruct plan as [|p plan]; [done |].
  assert (∃ cl, _evaluate_clarity task result = Some cl ∧ 5#10 <= cl) as (cl & Hcl & Hcl5).
  { unfold _evaluate_clarity, final_answer_of, get_or. rewrite Hd, Hfa.
    cbn [default from_option id truthy negb as_str mbind option_bind]. eexists. split; [reflexivity |].
    apply Qmin_glb_one; [lra |].
    repeat match goal with
           | |- context [bonus ?b ?w] =>
             let H := fresh in
             assert (0 <= bonus b w) as H by (apply bonus_nonneg; lra);
             generalize dependent (bonus b w); intros
           end.
    lra. }
  assert (∃ co, _evaluate_completeness task result tt = Some co ∧ 7#10 <= co)
    as (co & Hco & Hco7).
  { unfold _evaluate_completeness, final_answer_of, get_or, get.
    rewrite Hd, Hlit, Hqa, Hsch, Hexp, Hfa, Hplan.
    cbn [default from_option id truthy py_len mbind option_bind length].
    rewrite (bool_decide_eq_true_2 (0 < S (length plan))%nat) by lia.
    eexists. split; [reflexivity |]. apply Qmin_glb_one; [lra |].
    match goal with
    | |- context [bonus ?b (3#10)] =>
      assert (0 <= bonus b (3#10)) by (apply bonus_nonneg; lra);
      generalize dependent (bonus b (3#10)); intros
    end.
    cbn [bonus]. lra. }
  assert (_evaluate_accuracy task result tt = Some (7#10)) as Hac.
  { unfold _evaluate_accuracy. by rewrite Hd, Hlit, Hqa. }
  assert (_evaluate_usefulness task result tt = Some (5#10)) as Hus.
  { unfold _evaluate_usefulness. by rewrite Hd, Hlit, Hqa. }
  assert (is_Some (evaluate None task result tt)) as [e He].
  { unfold evaluate, heuristic_scores. rewrite Hco, Hac, Hus, Hcl. by eexists. }
  exists e. split; [done |].
  pose proof (evaluate_inv _ _ _ _ _ He) as (h & Hh & Hp & Hc & Ha & Hu & Hl).
  unfold heuristic_scores in Hh. rewrite Hco, Hac, Hus, Hcl in Hh.
  injection Hh as <-. cbn in Hc, Ha, Hu, Hl.
  rewrite Hp, Hc, Ha, Hu, Hl. split; [| done].
  apply Qgeb_ge. unfold overall_score, PASS_THRESHOLD. rewrite Hc, Ha, Hu, Hl. lra.
Qed.

(** X6.  A task type without heuristics of its own ([general], or any
    name but the four special ones): with no backend, a result that has an
    answer and a plan, each not empty, passes the evaluation, however short
    the answer is. *)
Theorem answer_and_plan_pass_for_other_task_types (task : pystr) (result : pydict)
    (tt answer : pystr) (plan : list pyval) :
  has_own_heuristics tt = false →
  result !! "final_answer" = Some (VStr answer) → answer ≠ [] →
  result !! "plan" = Some (VList plan) → plan ≠ [] →
  ∃ e, evaluate None task result tt = Some e
       ∧ passed e = true.
Proof.
  intros Htt Hfa Hne Hplan Hpne.
  destruct (generic_result_passes task result tt answer plan Htt Hfa Hne Hplan Hpne)
    as (e & He & Hp & _).
  by exists e.
Qed.

End GenericResult.

(** A witness of X6: the answer is two characters long. *)
Lemma answer_and_plan_witness :
  Notions.has_own_heuristics (u "general") = false
  ∧ ∃ e, evaluate None Scenarios.summary_task Scenarios.planned_bag (u "general") = Some e
         ∧ passed e = true.
Proof.
  split; [by vm_compute |].
  apply (answer_and_plan_pass_for_other_task_types Scenarios.summary_task
           Scenarios.planned_bag (u "general") (u "ok") [VDict ∅]).
  - by vm_compute.
  - by vm_compute.
  - by vm_compute.
  - by vm_compute.
  - done.
Defined.

(** ** A general task through the unified agent and the reflection agent *)

Section GeneralTask.

Import Notions.

Local Open Scope Q_scope.

Variable py_str : pyval → pystr.
Variable _build_task_with_context : pystr → pydict → pystr.

Lemma summary_nonempty (step : PlanStep) (o : step_outcome) :
  summary_of py_str step o ≠ [].
Proof.
  destruct o; unfold summary_of, step_summary, failure_summary;
    [destruct (_ && _) |];
    (destruct (u "**") eqn:Hstar; [by vm_compute in Hstar | done]).
Qed.

(** With no analysis backend and none of the fallback keywords in the
    task, the unified agent runs the one-step fallback plan of a general
    task. *)
Lemma unified_general_result (w : world) (task : pystr) :
  analysis_client w = None →
  any_in fallback_keywords (lower task) = false →
  let res := (Unified.execute_task py_str _build_task_with_context w task (Some ∅)).1 in
  ∃ answer entry,
    res !! "final_answer" = Some (VStr answer) ∧ answer ≠ []
    ∧ res !! "plan" = Some (VList [entry])
    ∧ res !! "task_type" = Some (VStr (u "general")).
Proof.
  intros Hc Hkw. cbv zeta. unfold Unified.execute_task.
  replace (dict_is_empty ∅) with true by (symmetry; by apply dict_is_empty_true).
  cbn [negb]. unfold _analyze_task_with_llm, _fallback_task_analysis.
  rewrite Hc, Hkw. cbn [an_task_type an_plan an_extracted_params default from_option id].
  replace (task_type_of_analysis (u "general")) with GENERAL by (by vm_compute).
  rewrite bool_decide_eq_false_2 by done.
  cbn [build_plan steps_of_llm_plan app info pi_step_id pi_name pi_description
       pi_output_type default from_option id Unified.run_steps fst].
  match goal with
  | |- context [Unified.run_step py_str w task GENERAL 0%nat ?s ?st] =>
    destruct (run_step_fields py_str w task GENERAL 0 s st) as (_ & Hpd & Hfr & _);
    set (o := _execute_step w 0 s task GENERAL (context st)) in *;
    set (st' := Unified.run_step py_str w task GENERAL 0%nat s st) in *;
    exists (summary_of py_str s o), (VDict (record_outcome o (plan_entry s)))
  end.
  cbv zeta in Hpd, Hfr. cbn in Hpd, Hfr.
  split; [apply lookup_union_Some_l; rewrite lookup_insert_ne, lookup_insert_ne by done;
          rewrite lookup_insert_eq, Hfr; reflexivity |].
  split; [apply summary_nonempty |].
  split; [apply lookup_union_Some_l; rewrite lookup_insert_eq, Hpd; reflexivity |].
  apply lookup_union_Some_l. do 4 rewrite lookup_insert_ne by done.
  by rewrite lookup_insert_eq.
Qed.

(** X7.  The reflection agent over the unified agent, neither with a
    backend, called with no context or with an empty one: a task with none
    of the fallback keywords is run once.  Its one-step plan gives a result
    of type [general]; the first evaluation passes and the attempt is
    returned, whatever the step handler did, also when it raised. *)
Theorem general_task_passes_at_the_first_attempt (worlds : Z → world)
    (self : ReflectionAgent) (task : pystr) (context : option pydict) :
  REFLECTION_ENABLED self = true →
  (0 ≤ MAX_ITERATIONS self)%Z →
  analysis_client (worlds 0%Z) = None →
  any_in fallback_keywords (lower task) = false →
  context = None ∨ context = Some ∅ →
  let base := (Unified.execute_task py_str _build_task_with_context (worlds 0%Z)
                 task (Some ∅)).1 in
  ∃ e st,
    Wrapper.execute_task py_str
      (λ it task context,
         Some (Unified.execute_task py_str _build_task_with_context (worlds it)
                 task (Some context)).1)
      None self task context
    = Returns (<["reflection" :=
                  reflection_entry 0 (overall_score e) true [] None]> base, st)
    ∧ attempts st = [mkAttempt task base e]
    ∧ passed e = true.
Proof.
  intros Hen Hmax Hc Hkw Hctx. cbv zeta.
  assert (default ∅ context = ∅) as Hempty by (by destruct Hctx as [-> | ->]).
  destruct (unified_general_result (worlds 0%Z) task Hc Hkw)
    as (answer & entry & Hfa & Hne & Hplan & Htt).
  set (base := (Unified.execute_task py_str _build_task_with_context (worlds 0%Z)
                  task (Some ∅)).1) in *.
  assert (task_type_of base = u "general") as Htype.
  { unfold task_type_of, get_or. by rewrite Htt. }
  destruct (generic_result_passes task base (u "general") answer [entry])
    as (e & He & Hp & Hco & Hac & Hus & Hcl); [by vm_compute | done.. |].
  exists e. unfold Wrapper.execute_task. rewrite Hen, Hempty. cbn [negb].
  destruct (Z.to_nat (MAX_ITERATIONS self + 1)) as [|fuel] eqn:Hfuel; [lia |].
  cbn [Wrapper.reflect_loop initial_state iteration].
  rewrite (proj2 (Z.leb_le 0 (MAX_ITERATIONS self)) Hmax). cbn [negb].
  unfold Wrapper.loop_body.
  cbn [initial_state iteration current_task current_context fmap option_fmap
       option_map best_score best_result reflection_history attempts].
  fold base. rewrite Htype, He, Hp.
  destruct (Qltb 0 (overall_score e)); cbn [app];
    (eexists; split; [reflexivity |]; split; [reflexivity | done]).
Qed.

End GeneralTask.

(** A witness of X7: no context is given, every step handler raises, and
    the run passes. *)
Lemma general_task_witness :
  (REFLECTION_ENABLED default_agent = true
   ∧ (0 ≤ MAX_ITERATIONS default_agent)%Z
   ∧ analysis_client Examples.world_all_fail = None
   ∧ any_in fallback_keywords (lower (u "总结一下")) = false)
  ∧ ∃ e st,
      Wrapper.execute_task Examples.str_of
        (λ it task context,
           Some (Unified.execute_task Examples.str_of Examples.plain_task
                   Examples.world_all_fail task (Some context)).1)
        None default_agent (u "总结一下") None
      = Returns (<["reflection" :=
                    reflection_entry 0 (overall_score e) true [] None]>
                   (Unified.execute_task Examples.str_of Examples.plain_task
                      Examples.world_all_fail (u "总结一下") (Some ∅)).1, st)
      ∧ attempts st
        = [mkAttempt (u "总结一下")
             (Unified.execute_task Examples.str_of Examples.plain_task
                Examples.world_all_fail (u "总结一下") (Some ∅)).1 e]
      ∧ passed e = true.
Proof.
  split;
    [split; [reflexivity | split; [cbn; lia | split; [reflexivity | by vm_compute]]] |].
  exact (general_task_passes_at_the_first_attempt Examples.str_of
           Examples.plain_task (λ _, Examples.world_all_fail) default_agent
           (u "总结一下") None eq_refl ltac:(cbn; lia) eq_refl ltac:(by vm_compute)
           (or_introl eq_refl)).
Defined.

(** ** The analyzer: failure types, suggestions, retry and replan *)

Section AnalyzerEdges.

Local Open Scope Q_scope.

Lemma classify_failure_range (result : pydict) (e : EvaluationResult) (tt ft : pystr) :
  _classify_failure result e tt = Some ft →
  ft ∈ Notions.failure_types ∧ (ft = u "no_results" → result = ∅).
Proof.
  unfold _classify_failure, Notions.failure_types. intros H.
  destruct (dict_is_empty result) eqn:Hempty.
  { apply dict_is_empty_true in Hempty. injection H as <-.
    split; [apply list_elem_of_In; cbn; tauto | done]. }
  repeat match type of H with
         | (if ?c then _ else _) = _ => destruct c
         | (_ ≫= _) = _ => apply bind_Some in H as (s & _ & H)
         end; injection H as <-;
    (split; [apply list_elem_of_In; cbn; tauto | by vm_compute]).
Qed.

Lemma rule_based_suggestions_nonempty (ft : pystr) :
  _get_rule_based_suggestions ft ≠ [].
Proof. unfold _get_rule_based_suggestions. by repeat case_match. Qed.

(** X8.  For an evaluation below the threshold, [analyze] records one of
    five failure types (never [timeout] or [invalid_params], which
    [_should_retry] and [_should_replan] list) and at least one improvement
    suggestion, with or without a backend. *)
Theorem failing_evaluation_gets_a_type_and_suggestions
    (client : option analyze_reply) (task : pystr) (result : pydict)
    (e : EvaluationResult) (tt : pystr) (r : ReflectionResult) :
  overall_score e < 6#10 →
  analyze client task result e tt = Some r →
  failure_type r ∈ Notions.failure_types
  ∧ failure_type r ≠ u "timeout" ∧ failure_type r ≠ u "invalid_params"
  ∧ improvement_suggestions r ≠ [].
Proof.
  intros Hlow Hr. unfold analyze in Hr.
  rewrite (proj2 (Qgeb_false _ _) Hlow) in Hr.
  apply bind_Some in Hr as (ft & Hft & Hr).
  apply classify_failure_range in Hft as [Hin _].
  pose proof (rule_based_suggestions_nonempty ft) as Hs.
  assert (failure_type r = ft ∧ improvement_suggestions r ≠ []) as [-> Hsugg].
  { destruct client as [reply|].
    - injection Hr as <-. cbn [failure_type improvement_suggestions].
      split; [done |]. by case_match.
    - apply bind_Some in Hr as (params & _ & [= <-]). done. }
  split; [done |].
  unfold Notions.failure_types in Hin.
  repeat (apply elem_of_cons in Hin as [-> | Hin]); try by vm_compute.
  by apply elem_of_nil in Hin.
Qed.

(** X9.  With no backend, [analyze] sets [should_retry] exactly for the
    failure types [api_error] and [no_results] and [should_replan] exactly
    for [irrelevant_results]; the two are never set together, and a result
    that passed gets neither. *)
Theorem rule_based_retry_and_replan (task : pystr) (result : pydict)
    (e : EvaluationResult) (tt : pystr) (r : ReflectionResult) :
  analyze None task result e tt = Some r →
  (should_retry r = true
   ↔ failure_type r = u "api_error" ∨ failure_type r = u "no_results")
  ∧ (should_replan r = true ↔ failure_type r = u "irrelevant_results")
  ∧ should_retry r && should_replan r = false
  ∧ (6#10 <= overall_score e → should_retry r = false ∧ should_replan r = false).
Proof.
  intros Hr. unfold analyze in Hr.
  destruct (Qgeb (overall_score e) (6#10)) eqn:Hpass.
  { injection Hr as <-. cbn. repeat split; try done; intros H; try done.
    destruct H as [H | H]; by vm_compute in H. }
  apply Qgeb_false in Hpass.
  apply bind_Some in Hr as (ft & Hft & Hr).
  apply bind_Some in Hr as (params & _ & [= <-]).
  apply classify_failure_range in Hft as [Hin _].
  cbn [should_retry should_replan failure_type].
  unfold Notions.failure_types in Hin.
  repeat (apply elem_of_cons in Hin as [-> | Hin]);
    [.. | by apply elem_of_nil in Hin].
  all: split; [split; [try by vm_compute | intros [H | H]; by vm_compute in H] |].
  all: try (by left). all: try (by right).
  all: split; [split; [try by vm_compute | intros H; by vm_compute in H] |].
  all: try reflexivity.
  all: split; [by vm_compute | intros; lra].
Qed.

End AnalyzerEdges.

(** A witness of X8: the answer reports a failure; the evaluation is below
    the threshold and gets a type and suggestions. *)
Lemma failing_evaluation_witness :
  ∃ e r,
    evaluate None (u "查一下") Examples.failed_answer_bag (u "general") = Some e
    ∧ (overall_score e < 6#10)%Q
    ∧ analyze None (u "查一下") Examples.failed_answer_bag e (u "general") = Some r
    ∧ failure_type r ∈ Notions.failure_types
    ∧ improvement_suggestions r ≠ [].
Proof.
  destruct (evaluate None (u "查一下") Examples.failed_answer_bag (u "general"))
    as [e|] eqn:He; [| by vm_compute in He].
  pose proof He as He'. vm_compute in He'. injection He' as <-.
  match type of He with
  | _ = Some ?e0 =>
    destruct (analyze None (u "查一下") Examples.failed_answer_bag e0 (u "general"))
      as [r|] eqn:Hr; [| by vm_compute in Hr];
    assert (overall_score e0 < 6#10)%Q as Hlow by (by vm_compute)
  end.
  eexists _, r. split; [reflexivity |]. split; [exact Hlow |]. split; [exact Hr |].
  destruct (failing_evaluation_gets_a_type_and_suggestions None _ _ _ _ _ Hlow Hr)
    as (H1 & _ & _ & H4).
  by split.
Defined.

(** A witness of X9: for the same answer the type is [api_error], and a
    retry is asked for, not a new plan. *)
Lemma retry_and_replan_witness :
  ∃ e r,
    evaluate None (u "查一下") Examples.failed_answer_bag (u "general") = Some e
    ∧ analyze None (u "查一下") Examples.failed_answer_bag e (u "general") = Some r
    ∧ failure_type r = u "api_error"
    ∧ should_retry r = true
    ∧ should_replan r = false.
Proof.
  destruct (evaluate None (u "查一下") Examples.failed_answer_bag (u "general"))
    as [e|] eqn:He; [| by vm_compute in He].
  pose proof He as He'. vm_compute in He'. injection He' as <-.
  match type of He with
  | _ = Some ?e0 =>
    destruct (analyze None (u "查一下") Examples.failed_answer_bag e0 (u "general"))
      as [r|] eqn:Hr; [| by vm_compute in Hr]
  end.
  assert (failure_type r = u "api_error") as Hft.
  { pose proof Hr as Hr'. vm_compute in Hr'. injection Hr' as <-. by vm_compute. }
  eexists _, r. split; [reflexivity |]. split; [exact Hr |]. split; [exact Hft |].
  destruct (rule_based_retry_and_replan _ _ _ _ _ Hr) as (Hretry & _ & Hboth & _).
  assert (should_retry r = true) as Hyes by (apply Hretry; by left).
  split; [exact Hyes |]. rewrite Hyes in Hboth. exact Hboth.
Defined.

(** ** The reflection loop: what each pass leaves *)

Section LoopFields.

Import Notions.

Local Open Scope Q_scope.

Variable py_str : pyval → pystr.
Variable base_agent : Z → pystr → pydict → option pydict.
Variable client : option backend.
Variable self : ReflectionAgent.

Abbreviation loop_body := (Wrapper.loop_body py_str base_agent client self).
Abbreviation reflect_loop := (Wrapper.reflect_loop py_str base_agent client self).

(** One pass through the body, field by field, from any state. *)
Lemma loop_body_fields (st : loop_state) :
  match loop_body st with
  | Fault => True
  | Return res st' =>
    ∃ result e,
      attempts st' = attempts st ++ [mkAttempt (current_task st) result e]
      ∧ passed e = true
      ∧ iteration st' = iteration st
      ∧ reflection_history st' = reflection_history st
      ∧ res = <["reflection" :=
                 reflection_entry (iteration st) (overall_score e) true
                   (reflection_history st) None]> result
  | Break st' =>
    ∃ result e,
      attempts st' = attempts st ++ [mkAttempt (current_task st) result e]
      ∧ passed e = false
      ∧ iteration st' = iteration st
      ∧ reflection_history st' = reflection_history st
      ∧ (MAX_ITERATIONS self ≤ iteration st)%Z
  | Continue st' =>
    ∃ result e r,
      base_agent (iteration st) (current_task st) (current_context st) = Some result
      ∧ evaluate ((λ b, eval_reply_at b (iteration st)) <$> client)
          (current_task st) result (task_type_of result) = Some e
      ∧ analyze ((λ b, analyze_reply_at b (iteration st)) <$> client)
          (current_task st) result e (task_type_of result) = Some r
      ∧ attempts st' = attempts st ++ [mkAttempt (current_task st) result e]
      ∧ passed e = false
      ∧ iteration st' = (iteration st + 1)%Z
      ∧ (iteration st < MAX_ITERATIONS self)%Z
      ∧ reflection_history st'
        = reflection_history st ++
          [VDict (<["iteration" := VInt (iteration st)]>
                 (<["evaluation" := evaluation_to_dict e]>
                 (<["reflection" := reflection_to_dict r]> ∅)))]
      ∧ current_task st'
        = (if should_replan r || should_retry r
           then adjust_task py_str (current_task st) result r (task_type_of result)
           else current_task st)
      ∧ current_context st'
        = (if should_replan r || should_retry r
           then if negb (dict_is_empty (adjusted_params r))
                then adjusted_params r ∪ current_context st
                else current_context st
           else current_context st)
  end.
Proof.
  unfold Wrapper.loop_body.
  destruct (base_agent _ _ _) as [result|] eqn:Hbase; [| done].
  destruct (evaluate _ _ result _) as [e|] eqn:Heval; [| done].
  destruct (if Qltb (best_score st) (overall_score e) then _ else _) as [bs br].
  destruct (passed e) eqn:Hpass.
  { exists result, e. by repeat split. }
  destruct (MAX_ITERATIONS self <=? iteration st)%Z eqn:Hmax.
  { apply Z.leb_le in Hmax. exists result, e. by repeat split. }
  apply Z.leb_gt in Hmax.
  destruct (analyze _ _ _ _ _) as [r|] eqn:Hr; [| done].
  destruct (should_replan r || should_retry r) eqn:Hflag;
    exists result, e, r; rewrite Hflag; by repeat split.
Qed.

(** A run of the loop that returns: the passes that continued lead from
    the first state to a state from which the last pass, or the statements
    after the loop, gave the result.  [P] is any property the continuing
    passes keep. *)
Lemma reflect_loop_end (P : loop_state → Prop) :
  (∀ st st', P st → (iteration st ≤ MAX_ITERATIONS self)%Z →
             loop_body st = Continue st' → P st') →
  ∀ fuel st res st',
    P st → reflect_loop fuel st = Returns (res, st') →
    ∃ st0, P st0
      ∧ ((¬ (iteration st0 ≤ MAX_ITERATIONS self)%Z
          ∧ after_loop st0 = Returns (res, st'))
         ∨ ((iteration st0 ≤ MAX_ITERATIONS self)%Z
            ∧ (loop_body st0 = Return res st'
               ∨ ∃ st1, loop_body st0 = Break st1
                        ∧ after_loop st1 = Returns (res, st')))).
Proof.
  intros Hkeep fuel. induction fuel as [|fuel IH]; intros st res st' HP Hret;
    cbn [Wrapper.reflect_loop] in Hret;
    destruct (iteration st <=? MAX_ITERATIONS self)%Z eqn:Hle; cbn [negb] in Hret;
    try discriminate Hret.
  1,3: apply Z.leb_gt in Hle; exists st; split; [done |]; left;
       split; [lia | done].
  apply Z.leb_le in Hle.
  destruct (loop_body st) as [res1 st1 | st1 | st1 |] eqn:Hbody; try discriminate Hret.
  - injection Hret as <- <-. exists st. split; [done |]. right. split; [done |]. by left.
  - exists st. split; [done |]. right. split; [done |]. right. by exists st1.
  - apply (IH st1); [by eapply Hkeep | done].
Qed.

Lemma after_loop_fields (st : loop_state) (res : pydict) (st' : loop_state) :
  after_loop st = Returns (res, st') →
  st' = st
  ∧ ∃ score msg result,
      res = <["reflection" :=
               reflection_entry (iteration st) score false (reflection_history st)
                 (Some msg)]> result.
Proof.
  unfold after_loop. intros H.
  destruct (best_result st) as [best|]; [destruct (negb _) |];
    try destruct (last (attempts st)) as [a|]; try discriminate H;
    injection H as <- <-; (split; [done |]); by eexists _, _, _.
Qed.

(** [adjust_task] puts one hint after the task, or one before it. *)
Lemma adjust_task_shape (task : pystr) (result : pydict) (r : ReflectionResult)
    (tt : pystr) :
  (∃ hint, adjust_task py_str task result r tt = task ++ hint)
  ∨ adjust_task py_str task result r tt = u "请详细回答：" ++ task.
Proof.
  unfold adjust_task, _replan_task, _refine_task.
  destruct (should_replan r).
  { left. destruct (improvement_suggestions r); by eexists. }
  destruct (contains (u "irrelevant") (failure_type r)); [left; by eexists |].
  destruct (contains (u "incomplete") (failure_type r)); [left; by eexists |].
  destruct (negb (dict_is_empty (adjusted_params r))); [| left; exists []; by rewrite app_nil_r].
  destruct (is_high _); [by right |].
  destruct (truthy _); left; [by eexists | exists []; by rewrite app_nil_r].
Qed.

Lemma adjust_task_occurs (task : pystr) (result : pydict) (r : ReflectionResult)
    (tt : pystr) :
  occurs_in task (adjust_task py_str task result r tt).
Proof.
  destruct (adjust_task_shape task result r tt) as [[hint ->] | ->].
  - apply occurs_in_app_l, occurs_in_refl.
  - apply occurs_in_app_r, occurs_in_refl.
Qed.

(** X10.  [adjust_task] never drops the request: the adjusted task is the
    task followed by one hint, or the task after the words asking for a
    detailed answer; the task text occurs in it unchanged. *)
Theorem adjusted_task_keeps_the_request (task : pystr) (result : pydict)
    (r : ReflectionResult) (tt : pystr) :
  occurs_in task (adjust_task py_str task result r tt)
  ∧ (is_prefix task (adjust_task py_str task result r tt) = true
     ∨ adjust_task py_str task result r tt = u "请详细回答：" ++ task)
  ∧ (length task ≤ length (adjust_task py_str task result r tt))%nat.
Proof.
  split; [apply adjust_task_occurs |].
  destruct (adjust_task_shape task result r tt) as [[hint ->] | ->].
  - split; [left; apply is_prefix_spec; by exists hint | rewrite length_app; lia].
  - split; [by right | rewrite length_app; lia].
Qed.

Lemma counted_continue (st st' : loop_state) :
  counted self st → loop_body st = Continue st' → counted self st'.
Proof.
  intros (H0 & Hh & Ha & Hn & _) Hbody.
  pose proof (loop_body_fields st) as Hf. rewrite Hbody in Hf.
  destruct Hf as (result & e & r & _ & _ & _ & Hatt & _ & Hit & Hlt & Hhist & _).
  unfold counted. rewrite Hit, Hhist, Hatt, !length_app, Hh, Ha. cbn [length].
  split; [lia |]. split; [lia |]. split; [lia |]. split; [| left; lia].
  intros i entry Hi. apply lookup_app_Some in Hi as [Hi | [Hge Hi]]; [by apply Hn |].
  rewrite Hh in Hge, Hi.
  destruct (i - Z.to_nat (iteration st))%nat eqn:Hd; [| done].
  injection Hi as <-. eexists. split; [reflexivity |].
  rewrite lookup_insert_eq. do 2 f_equal. lia.
Qed.

(** X11.  A run with reflection enabled that returns: the reflection
    history has one entry for each iteration after the first attempt,
    numbered from 0 in order; the attempts are one more than its entries; and
    the [iterations] field of the result is its length. *)
Theorem reflection_history_counts_the_iterations (task : pystr)
    (context : option pydict) (res : pydict) (st : loop_state) :
  REFLECTION_ENABLED self = true →
  Wrapper.execute_task py_str base_agent client self task context = Returns (res, st) →
  length (attempts st) = S (length (reflection_history st))
  ∧ (∃ score passed msg result,
       res = <["reflection" :=
                reflection_entry (Z.of_nat (length (reflection_history st)))
                  score passed (reflection_history st) msg]> result)
  ∧ ∀ i entry, reflection_history st !! i = Some entry →
      ∃ d, entry = VDict d ∧ d !! "iteration" = Some (VInt (Z.of_nat i)).
Proof.
  intros Hen Hret. unfold Wrapper.execute_task in Hret. rewrite Hen in Hret.
  cbn [negb] in Hret.
  apply (reflect_loop_end (counted self)) in Hret as (st0 & Hc & Hend).
  - pose proof Hc as (H0 & Hh & Ha & Hn & Hcond).
    destruct Hend as [[Hgt Hafter] | [Hle [Hbody | (st1 & Hbody & Hafter)]]].
    + destruct Hcond as [? | [Hnil Hnone]]; [lia |].
      unfold after_loop in Hafter. by rewrite Hnone, Hnil in Hafter.
    + pose proof (loop_body_fields st0) as Hf. rewrite Hbody in Hf.
      destruct Hf as (result & e & Hatt & _ & Hit & Hhist & ->).
      rewrite Hatt, Hhist, length_app, Ha, Hh. cbn [length].
      split; [lia |]. split; [| done].
      exists (overall_score e), true, None, result. by rewrite Z2Nat.id.
    + pose proof (loop_body_fields st0) as Hf. rewrite Hbody in Hf.
      destruct Hf as (result & e & Hatt & _ & Hit & Hhist & _).
      apply after_loop_fields in Hafter as (-> & score & msg & result' & ->).
      rewrite Hatt, Hhist, length_app, Ha, Hh, Hit. cbn [length].
      split; [lia |]. split; [| done].
      exists score, false, (Some msg), result'. by rewrite Z2Nat.id.
  - intros st1 st2 Hc _ Hbody. by eapply counted_continue.
  - unfold counted. cbn. split; [done |]. split; [done |]. split; [done |].
    split; [intros i entry Hi; by rewrite lookup_nil in Hi | by right].
Qed.

Lemma carries_attempt (request : pystr) (st st' : loop_state) (a : attempt) :
  carries request st →
  attempts st' = attempts st ++ [a] → att_task a = current_task st →
  Forall (λ a, occurs_in request (att_task a)) (attempts st')
  ∧ (∀ a, head (attempts st') = Some a → att_task a = request)
  ∧ attempts st' ≠ [].
Proof.
  intros (Hcur & Hall & Hhead & Hfirst) Hatt Ha. rewrite Hatt.
  split; [apply Forall_app; split; [done |]; repeat constructor; by rewrite Ha |].
  split; [| by destruct (attempts st)].
  intros b Hb. destruct (attempts st) as [|c l] eqn:Hl.
  - injection Hb as <-. rewrite Ha. by apply Hfirst.
  - apply Hhead. exact Hb.
Qed.

(** X12.  Over a run of the reflection agent the request is never lost:
    the first attempt runs the task as given, and the task of every later
    attempt still contains it, whatever the analyzer and its backend
    suggested. *)
Theorem every_attempt_carries_the_request (task : pystr) (context : option pydict)
    (res : pydict) (st : loop_state) :
  Wrapper.execute_task py_str base_agent client self task context = Returns (res, st) →
  Forall (λ a, occurs_in task (att_task a)) (attempts st)
  ∧ ∀ a, head (attempts st) = Some a → att_task a = task.
Proof.
  intros Hret. unfold Wrapper.execute_task in Hret.
  destruct (REFLECTION_ENABLED self); cbn [negb] in Hret.
  - apply (reflect_loop_end (carries task)) in Hret as (st0 & Hc & Hend).
    + destruct Hend as [[_ Hafter] | [_ [Hbody | (st1 & Hbody & Hafter)]]].
      * apply after_loop_fields in Hafter as [-> _].
        destruct Hc as (_ & ? & ? & _). done.
      * pose proof (loop_body_fields st0) as Hf. rewrite Hbody in Hf.
        destruct Hf as (result & e & Hatt & _).
        destruct (carries_attempt task st0 st _ Hc Hatt eq_refl) as (? & ? & _). done.
      * pose proof (loop_body_fields st0) as Hf. rewrite Hbody in Hf.
        destruct Hf as (result & e & Hatt & _).
        apply after_loop_fields in Hafter as [-> _].
        destruct (carries_attempt task st0 st1 _ Hc Hatt eq_refl) as (? & ? & _). done.
    + intros st1 st2 Hc _ Hbody.
      pose proof (loop_body_fields st1) as Hf. rewrite Hbody in Hf.
      destruct Hf as (result & e & r & _ & _ & _ & Hatt & _ & _ & _ & _ & Htask & _).
      destruct (carries_attempt task st1 st2 _ Hc Hatt eq_refl) as (Hall & Hhead & Hne).
      split; [| done]. rewrite Htask. destruct Hc as (Hcur & _).
      destruct (should_replan r || should_retry r); [| done].
      eapply occurs_in_trans; [exact Hcur | apply adjust_task_occurs].
    + unfold carries. cbn. split; [apply occurs_in_refl |]. by repeat split.
  - destruct (base_agent _ _ _); [| done]. injection Hret as <- <-. cbn.
    split; [constructor | done].
Qed.

End LoopFields.

(** ** The reflection loop: what the next attempt runs *)

Section NextAttempt.

Local Open Scope Q_scope.

Variable py_str : pyval → pystr.
Variable base_agent : Z → pystr → pydict → option pydict.
Variable self : ReflectionAgent.

(** A literal is none of the literals of a list. *)
Ltac not_listed H :=
  repeat (apply elem_of_cons in H as [H | H]; [by vm_compute in H |]);
  by apply elem_of_nil in H.

(** X13.  A backend is configured and its analysis call fails (an exception,
    no JSON in the reply).  Then neither retry nor replan is set, whatever
    the failure type: the next attempt runs the same task in the same
    context. *)
Theorem failed_analysis_backend_repeats_the_attempt (b : backend)
    (st st' : loop_state) :
  analyze_reply_at b (iteration st) = AnalysisFails →
  Wrapper.loop_body py_str base_agent (Some b) self st = Continue st' →
  current_task st' = current_task st
  ∧ current_context st' = current_context st
  ∧ iteration st' = (iteration st + 1)%Z.
Proof.
  intros Hfail Hbody.
  pose proof (loop_body_fields py_str base_agent (Some b) self st) as Hf.
  rewrite Hbody in Hf.
  destruct Hf as (result & e & r & _ & _ & Hr & _ & _ & Hit & _ & _ & -> & ->).
  cbn [fmap option_fmap option_map] in Hr. rewrite Hfail in Hr.
  assert (should_replan r || should_retry r = false) as ->; [| done].
  unfold analyze in Hr. destruct (Qgeb _ _); [by injection Hr as <- |].
  apply bind_Some in Hr as (ft & _ & [= <-]). done.
Qed.

(** X14.  No backend.  After a failed attempt the next one runs the same
    task in the same context when the failure type is [no_results],
    [incomplete_results] or [unknown]; for [irrelevant_results] the task gets
    the first two rule-based suggestions as a note; only [api_error] refines
    the task by the adjusted parameters. *)
Theorem adjustment_without_backend (st st' : loop_state) :
  Wrapper.loop_body py_str base_agent None self st = Continue st' →
  ∃ result e r,
    base_agent (iteration st) (current_task st) (current_context st) = Some result
    ∧ evaluate None (current_task st) result (task_type_of result) = Some e
    ∧ analyze None (current_task st) result e (task_type_of result) = Some r
    ∧ failure_type r ∈ Notions.failure_types
    ∧ (failure_type r ∈ [u "no_results"; u "incomplete_results"; u "unknown"] →
       current_task st' = current_task st
       ∧ current_context st' = current_context st)
    ∧ (failure_type r = u "irrelevant_results" →
       current_task st'
       = current_task st ++ u "（注意：" ++ u "优化搜索关键词" ++ u "，"
         ++ u "添加更多限定条件" ++ u "）")
    ∧ (failure_type r = u "api_error" →
       current_task st' = _refine_task py_str (current_task st) result r).
Proof.
  intros Hbody.
  pose proof (loop_body_fields py_str base_agent None self st) as Hf.
  rewrite Hbody in Hf.
  destruct Hf as (result & e & r & Hbase & He & Hr & _ & Hfail & _ & _ & _ & -> & ->).
  cbn [fmap option_fmap option_map] in He, Hr.
  exists result, e, r. do 3 (split; [done |]).
  pose proof (evaluate_inv _ _ _ _ _ He) as (_ & _ & Hp & _).
  unfold analyze in Hr. unfold PASS_THRESHOLD in Hp. rewrite <- Hp, Hfail in Hr.
  apply bind_Some in Hr as (ft & Hft & Hr).
  apply bind_Some in Hr as (params & Hparams & [= <-]).
  apply classify_failure_range in Hft as [Hin Hempty].
  cbn [failure_type should_replan should_retry adjusted_params].
  split; [done |].
  unfold Notions.failure_types in Hin.
  repeat (apply elem_of_cons in Hin as [-> | Hin]);
    [.. | by apply elem_of_nil in Hin].
  - (* no_results: the result is empty, its type general, no parameters *)
    rewrite (Hempty eq_refl) in Hparams. vm_compute in Hparams.
    injection Hparams as <-.
    split; [| split; intros H; by vm_compute in H]. intros _.
    vm_compute. split; reflexivity.
  - split; [done |]. split; intros H; by vm_compute in H.
  - split; [intros H; exfalso; not_listed H |].
    split; [intros _; vm_compute; reflexivity | intros H; by vm_compute in H].
  - split; [intros H; exfalso; not_listed H |].
    split; [intros H; by vm_compute in H | done].
  - split; [done |]. split; intros H; by vm_compute in H.
Qed.

End NextAttempt.

(** ** The bound on the iterations *)

(** X15.  [set_max_iterations] clamps the bound into 0..5, a value in that
    range is taken as it is, and setting the bound again to what was set
    changes nothing.  With a bound so set, and over any base agent, the loop
    of [execute_task] ends within its bound; a run that returns has made at
    most [MAX_ITERATIONS + 1] attempts, six at most, and its iteration
    counter has stopped between 0 and [MAX_ITERATIONS].  Whether the run
    returns is left open: the base agent may raise. *)
Theorem max_iterations_setting_bounds_the_run
    (py_str : pyval → pystr) (base_agent : Z → pystr → pydict → option pydict)
    (client : option backend) (self : ReflectionAgent)
    (n : Z) (task : pystr) (context : option pydict) :
  let self' := set_max_iterations self n in
  let run := Wrapper.execute_task py_str base_agent client self' task context in
  (0 ≤ MAX_ITERATIONS self' ≤ 5)%Z
  ∧ MAX_ITERATIONS self' = (if n <? 0 then 0 else if 5 <? n then 5 else n)%Z
  ∧ set_max_iterations self' (MAX_ITERATIONS self') = self'
  ∧ run ≠ OutOfFuel
  ∧ ∀ res st, run = Returns (res, st) →
      (length (attempts st) ≤ Z.to_nat (MAX_ITERATIONS self' + 1))%nat
      ∧ (length (attempts st) ≤ 6)%nat
      ∧ (0 ≤ iteration st ≤ MAX_ITERATIONS self')%Z.
Proof.
  cbv zeta. unfold set_max_iterations. cbn [MAX_ITERATIONS REFLECTION_ENABLED].
  split; [lia |]. split; [repeat case_match; lia |].
  split; [f_equal; lia |].
  set (self' := mkAgent (Z.max 0 (Z.min 5 n)) (REFLECTION_ENABLED self)).
  unfold Wrapper.execute_task.
  destruct (negb (REFLECTION_ENABLED self')).
  - destruct (base_agent 0%Z task (default ∅ context)); [| by split].
    split; [done |]. intros res st [= <- <-]. cbn. lia.
  - destruct (reflect_loop_spec py_str base_agent client self'
                (Z.to_nat (MAX_ITERATIONS self' + 1))
                (initial_state task (default ∅ context))) as [Hfuel Hret].
    + unfold loop_invariant, tracks_best. cbn. repeat split; try done; lra.
    + by right.
    + cbn. lia.
    + split; [exact Hfuel |]. intros res st Hrun.
      destruct (Hret res st Hrun) as [Hlen (a & earlier & Hatt & _ & Hit & _)].
      split; [exact Hlen |].
      rewrite Hatt, length_app in Hlen. cbn [length MAX_ITERATIONS self'] in Hlen.
      rewrite Hatt, length_app, Hit. cbn [length MAX_ITERATIONS self']. lia.
Qed.

(** ** The unified agent: task types and the context of the steps *)

(** X16.  The names of the task types read back: [execute_task] decodes the
    name of each type to that type, so the names are distinct; and the type
    it writes into the result is the name of a type, which the reflection
    agent reads back as that type. *)
Theorem task_type_names_round_trip (t : TaskType) :
  task_type_of_analysis (TaskType_value t) = t
  ∧ (∀ t', TaskType_value t = TaskType_value t' → t = t')
  ∧ ∀ (py_str : pyval → pystr) (_build_task_with_context : pystr → pydict → pystr)
      (w : world) (task : pystr) (context_input : option pydict),
      ∃ t0, (Unified.execute_task py_str _build_task_with_context w task
               context_input).1 !! "task_type"
            = Some (VStr (TaskType_value t0))
            ∧ task_type_of_analysis
                (task_type_of (Unified.execute_task py_str _build_task_with_context
                                 w task context_input).1) = t0.
Proof.
  assert (∀ t, task_type_of_analysis (TaskType_value t) = t) as Hrt.
  { intros []; by vm_compute. }
  split; [apply Hrt |]. split.
  { intros t' Heq. by rewrite <- (Hrt t), Heq, Hrt. }
  intros py_str build w task context_input.
  assert (∃ t0, (Unified.execute_task py_str build w task context_input).1
                  !! "task_type" = Some (VStr (TaskType_value t0))) as [t0 Ht0].
  { unfold Unified.execute_task.
    match goal with
    | |- context [bool_decide (?t = QUESTION_ANSWERING)] =>
      destruct (bool_decide (t = QUESTION_ANSWERING));
        [exists QUESTION_ANSWERING | exists t]
    end; unfold _execute_question_answering_stream; cbn [fst];
      apply lookup_union_Some_l; by simplify_map_eq. }
  exists t0. split; [done |]. unfold task_type_of, get_or. rewrite Ht0. apply Hrt.
Qed.

(** X17.  The fallback analysis, which [execute_task] uses when there is no
    backend, answers [literature_research] or [general]; it is coarser than
    the rules of [_classify_task]: what it calls literature research the
    rules do too, and what the rules call general it does too. *)
Theorem fallback_analysis_is_coarser_than_the_rules (task : pystr) :
  let fallback := an_task_type (_fallback_task_analysis task) in
  (fallback = Some (u "literature_research") ∨ fallback = Some (u "general"))
  ∧ (fallback = Some (u "literature_research") →
     _classify_task None task = LITERATURE_RESEARCH)
  ∧ (_classify_task None task = GENERAL → fallback = Some (u "general")).
Proof.
  cbv zeta. rewrite fallback_analysis_task_types. cbn [_classify_task].
  rewrite rule_based_classify_cases.
  destruct (any_in fallback_keywords (lower task)) eqn:Hfb.
  - assert (any_in literature_keywords (lower task) = true) as ->.
    { apply any_in_spec in Hfb as (kw & Hkw & Hocc). apply any_in_spec.
      exists kw. split; [| done].
      unfold fallback_keywords in Hkw. unfold literature_keywords.
      repeat (apply elem_of_cons in Hkw as [-> | Hkw];
              [apply list_elem_of_In; cbn; tauto |]).
      by apply elem_of_nil in Hkw. }
    split; [by left |]. split; [done | intros H; discriminate H].
  - split; [by right |]. split; [intros H; by vm_compute in H | done].
Qed.

Section ContextOfTheSteps.

Variable py_str : pyval → pystr.
Variable w : world.
Variable task : pystr.
Variable task_type : TaskType.

Lemma project_output_keeps (id : pystr) (step_result ctx : pydict) (k : string) :
  (k ∉ Notions.step_context_keys →
   project_output id step_result ctx !! k = ctx !! k)
  ∧ (is_Some (ctx !! k) → is_Some (project_output id step_result ctx !! k)).
Proof.
  unfold project_output, Notions.step_context_keys.
  repeat case_match; (split; [intros Hk | intros Hs]); try done.
  all: try (apply lookup_insert_ne; intros <-; apply Hk;
            apply list_elem_of_In; cbn; tauto).
  all: apply lookup_insert_is_Some;
    match goal with
    | |- ?a = ?b ∨ _ => destruct (decide (a = b)); [by left | by right]
    end.
Qed.

Lemma run_step_context (i : nat) (step : PlanStep) (st : exec_state) :
  context (Unified.run_step py_str w task task_type i step st)
  = match _execute_step w i step task task_type (context st) with
    | StepOk step_result => project_output (step_id step) step_result (context st)
    | StepRaised _ => context st
    end.
Proof.
  unfold Unified.run_step. cbn [_update_step_status context].
  by destruct (_execute_step w i step task task_type (context st)).
Qed.

(** X18.  The writes of the step loop of [execute_task] to the context
    that the steps share: over the whole loop no key is removed, the keys
    written are among [papers], [analysis], [schedule_info] and [schedule],
    and every other key, the extracted parameters for one, keeps its value.
    (The handlers take the context as a value here; in the source the
    literature handler sets [papers] and [analysis] itself, two of these
    keys.) *)
Theorem steps_write_only_their_context_keys (todo : list PlanStep) (i : nat)
    (st : exec_state) (k : string) :
  let st' := Unified.run_steps py_str w task task_type i todo st in
  (k ∉ Notions.step_context_keys → context st' !! k = context st !! k)
  ∧ (is_Some (context st !! k) → is_Some (context st' !! k)).
Proof.
  cbv zeta. revert i st. induction todo as [|step rest IH]; intros i st; [done |].
  cbn [Unified.run_steps].
  destruct (IH (S i) (Unified.run_step py_str w task task_type i step st))
    as (Hkeep & Hsome).
  pose proof (run_step_context i step st) as Hctx.
  set (o := _execute_step w i step task task_type (context st)) in *.
  split.
  - intros Hk. rewrite (Hkeep Hk), Hctx.
    destruct o; [by apply project_output_keeps | done].
  - intros Hs. apply Hsome. rewrite Hctx.
    destruct o; [by apply project_output_keeps | done].
Qed.

End ContextOfTheSteps.

(** ** The adjuster: parameters and retry strategies *)

Section StrategyProperties.

Import Strategy.

(** X19.  [adjust_params]: a key the reflection adjusts gets the adjusted
    value, every other key keeps the original one, no key is lost, and
    adjusting twice by the same reflection is adjusting once. *)
Theorem adjusted_params_override_and_keep (original_params : pydict)
    (r : ReflectionResult) (k : string) :
  adjust_params original_params r !! k
  = match adjusted_params r !! k with
    | Some v => Some v
    | None => original_params !! k
    end
  ∧ dom (adjust_params original_params r)
    = dom (adjusted_params r) ∪ dom original_params
  ∧ adjust_params (adjust_params original_params r) r
    = adjust_params original_params r.
Proof.
  unfold adjust_params.
  destruct (dict_is_empty (adjusted_params r)) eqn:Hempty; cbn [negb].
  - apply dict_is_empty_true in Hempty. rewrite Hempty, lookup_empty, dom_empty_L.
    split; [done |]. split; [by rewrite (left_id_L ∅ (∪)) | done].
  - split; [| split].
    + rewrite lookup_union. by destruct (adjusted_params r !! k), (original_params !! k).
    + by rewrite dom_union_L.
    + by rewrite (assoc_L (∪)), (idemp_L (∪)).
Qed.

Lemma flags_escalate (k1 k2 k : string) (v2 v2' : bool) :
  (v2 = true → v2' = true) →
  truthy (get (flags k1 true k2 v2) k) = true →
  truthy (get (flags k1 true k2 v2') k) = true.
Proof.
  unfold flags, get. intros Himp.
  destruct (decide (k1 = k)) as [-> | Hk1]; [by rewrite !lookup_insert_eq |].
  rewrite !(lookup_insert_ne _ k1) by done.
  destruct (decide (k2 = k)) as [-> | Hk2]; [rewrite !lookup_insert_eq; exact Himp |].
  by rewrite !lookup_insert_ne by done.
Qed.

(** X20.  [get_retry_strategy] only escalates: a flag that is on at one
    attempt is on at every later attempt, for every failure type; the strategy
    is never empty, and its keys do not depend on the attempt. *)
Theorem retry_strategy_only_escalates (failure_type : pystr) (n m : Z) (k : string) :
  (n ≤ m)%Z →
  (truthy (get (get_retry_strategy failure_type n) k) = true →
   truthy (get (get_retry_strategy failure_type m) k) = true)
  ∧ dom (get_retry_strategy failure_type n) = dom (get_retry_strategy failure_type m)
  ∧ get_retry_strategy failure_type n ≠ ∅.
Proof.
  intros Hle. unfold get_retry_strategy.
  assert ((2 <=? n)%Z = true → (2 <=? m)%Z = true) as Himp.
  { rewrite !Z.leb_le. lia. }
  repeat case_match; (split; [| split]); try done;
    try (apply flags_escalate; done);
    try (unfold flags; by rewrite !dom_insert_L);
    unfold flags; apply insert_non_empty.
Qed.

End StrategyProperties.

(** A witness of X20: the fallback of [no_results] is off at the first
    attempt and on from the second. *)
Lemma retry_strategy_witness :
  (1 ≤ 2)%Z
  ∧ truthy (get (Strategy.get_retry_strategy (u "no_results") 1) "use_fallback") = false
  ∧ truthy (get (Strategy.get_retry_strategy (u "no_results") 2) "use_fallback") = true
  ∧ (truthy (get (Strategy.get_retry_strategy (u "no_results") 1) "expand_search") = true →
     truthy (get (Strategy.get_retry_strategy (u "no_results") 2) "expand_search") = true).
Proof.
  split; [lia |]. split; [by vm_compute |]. split; [by vm_compute |].
  exact (proj1 (retry_strategy_only_escalates (u "no_results") 1 2 "expand_search"
                  ltac:(lia))).
Defined.

(** ** Intent detection *)

Section IntentProperties.

Import Intent.

Local Open Scope Q_scope.

Lemma first_keyword_spec (kws : list pystr) (s : pystr) :
  match first_keyword kws s with
  | Some kw => any_in kws s = true ∧ kw ∈ kws ∧ occurs_in kw s
  | None => any_in kws s = false
  end.
Proof.
  induction kws as [|kw kws IH]; [done |]. cbn [first_keyword any_in].
  destruct (contains kw s) eqn:Hc.
  - split; [done |]. split; [left | by apply contains_spec].
  - destruct (first_keyword kws s); [| done].
    destruct IH as (? & ? & ?). split; [done |]. split; [by right | done].
Qed.

(** [_detect_intent] as a decision list over its seven rules. *)
Lemma detect_intent_cases (task : pystr) :
  intent (_detect_intent task)
  = if any_in experiment_keywords (lower task) then u "record_experiment"
    else if any_in reminder_keywords (lower task) then u "add_reminder"
    else if any_in query_keywords (lower task) then u "query_history"
    else if any_in review_keywords (lower task) then u "literature_review"
    else if any_in trend_keywords (lower task) then u "research_trends"
    else if any_in gap_keywords (lower task) then u "find_gaps"
    else if any_in paper_keywords (lower task) then u "search_papers"
    else u "general_chat".
Proof.
  unfold _detect_intent.
  repeat match goal with
         | |- context [first_keyword ?kws ?s] =>
           let H := fresh in
           pose proof (first_keyword_spec kws s) as H;
           destruct (first_keyword kws s); [destruct H as (-> & _) | rewrite H]
         end; reflexivity.
Qed.

(** X21.  [_detect_intent] is decided by keyword containment in the
    lower-cased task, the rules being tried in this order: experiment record,
    reminder, history query, literature review, research trends, research
    gaps, paper search; the first rule that matches gives the intent, and
    [general_chat] is the answer when none matches. *)
Theorem intent_is_the_first_matching_rule (task : pystr) :
  let i := intent (_detect_intent task) in
  let experiment := rule_matches experiment_keywords task in
  let reminder := rule_matches reminder_keywords task in
  let query := rule_matches query_keywords task in
  let review := rule_matches review_keywords task in
  let trend := rule_matches trend_keywords task in
  let gap := rule_matches gap_keywords task in
  let paper := rule_matches paper_keywords task in
  (i = u "record_experiment" ↔ experiment)
  ∧ (i = u "add_reminder" ↔ ¬ experiment ∧ reminder)
  ∧ (i = u "query_history" ↔ ¬ experiment ∧ ¬ reminder ∧ query)
  ∧ (i = u "literature_review" ↔ ¬ experiment ∧ ¬ reminder ∧ ¬ query ∧ review)
  ∧ (i = u "research_trends"
     ↔ ¬ experiment ∧ ¬ reminder ∧ ¬ query ∧ ¬ review ∧ trend)
  ∧ (i = u "find_gaps"
     ↔ ¬ experiment ∧ ¬ reminder ∧ ¬ query ∧ ¬ review ∧ ¬ trend ∧ gap)
  ∧ (i = u "search_papers"
     ↔ ¬ experiment ∧ ¬ reminder ∧ ¬ query ∧ ¬ review ∧ ¬ trend ∧ ¬ gap ∧ paper)
  ∧ (i = u "general_chat"
     ↔ ¬ experiment ∧ ¬ reminder ∧ ¬ query ∧ ¬ review ∧ ¬ trend ∧ ¬ gap ∧ ¬ paper).
Proof.
  cbv zeta. rewrite detect_intent_cases, !rule_fails_any, !rule_matches_any.
  destruct (any_in experiment_keywords (lower task));
    [| destruct (any_in reminder_keywords (lower task));
       [| destruct (any_in query_keywords (lower task));
          [| destruct (any_in review_keywords (lower task));
             [| destruct (any_in trend_keywords (lower task));
                [| destruct (any_in gap_keywords (lower task));
                   [| destruct (any_in paper_keywords (lower task))]]]]]].
  all: repeat match goal with |- _ ∧ _ => split end.
  all: split; intros H;
    [ first [ by (clear H; repeat split) | (vm_compute in H; discriminate H) ]
    | first [ (exfalso; repeat match goal with H : _ ∧ _ |- _ => destruct H end;
               discriminate)
            | reflexivity ] ].
Qed.

(** X22.  What [_detect_intent] returns hangs together: no tool is
    recommended exactly for [general_chat], the confidence is at least 0.8
    exactly when a tool is recommended, the hint then names a keyword that
    occurs in the lower-cased task, and a history query goes to the
    experiments exactly when the task mentions them. *)
Theorem intent_hint_names_a_keyword_of_the_task (task : pystr) :
  let i := _detect_intent task in
  (recommended_tool i = None ↔ intent i = u "general_chat")
  ∧ (8#10 <= confidence i ↔ recommended_tool i ≠ None)
  ∧ (recommended_tool i ≠ None →
     ∃ label kw, hint i = label ++ u "（关键词：" ++ kw ++ u "）"
                 ∧ occurs_in kw (lower task))
  ∧ (intent i = u "query_history" →
     recommended_tool i
     = Some (if contains (u "实验") (lower task)
             then u "query_experiments" else u "list_reminders"))
  ∧ (recommended_tool i = Some (u "query_experiments") →
     occurs_in (u "实验") (lower task)).
Proof.
  cbv zeta. unfold _detect_intent.
  repeat match goal with
         | |- context [first_keyword ?kws ?s] =>
           let H := fresh "Hkw" in
           pose proof (first_keyword_spec kws s) as H;
           destruct (first_keyword kws s); [destruct H as (_ & _ & H) | clear H]
         end.
  all: cbn [found intent recommended_tool confidence hint].
  all: split;
    [split; intros H;
     first [reflexivity | discriminate H | (vm_compute in H; discriminate H)] |].
  all: split;
    [split; intros H;
     [first [discriminate | (exfalso; unfold Qle in H; cbn in H; lia)]
     | first [(unfold Qle; cbn; lia) | congruence]] |].
  all: split;
    [intros H;
     first [ congruence
           | eexists _, _; split; [reflexivity |];
             match goal with Hk : occurs_in _ _ |- _ => exact Hk end ] |].
  all: split; intros H.
  all: try (vm_compute in H; discriminate H).
  all: destruct (contains (u "实验") (lower task)) eqn:Hc; try reflexivity.
  all: first [ by apply contains_spec | (vm_compute in H; discriminate H) ].
Qed.

(** The entry of a dict written as a chain of inserts. *)
Ltac look_up :=
  repeat (rewrite lookup_insert_ne by done); rewrite lookup_insert_eq; reflexivity.

Lemma literal_app_nonempty (lit : string) (rest : pystr) :
  u lit ≠ [] → u lit ++ rest ≠ [].
Proof. by destruct (u lit). Qed.

(** X23.  The simulated run, whatever the intent: it has five or six
    steps, numbered from 1 in the order they were made; the first is the
    thought that quotes the task, the last is the answer step, and the
    result holds that answer, which is not empty, and the number of steps as
    its [iterations]. *)
Theorem simulated_run_numbers_its_steps (task : pystr) (intent_info : option detected_intent) :
  let r := _simulate_react task intent_info in
  ∃ steps answer,
    r !! "steps" = Some (VList (VDict <$> steps))
    ∧ r !! "answer" = Some (VStr answer) ∧ answer ≠ []
    ∧ r !! "iterations" = Some (VInt (Z.of_nat (length steps)))
    ∧ (length steps = 5 ∨ length steps = 6)%nat
    ∧ (∀ i s, steps !! i = Some s →
              s !! "iteration" = Some (VInt (Z.of_nat i + 1)))
    ∧ (∃ s, steps !! 0%nat = Some s
            ∧ s !! "type" = Some (VStr (u "thought"))
            ∧ s !! "content" = Some (VStr (u "收到任务：" ++ task)))
    ∧ (∃ s, last steps = Some s
            ∧ s !! "type" = Some (VStr (u "answer"))
            ∧ s !! "content" = Some (VStr answer)).
Proof.
  cbv zeta. unfold _simulate_react.
  repeat match goal with
         | |- context [if ?c then _ else _] =>
           lazymatch c with
           | str_eqb _ _ => fail
           | _ => destruct c
           end
         end.
  all: cbn [app append_numbered length Z.of_nat].
  all: eexists _, _.
  all: split; [look_up |].
  all: split; [look_up |].
  all: split; [first [by vm_compute | by apply literal_app_nonempty; vm_compute] |].
  all: split; [look_up |].
  all: split; [cbn [length]; lia |].
  all: split;
    [intros i s Hs;
     repeat (destruct i as [|i];
             [cbn [lookup list_lookup] in Hs; injection Hs as <-;
              unfold at_iteration; by rewrite lookup_insert_eq
             | cbn [lookup list_lookup] in Hs]);
     discriminate Hs |].
  all: split; eexists; (split; [reflexivity |]); unfold at_iteration, thought;
    by simplify_map_eq.
Qed.

(** A condition on literals is replaced by its value. *)
Ltac settle_conditions :=
  repeat match goal with
         | |- context [bool_decide ?P] =>
           let b := eval vm_compute in (bool_decide P) in
           replace (bool_decide P) with b by (vm_compute; reflexivity)
         | |- context [str_eqb ?a ?b] =>
           let v := eval vm_compute in (str_eqb a b) in
           replace (str_eqb a b) with v by (vm_compute; reflexivity)
         end.

(** X26.  [ReActAgent.run] with no client answers by the simulation for
    the intent it detected.  The third step of the run is an action: it calls
    the recommended tool when the intent is an experiment record, a reminder
    or a history query, and the simulated web search for every other intent,
    the literature ones included. *)
Theorem simulated_run_acts_for_three_intents (task : pystr) :
  let i := _detect_intent task in
  let r := run_without_client task in
  ∃ steps s,
    r !! "steps" = Some (VList (VDict <$> steps))
    ∧ r !! "detected_intent" = Some (info_to_dict i)
    ∧ steps !! 2%nat = Some s
    ∧ s !! "type" = Some (VStr (u "action"))
    ∧ s !! "tool"
      = Some (VStr (if bool_decide (intent i ∈ [u "record_experiment";
                                                u "add_reminder";
                                                u "query_history"])
                    then default [] (recommended_tool i)
                    else u "search_web")).
Proof.
  cbv zeta. unfold run_without_client, _detect_intent.
  repeat match goal with
         | |- context [first_keyword ?kws ?s] => destruct (first_keyword kws s)
         end.
  all: try destruct (contains (u "实验") (lower task)).
  all: unfold _simulate_react;
    cbn [found intent recommended_tool mbind option_bind from_option default id].
  all: settle_conditions; cbv iota.
  all: cbn [app append_numbered length Z.of_nat].
  all: eexists _, _.
  all: split; [look_up |].
  all: split; [look_up |].
  all: split; [reflexivity |].
  all: unfold at_iteration, action; split; look_up.
Qed.

End IntentProperties.

(** ** The task text with its conversation context *)

Section PromptProperties.

Import Prompt.

Variable py_str : pyval → pystr.

Lemma join_snoc (sep : pystr) (parts : list pystr) (a p : pystr) :
  join sep (parts ++ [a; p]) = join sep (parts ++ [a]) ++ sep ++ p.
Proof.
  induction parts as [|x parts IH]; [done |].
  cbn [app]. destruct parts as [|y parts]; [by cbn; rewrite <- !app_assoc |].
  change (join sep (x :: (y :: parts) ++ [a; p]))
    with (x ++ sep ++ join sep ((y :: parts) ++ [a; p])).
  change (join sep (x :: (y :: parts) ++ [a]))
    with (x ++ sep ++ join sep ((y :: parts) ++ [a])).
  by rewrite IH, <- !app_assoc.
Qed.

Lemma join_ends_with (sep : pystr) (parts : list pystr) (a : pystr) :
  ∃ before, join sep (parts ++ [a]) = before ++ a.
Proof.
  induction parts as [|x parts IH]; [by exists [] |].
  destruct IH as [before IH]. cbn [app].
  destruct parts as [|y parts]; [exists (x ++ sep); by cbn; rewrite <- app_assoc |].
  change (join sep (x :: (y :: parts) ++ [a]))
    with (x ++ sep ++ join sep ((y :: parts) ++ [a])).
  rewrite IH. exists (x ++ sep ++ before). by rewrite <- !app_assoc.
Qed.

Lemma messages_part_length (messages : pyval) (lines : list pystr) :
  messages_part py_str messages = Some lines →
  (length lines ≤ 7)%nat ∧ (truthy messages = false → lines = []).
Proof.
  unfold messages_part. destruct (truthy messages);
    [| intros [= <-]; split; [cbn; lia | done]].
  intros H. apply bind_Some in H as (l & _ & H).
  apply bind_Some in H as (ls & Hls & [= <-]).
  apply length_mapM in Hls. rewrite length_drop in Hls.
  unfold pystr in *. cbn [length].
  split; [lia | done].
Qed.

Lemma papers_part_length (current_papers : pyval) (lines : list pystr) :
  papers_part py_str current_papers = Some lines →
  (length lines ≤ 11)%nat
  ∧ (truthy current_papers = false → lines = [])
  ∧ (truthy current_papers = true → NL ++ u "【当前论文列表】" ∈ lines).
Proof.
  unfold papers_part. destruct (truthy current_papers);
    [| intros [= <-]; split; [cbn; lia | by split]].
  intros H. apply bind_Some in H as (l & _ & H).
  apply bind_Some in H as (ls & Hls & [= <-]).
  apply length_mapM in Hls. rewrite length_imap, length_take in Hls.
  unfold pystr in *. cbn [length app NL].
  split; [lia |]. split; [done | intros _; by left].
Qed.

Lemma selected_part_length (index current_papers : pyval) (lines : list pystr) :
  selected_part py_str index current_papers = Some lines →
  (length lines ≤ 4)%nat ∧ (truthy current_papers = false → lines = []).
Proof.
  unfold selected_part. intros H.
  assert (lines = [] ∨ length lines = 4%nat ∧ truthy current_papers = true) as Hl.
  { destruct index; try (left; by injection H as <-).
    all: destruct (truthy current_papers); [| left; by injection H as <-].
    all: apply bind_Some in H as (? & _ & H); apply bind_Some in H as ([] & _ & H);
      [| left; by injection H as <-].
    all: apply bind_Some in H as (? & _ & H); apply bind_Some in H as (? & _ & H).
    all: apply bind_Some in H as (? & _ & H); apply bind_Some in H as (? & _ & H).
    all: right; by injection H as <-. }
  destruct Hl as [-> | [Hl Ht]]; [cbn; split; [lia | done] |].
  split; [lia | congruence].
Qed.

(** What [context_parts] is made of. *)
Lemma context_parts_shape (task : pystr) (context : pydict) (parts : list pystr) :
  context_parts py_str task context = Some parts →
  ∃ before,
    parts = before ++ [NL ++ u "【当前用户请求】"; u "  " ++ task]
    ∧ (length before ≤ 22)%nat
    ∧ (truthy (get_or context "messages" (VList [])) = false →
       truthy (get_or context "currentPapers" (VList [])) = false → before = [])
    ∧ (truthy (get_or context "currentPapers" (VList [])) = true →
       NL ++ u "【当前论文列表】" ∈ before).
Proof.
  unfold context_parts. intros H.
  apply bind_Some in H as (h & Hh & H). apply bind_Some in H as (p & Hp & H).
  apply bind_Some in H as (s & Hs & [= <-]).
  apply messages_part_length in Hh as [Hh Hh0].
  apply papers_part_length in Hp as (Hp & Hp0 & Hp1).
  apply selected_part_length in Hs as [Hs Hs0].
  exists (h ++ p ++ s). split; [by rewrite <- !app_assoc |].
  split; [unfold pystr in *; rewrite !length_app; lia |]. split.
  - intros Hm Hc. by rewrite (Hh0 Hm), (Hp0 Hc), (Hs0 Hc).
  - intros Hc. apply elem_of_app. right. apply elem_of_app. left. by apply Hp1.
Qed.

(** X24.  The text [_build_task_with_context] returns ends with the
    request header and the task itself, which is never shortened; it is
    joined from at most 24 parts (six messages, ten papers); and without
    messages and papers it is the header and the task alone. *)
Theorem request_is_last_and_intact (task : pystr) (context : pydict) (text : pystr) :
  _build_task_with_context py_str task context = Some text →
  (∃ before, text = before ++ u "【当前用户请求】" ++ NL ++ u "  " ++ task)
  ∧ (∃ parts, context_parts py_str task context = Some parts
              ∧ text = join NL parts ∧ (2 ≤ length parts ≤ 24)%nat)
  ∧ (truthy (get_or context "messages" (VList [])) = false →
     truthy (get_or context "currentPapers" (VList [])) = false →
     text = NL ++ u "【当前用户请求】" ++ NL ++ u "  " ++ task).
Proof.
  unfold _build_task_with_context. intros H.
  apply fmap_Some in H as (parts & Hparts & ->).
  destruct (context_parts_shape task context parts Hparts)
    as (before & -> & Hlen & Hnone & _).
  split; [| split].
  - rewrite join_snoc.
    destruct (join_ends_with NL before (NL ++ u "【当前用户请求】")) as [b ->].
    exists (b ++ NL). by rewrite <- !app_assoc.
  - exists (before ++ [NL ++ u "【当前用户请求】"; u "  " ++ task]).
    split; [done |]. split; [done |]. unfold pystr in *. rewrite length_app.
    cbn [length]. lia.
  - intros Hm Hc. rewrite (Hnone Hm Hc). cbn [app join].
    by rewrite <- ?app_assoc.
Qed.

Lemma lower_app (a b : pystr) : lower (a ++ b) = lower a ++ lower b.
Proof. apply map_app. Qed.

Lemma lower_occurs (kw s : pystr) : occurs_in kw s → occurs_in (lower kw) (lower s).
Proof. intros (pre & post & ->). exists (lower pre), (lower post). by rewrite !lower_app. Qed.

(** X25.  No backend, and a conversation context with a list of papers.
    The text handed to the fallback analysis then holds the header of the
    paper list, which contains the keyword for papers: [execute_task] takes
    every such request for literature research, whatever the task says. *)
Theorem paper_list_in_context_forces_literature_research
    (build : pystr → pydict → pystr) (w : world) (task : pystr) (context : pydict) :
  analysis_client w = None →
  truthy (get_or context "currentPapers" (VList [])) = true →
  _build_task_with_context py_str task context = Some (build task context) →
  (Unified.execute_task py_str build w task (Some context)).1 !! "task_type"
  = Some (VStr (u "literature_research")).
Proof.
  intros Hc Hpapers Hbuild.
  assert (dict_is_empty context = false) as Hne.
  { apply dict_is_empty_false. intros ->. by vm_compute in Hpapers. }
  assert (any_in fallback_keywords (lower (build task context)) = true) as Hkw.
  { apply any_in_spec. exists (u "论文"). split; [apply list_elem_of_In; cbn; tauto |].
    change (u "论文") with (lower (u "论文")) at 1. apply lower_occurs.
    unfold _build_task_with_context in Hbuild.
    apply fmap_Some in Hbuild as (parts & Hparts & ->).
    destruct (context_parts_shape task context parts Hparts)
      as (before & -> & _ & _ & Hin).
    apply occurs_in_trans with (NL ++ u "【当前论文列表】").
    - apply contains_spec. by vm_compute.
    - apply join_occurs. apply elem_of_app. left. by apply Hin. }
  unfold Unified.execute_task. rewrite Hne. cbn [negb].
  unfold _analyze_task_with_llm, _fallback_task_analysis. rewrite Hc, Hkw.
  cbn [an_task_type default from_option id].
  replace (task_type_of_analysis (u "literature_research")) with LITERATURE_RESEARCH
    by (by vm_compute).
  rewrite bool_decide_eq_false_2 by done. cbn [fst].
  apply lookup_union_Some_l. do 4 rewrite lookup_insert_ne by done.
  by rewrite lookup_insert_eq.
Qed.

End PromptProperties.

(** ** Witnesses over the run of the examples *)

(** The run of the examples returns, after three attempts. *)
Lemma sorry_run_returns :
  match Scenarios.sorry_run with
  | Returns (_, st) => length (attempts st) = 3%nat
  | _ => False
  end.
Proof. by vm_compute. Qed.

(** A witness of X11: three attempts, two entries in the history. *)
Lemma reflection_history_witness :
  REFLECTION_ENABLED default_agent = true
  ∧ match Scenarios.sorry_run with
    | Returns (res, st) =>
      length (attempts st) = 3%nat
      ∧ length (attempts st) = S (length (reflection_history st))
    | _ => False
    end.
Proof.
  split; [reflexivity |].
  pose proof sorry_run_returns as Hlen.
  pose proof (reflection_history_counts_the_iterations Examples.str_of
                Scenarios.sorry_agent None default_agent Scenarios.summary_task None)
    as H.
  unfold Scenarios.sorry_run in *.
  destruct (Wrapper.execute_task _ _ _ _ _ _) as [[res st]| |]; [| done | done].
  split; [exact Hlen |]. exact (proj1 (H res st eq_refl eq_refl)).
Defined.

(** A witness of X12: the second and the third attempt run the request with
    a note after it. *)
Lemma request_carried_witness :
  match Scenarios.sorry_run with
  | Returns (res, st) =>
    att_task <$> attempts st !! 1%nat
    = Some (Scenarios.summary_task ++ u "（注意：优化搜索关键词，添加更多限定条件）")
    ∧ Forall (λ a, occurs_in Scenarios.summary_task (att_task a)) (attempts st)
  | _ => False
  end.
Proof.
  assert (match Scenarios.sorry_run with
          | Returns (_, st) => att_task <$> attempts st !! 1%nat
          | _ => None
          end = Some (Scenarios.summary_task
                      ++ u "（注意：优化搜索关键词，添加更多限定条件）")) as Hsecond
    by (by vm_compute).
  pose proof (every_attempt_carries_the_request Examples.str_of
                Scenarios.sorry_agent None default_agent Scenarios.summary_task None)
    as H.
  unfold Scenarios.sorry_run in *.
  destruct (Wrapper.execute_task _ _ _ _ _ _) as [[res st]| |]; [| done | done].
  split; [exact Hsecond |]. exact (proj1 (H res st eq_refl)).
Defined.

(** A witness of X13: the analysis of the backend fails, and the second
    attempt runs the request as the first did. *)
Lemma failed_analysis_witness :
  analyze_reply_at Examples.harsh_backend 0 = AnalysisFails
  ∧ match Wrapper.loop_body Examples.str_of Scenarios.sorry_agent
            (Some Examples.harsh_backend) default_agent
            (initial_state Scenarios.summary_task ∅) with
    | Continue st' =>
      current_task st' = Scenarios.summary_task
      ∧ current_context st' = ∅
      ∧ iteration st' = 1%Z
    | _ => False
    end.
Proof.
  split; [reflexivity |].
  assert (match Wrapper.loop_body Examples.str_of Scenarios.sorry_agent
                  (Some Examples.harsh_backend) default_agent
                  (initial_state Scenarios.summary_task ∅) with
          | Continue _ => true
          | _ => false
          end = true) as Hc by (by vm_compute).
  pose proof (failed_analysis_backend_repeats_the_attempt Examples.str_of
                Scenarios.sorry_agent default_agent Examples.harsh_backend
                (initial_state Scenarios.summary_task ∅)) as H.
  destruct (Wrapper.loop_body _ _ _ _ _) as [| |st'|]; try discriminate Hc.
  exact (H st' eq_refl eq_refl).
Defined.

(** A witness of X14: with no backend the answer counts as irrelevant, and
    the next attempt gets the note of the replanning. *)
Lemma adjustment_witness :
  match Wrapper.loop_body Examples.str_of Scenarios.sorry_agent None default_agent
          (initial_state Scenarios.summary_task ∅) with
  | Continue st' =>
    current_task st'
    = Scenarios.summary_task ++ u "（注意：" ++ u "优化搜索关键词" ++ u "，"
      ++ u "添加更多限定条件" ++ u "）"
  | _ => False
  end.
Proof.
  assert (match Wrapper.loop_body Examples.str_of Scenarios.sorry_agent None
                  default_agent (initial_state Scenarios.summary_task ∅) with
          | Continue _ => true
          | _ => false
          end = true) as Hc by (by vm_compute).
  pose proof (adjustment_without_backend Examples.str_of Scenarios.sorry_agent
                default_agent (initial_state Scenarios.summary_task ∅)) as H.
  destruct (Wrapper.loop_body _ _ _ _ _) as [| |st'|]; try discriminate Hc.
  destruct (H st' eq_refl) as (result & e & r & Hbase & He & Hr & _ & _ & Hirr & _).
  injection Hbase as <-.
  vm_compute in He. injection He as <-.
  vm_compute in Hr. injection Hr as <-.
  apply Hirr. by vm_compute.
Defined.

(** A witness of X24: one message in the context. *)
Lemma request_is_last_witness :
  ∃ text,
    Prompt._build_task_with_context Examples.str_of Scenarios.summary_task
      Scenarios.chat_context = Some text
    ∧ text = u "【对话历史】" ++ NL ++ u "用户: hi" ++ NL ++ NL
             ++ u "【当前用户请求】" ++ NL ++ u "  " ++ Scenarios.summary_task
    ∧ ∃ before, text = before ++ u "【当前用户请求】" ++ NL ++ u "  "
                       ++ Scenarios.summary_task.
Proof.
  eexists. split; [by vm_compute |]. split; [by vm_compute |].
  refine (proj1 (request_is_last_and_intact Examples.str_of Scenarios.summary_task
                   Scenarios.chat_context _ _)).
  by vm_compute.
Defined.

(** A witness of X25: the same request is general without a context and
    literature research with a paper list in the context. *)
Lemma paper_list_witness :
  (analysis_client Examples.world_all_fail = None
   ∧ truthy (get_or Scenarios.papers_context "currentPapers" (VList [])) = true
   ∧ Prompt._build_task_with_context Examples.str_of Scenarios.summary_task
       Scenarios.papers_context
     = Some (Scenarios.build Scenarios.summary_task Scenarios.papers_context))
  ∧ (Unified.execute_task Examples.str_of Scenarios.build Examples.world_all_fail
       Scenarios.summary_task None).1 !! "task_type" = Some (VStr (u "general"))
  ∧ (Unified.execute_task Examples.str_of Scenarios.build Examples.world_all_fail
       Scenarios.summary_task (Some Scenarios.papers_context)).1 !! "task_type"
    = Some (VStr (u "literature_research")).
Proof.
  assert (Prompt._build_task_with_context Examples.str_of Scenarios.summary_task
            Scenarios.papers_context
          = Some (Scenarios.build Scenarios.summary_task Scenarios.papers_context))
    as Hbuild by (by vm_compute).
  split; [split; [reflexivity | split; [by vm_compute | exact Hbuild]] |].
  split; [by vm_compute |].
  exact (paper_list_in_context_forces_literature_research Examples.str_of
           Scenarios.build Examples.world_all_fail Scenarios.summary_task
           Scenarios.papers_context eq_refl ltac:(by vm_compute) Hbuild).
Defined.

